(** * AURA dashboard: the client-side coverage estimator

    A shallow embedding of the coverage computation that the AURA front end
    performs in the browser, on two screens:

    - the Repositories list page ([loadRepositories]), and
    - the RepositoryDetails page ([isTestFile], [matchTestFileToSource], the
      two [forEach] loops filling [sourceFilesWithTests], and [totalCoverage]).

    Modelling choices.
    - A JavaScript string is a [string]; [toLowerCase] lowers the letters
      [A]..[Z] and leaves every other character alone, as JavaScript does on
      ASCII strings.  JavaScript also lowers the letters beyond ASCII: the
      statements that depend on it are made for ASCII names and paths
      ([asciiInput]).
    - The regular expressions of the source are all literal patterns, anchored
      or not; each is modelled by the function that performs the same
      replacement ([replaceFirst], [replaceStart], [replaceEnd]).
    - [Set<string>] is a [gset string]; [Array.prototype.find] is [find].
    - [percentage] is the exact rational [(size / length) * 100].  The source
      evaluates the expression on doubles: [percentageNumber] is that number
      and [roundedCoverage] rounds it as the list page does, each operation
      being rounded to the nearest double (module [Number]).
    - A record read from the backend ([any] in the source) may lack a field,
      and the response may lack [tests] or [analyses]: module [DetailsAny]
      models the details page on such data, with [Throw] for the [TypeError]
      raised by a method call on [undefined].  A field that is present is a
      string, and the file list is an array.

    The embedding comes first, then the vocabulary of the statements, then
    the properties. *)

From Stdlib Require Import String Ascii List ZArith QArith Qround Qpower Bool.
From Stdlib Require Import Lia Lqa.
From stdpp Require Import gmap strings list.

Local Open Scope string_scope.
Local Open Scope Z_scope.

(** ** JavaScript string primitives *)

Module JS.

Definition lowerChar (c : ascii) : ascii :=
  let n := nat_of_ascii c in
  if ((65 <=? n)%nat && (n <=? 90)%nat)%bool then ascii_of_nat (n + 32) else c.

(** [s.toLowerCase()], on ASCII strings. *)
Fixpoint toLowerCase (s : string) : string :=
  match s with
  | EmptyString => EmptyString
  | String c s' => String (lowerChar c) (toLowerCase s')
  end.

(** [stripPrefix p s] is [Some rest] when [s] is [p] followed by [rest]. *)
Fixpoint stripPrefix (p s : string) : option string :=
  match p, s with
  | EmptyString, _ => Some s
  | String a p', String b s' =>
      if Ascii.eqb a b then stripPrefix p' s' else None
  | String _ _, EmptyString => None
  end.

Definition startsWith (s p : string) : bool :=
  match stripPrefix p s with Some _ => true | None => false end.

(** [s.includes(pat)] *)
Fixpoint includes (s pat : string) : bool :=
  startsWith s pat ||
  match s with
  | EmptyString => false
  | String _ s' => includes s' pat
  end.

(** [s.replace(/pat/, rep)] for a literal, unanchored [pat] without the [g]
    flag: the leftmost occurrence is replaced. *)
Fixpoint replaceFirst (pat rep s : string) : string :=
  match stripPrefix pat s with
  | Some rest => rep +:+ rest
  | None =>
      match s with
      | EmptyString => EmptyString
      | String c s' => String c (replaceFirst pat rep s')
      end
  end.

(** The first alternative, in the order written, that is a prefix of [s]. *)
Fixpoint firstPrefix (alts : list string) (s : string) : option string :=
  match alts with
  | [] => None
  | a :: alts' =>
      match stripPrefix a s with
      | Some rest => Some rest
      | None => firstPrefix alts' s
      end
  end.

(** [s.replace(/^(a1|a2|...)/, rep)] *)
Definition replaceStart (alts : list string) (rep s : string) : string :=
  match firstPrefix alts s with
  | Some rest => rep +:+ rest
  | None => s
  end.

(** [s.replace(/(a1|a2|...)$/, rep)]: the leftmost position from which one of
    the alternatives runs to the end of the string. *)
Fixpoint replaceEnd (alts : list string) (rep s : string) : string :=
  if existsb (String.eqb s) alts then rep
  else
    match s with
    | EmptyString => EmptyString
    | String c s' => String c (replaceEnd alts rep s')
    end.

(** [s.lastIndexOf(c)], [-1] when [c] does not occur. *)
Fixpoint lastIndexOf (c : ascii) (s : string) : Z :=
  match s with
  | EmptyString => -1
  | String b s' =>
      let r := lastIndexOf c s' in
      if 0 <=? r then r + 1 else if Ascii.eqb b c then 0 else -1
  end.

Fixpoint take (n : nat) (s : string) : string :=
  match n, s with
  | S n', String c s' => String c (take n' s')
  | _, _ => EmptyString
  end.

Fixpoint drop (n : nat) (s : string) : string :=
  match n, s with
  | S n', String _ s' => drop n' s'
  | _, _ => s
  end.

(** [s.substring(a, b)]: both indices are clamped to [0 .. length] and
    swapped when [a > b]. *)
Definition substring (s : string) (a b : Z) : string :=
  let len := Z.of_nat (String.length s) in
  let a' := Z.min (Z.max a 0) len in
  let b' := Z.min (Z.max b 0) len in
  let lo := Z.min a' b' in
  let hi := Z.max a' b' in
  take (Z.to_nat (hi - lo)) (drop (Z.to_nat lo) s).

(** [s.split(c)] for a one-character separator: never the empty array. *)
Fixpoint split (c : ascii) (s : string) : list string :=
  match s with
  | EmptyString => [EmptyString]
  | String b s' =>
      if Ascii.eqb b c then EmptyString :: split c s'
      else
        match split c s' with
        | [] => [String b EmptyString]
        | seg :: segs => String b seg :: segs
        end
  end.

(** [arr.pop()]: the last element, [None] ([undefined]) on the empty array. *)
Definition pop (l : list string) : option string := last l.

(** Truthiness of a string, of an optional string and of an optional id. *)
Definition truthy (s : string) : bool := negb (String.eqb s EmptyString).

Definition truthyOpt (o : option string) : bool :=
  match o with Some s => truthy s | None => false end.

Definition truthyNum (o : option Z) : bool :=
  match o with Some n => negb (n =? 0) | None => false end.

End JS.

Import JS.

(** ** JavaScript numbers

    A JavaScript number is an IEEE 754 double.  A finite double is a
    rational, and [*] and [/] return the exact result rounded to the nearest
    double, ties going to the even significand.  [fl] is that rounding, for
    significands of 53 bits; the exponent is not bounded, which agrees with
    the doubles for magnitudes between 2^-1022 and 2^1024.  The numbers of
    the pages are ratios of array lengths (below 2^32), multiplied by 100 and
    by 10. *)

Module Number.

(** The integer part of the binary logarithm of a positive [x]. *)
Definition exponent (x : Q) : Z :=
  let e := Z.log2 (Qnum x) - Z.log2 (Z.pos (Qden x)) in
  if Qle_bool (2 ^ e) x then e else e - 1.

(** The nearest integer, ties to even. *)
Definition roundEven (x : Q) : Z :=
  let n := Qfloor x in
  match (x - inject_Z n ?= 1 # 2)%Q with
  | Lt => n
  | Gt => n + 1
  | Eq => if Z.even n then n else n + 1
  end.

(** The double nearest to a positive [x]: the significand [x / 2^(e - 52)],
    which lies between 2^52 and 2^53, is rounded to an integer. *)
Definition nearest (x : Q) : Q :=
  let e := exponent x in
  (inject_Z (roundEven (x * 2 ^ (52 - e))) * 2 ^ (e - 52))%Q.

Definition fl (x : Q) : Q :=
  match (x ?= 0)%Q with
  | Eq => 0%Q
  | Gt => nearest x
  | Lt => (- nearest (- x))%Q
  end.

(** [x * y] and [x / y] *)
Definition mul (x y : Q) : Q := fl (x * y).
Definition div (x y : Q) : Q := fl (x / y).

(** [Math.round(x)]: the nearest integer, ties going up. *)
Definition round (x : Q) : Q := inject_Z (Qfloor (x + (1 # 2))).

End Number.

(** ** Data model *)

(** A file record of the file-listing endpoint. *)
Record File := mkFile {
  name : string;
  relative_path : string;
  extension : option string
}.

(** An analysis record: [{ id, file_path }]. *)
Module Analysis.
Record t := mk { id : Z; file_path : option string }.
End Analysis.

(** A generated-test record; only the fields the estimator reads. *)
Record GeneratedTest := mkGeneratedTest {
  test_id : Z;
  analysis_id : option Z;
  test_file_path : option string
}.

Definition optEqb (a b : option string) : bool :=
  match a, b with
  | Some x, Some y => String.eqb x y
  | None, None => true
  | _, _ => false
  end.

(** [o || ''] *)
Definition orEmpty (o : option string) : string :=
  match o with Some s => s | None => EmptyString end.

(** [a.id === test.analysis_id] *)
Definition sameId (a : Analysis.t) (test : GeneratedTest) : bool :=
  match analysis_id test with
  | Some n => Analysis.id a =? n
  | None => false
  end.

Definition codeExtensions : list string :=
  [".py"; ".js"; ".ts"; ".jsx"; ".tsx"; ".java"; ".cpp"; ".c"; ".h"; ".cs";
   ".go"; ".rs"; ".rb"; ".php"].

(** [files.filter(f => [...].includes(f.extension?.toLowerCase() || ''))] *)
Definition allCodeFiles (files : list File) : list File :=
  List.filter
    (fun f =>
       let ext := orEmpty (option_map toLowerCase (extension f)) in
       existsb (String.eqb ext) codeExtensions)
    files.

(** The test-file heuristic, for a given pattern list. *)
Definition isTestFileWith (patterns : list string) (filePath fileName : string)
  : bool :=
  let lowerPath := toLowerCase filePath in
  let lowerName := toLowerCase fileName in
  existsb (fun pattern => includes lowerPath pattern || includes lowerName pattern)
    patterns.

(** [(size / length) * 100], or [0] without source files: the value of the
    expression in exact arithmetic. *)
Definition percentage {A} (covered : gset string) (sourceFiles : list A) : Q :=
  if (0 <? length sourceFiles)%nat
  then (inject_Z (Z.of_nat (size covered))
        / inject_Z (Z.of_nat (length sourceFiles))) * 100
  else 0.

(** The same expression as JavaScript evaluates it: the quotient is rounded
    to a double, and so is its product by 100. *)
Definition percentageNumber {A} (covered : gset string) (sourceFiles : list A)
  : Q :=
  if (0 <? length sourceFiles)%nat
  then Number.mul
         (Number.div (inject_Z (Z.of_nat (size covered)))
            (inject_Z (Z.of_nat (length sourceFiles))))
         100
  else 0.

(** ** RepositoryDetails page *)

Module Details.

Definition testPatterns : list string :=
  ["test_"; "_test"; ".test."; ".spec."; "tests/"; "test/"; "__test__";
   "test/"; "spec/"; "tests/"; "test/"; "__tests__"].

Definition isTestFile (filePath fileName : string) : bool :=
  isTestFileWith testPatterns filePath fileName.

Definition sourceFiles (files : list File) : list File :=
  List.filter (fun f => negb (isTestFile (relative_path f) (name f)))
    (allCodeFiles files).

Definition testFiles (files : list File) : list File :=
  List.filter (fun f => isTestFile (relative_path f) (name f))
    (allCodeFiles files).

(** The chain of six [replace] calls on the test file name. *)
Definition potentialSourceName (testName : string) : string :=
  replaceFirst ".e2e." "."
    (replaceFirst "e2e." "."
       (replaceFirst ".spec." "."
          (replaceFirst ".test." "."
             (replaceFirst "_test." "."
                (replaceStart ["test_"] EmptyString testName))))).

(** [/^(test_|_test|\.test|\.spec|e2e|\.e2e)/] *)
Definition testMarkers : list string :=
  ["test_"; "_test"; ".test"; ".spec"; "e2e"; ".e2e"].

(** [/\.(py|js|ts|java)$/] *)
Definition sourceExt : list string := [".py"; ".js"; ".ts"; ".java"].

Definition dirOf (path : string) : string :=
  substring path 0 (lastIndexOf "/" path).

(** The callback given to [sourceFiles.find] in [matchTestFileToSource]. *)
Definition matchesSource (testName testPath potentialSourceName : string)
    (sourceFile : File) : bool :=
  let sourceName := toLowerCase (name sourceFile) in
  let sourcePath := toLowerCase (relative_path sourceFile) in
  if String.eqb sourceName potentialSourceName then true
  else
    let testDir := dirOf testPath in
    let sourceDir := dirOf sourcePath in
    if (String.eqb testDir sourceDir || includes testDir "test"
        || includes testDir "tests")
       && String.eqb
            (replaceEnd sourceExt EmptyString
               (replaceStart testMarkers EmptyString testName))
            (replaceEnd sourceExt EmptyString sourceName)
    then true
    else if includes testPath (replaceEnd sourceExt EmptyString sourceName)
    then true
    else if includes sourcePath
              (replaceEnd sourceExt EmptyString
                 (replaceStart testMarkers EmptyString testName))
    then true
    else false.

Definition matchTestFileToSource (sourceFiles : list File) (testFile : File)
  : option string :=
  let testName := toLowerCase (name testFile) in
  let testPath := toLowerCase (relative_path testFile) in
  match List.find (matchesSource testName testPath (potentialSourceName testName))
          sourceFiles with
  | Some matchingSource => Some (relative_path matchingSource)
  | None => None
  end.

(** Body of [testFiles.forEach]: [if (matchedPath) set.add(matchedPath)]. *)
Definition addTestFile (sourceFiles : list File) (acc : gset string)
    (testFile : File) : gset string :=
  match matchTestFileToSource sourceFiles testFile with
  | Some matchedPath => if truthy matchedPath then {[matchedPath]} ∪ acc else acc
  | None => acc
  end.

(** The callback of the [find] that follows the analysis of a generated test. *)
Definition matchesAnalysis (analysisPath : string) (f : File) : bool :=
  let filePath := toLowerCase (relative_path f) in
  let fileName := toLowerCase (name f) in
  includes analysisPath fileName
  || String.eqb filePath analysisPath
  || includes analysisPath filePath
  || includes filePath analysisPath
  || optEqb (Some fileName) (pop (split "/" analysisPath))
  || optEqb (pop (split "/" filePath)) (pop (split "/" analysisPath)).

(** [/\.(py|js|ts|jsx|tsx|java)$/] *)
Definition savedTestExt : list string :=
  [".py"; ".js"; ".ts"; ".jsx"; ".tsx"; ".java"].

(** The callback of the [find] that follows [test_file_path]. *)
Definition matchesSavedTest (testFilePath potentialSourceName : string)
    (f : File) : bool :=
  let fileName := toLowerCase (name f) in
  let filePath := toLowerCase (relative_path f) in
  String.eqb fileName potentialSourceName
  || includes testFilePath fileName
  || includes filePath (replaceEnd savedTestExt EmptyString potentialSourceName).

(** [matchedSourceFile] after the [if (test.analysis_id)] block. *)
Definition matchViaAnalysis (sourceFiles : list File)
    (analyses : list Analysis.t) (test : GeneratedTest) : option File :=
  if truthyNum (analysis_id test) then
    match List.find (fun a => sameId a test) analyses with
    | Some testAnalysis =>
        if truthyOpt (Analysis.file_path testAnalysis) then
          let analysisPath :=
            toLowerCase (orEmpty (Analysis.file_path testAnalysis)) in
          List.find (matchesAnalysis analysisPath) sourceFiles
        else None
    | None => None
    end
  else None.

(** [matchedSourceFile] at the end of the body of [tests.forEach]. *)
Definition matchGenerated (sourceFiles : list File)
    (analyses : list Analysis.t) (test : GeneratedTest) : option File :=
  match matchViaAnalysis sourceFiles analyses test with
  | Some f => Some f
  | None =>
      if truthyOpt (test_file_path test) then
        let testFilePath := toLowerCase (orEmpty (test_file_path test)) in
        let o := pop (split "/" testFilePath) in
        let testFileName := if truthyOpt o then orEmpty o else EmptyString in
        List.find
          (matchesSavedTest testFilePath (potentialSourceName testFileName))
          sourceFiles
      else None
  end.

Definition addGenerated (sourceFiles : list File) (analyses : list Analysis.t)
    (acc : gset string) (test : GeneratedTest) : gset string :=
  match matchGenerated sourceFiles analyses test with
  | Some matchedSourceFile => {[relative_path matchedSourceFile]} ∪ acc
  | None => acc
  end.

(** The set [sourceFilesWithTests] once both [forEach] loops have run. *)
Definition sourceFilesWithTests (sourceFiles testFiles : list File)
    (tests : list GeneratedTest) (analyses : list Analysis.t) : gset string :=
  fold_left (addGenerated sourceFiles analyses) tests
    (fold_left (addTestFile sourceFiles) testFiles ∅).

Definition totalCoverage (sourceFiles testFiles : list File)
    (tests : list GeneratedTest) (analyses : list Analysis.t) : Q :=
  percentage (sourceFilesWithTests sourceFiles testFiles tests analyses)
    sourceFiles.

(** [totalCoverage] as a JavaScript number. *)
Definition totalCoverageNumber (sourceFiles testFiles : list File)
    (tests : list GeneratedTest) (analyses : list Analysis.t) : Q :=
  percentageNumber (sourceFilesWithTests sourceFiles testFiles tests analyses)
    sourceFiles.

End Details.

(** ** Repositories list page ([loadRepositories]) *)

Module Repositories.

Definition testPatterns : list string :=
  ["test_"; "_test"; ".test."; ".spec."; "tests/"; "test/"; "__test__";
   "test/"; "spec/"; "tests/"; "test/"; "__tests__"].

Definition isTestFile (filePath fileName : string) : bool :=
  isTestFileWith testPatterns filePath fileName.

Definition sourceFiles (files : list File) : list File :=
  List.filter (fun f => negb (isTestFile (relative_path f) (name f)))
    (allCodeFiles files).

Definition testFiles (files : list File) : list File :=
  List.filter (fun f => isTestFile (relative_path f) (name f))
    (allCodeFiles files).

(** The chain of four [replace] calls on the test file name. *)
Definition potentialSourceName (testName : string) : string :=
  replaceFirst ".spec." "."
    (replaceFirst ".test." "."
       (replaceFirst "_test." "."
          (replaceStart ["test_"] EmptyString testName))).

(** [/^(test_|_test|\.test|\.spec)/] *)
Definition testMarkers : list string := ["test_"; "_test"; ".test"; ".spec"].

(** [/\.(py|js|ts|java)$/] *)
Definition sourceExt : list string := [".py"; ".js"; ".ts"; ".java"].

Definition dirOf (path : string) : string :=
  substring path 0 (lastIndexOf "/" path).

(** The callback given to [sourceFiles.find] in [testFiles.forEach]. *)
Definition matchesSource (testName testPath potentialSourceName : string)
    (sourceFile : File) : bool :=
  let sourceName := toLowerCase (name sourceFile) in
  let sourcePath := toLowerCase (relative_path sourceFile) in
  if String.eqb sourceName potentialSourceName then true
  else
    let testDir := dirOf testPath in
    let sourceDir := dirOf sourcePath in
    if (String.eqb testDir sourceDir || includes testDir "test"
        || includes testDir "tests")
       && String.eqb
            (replaceEnd sourceExt EmptyString
               (replaceStart testMarkers EmptyString testName))
            (replaceEnd sourceExt EmptyString sourceName)
    then true
    else false.

(** [matchingSource] in the body of [testFiles.forEach]. *)
Definition matchingSource (sourceFiles : list File) (testFile : File)
  : option File :=
  let testName := toLowerCase (name testFile) in
  let testPath := toLowerCase (relative_path testFile) in
  List.find (matchesSource testName testPath (potentialSourceName testName))
    sourceFiles.

Definition addTestFile (sourceFiles : list File) (acc : gset string)
    (testFile : File) : gset string :=
  match matchingSource sourceFiles testFile with
  | Some m => {[relative_path m]} ∪ acc
  | None => acc
  end.

Definition matchesAnalysis (analysisPath : string) (f : File) : bool :=
  let filePath := toLowerCase (relative_path f) in
  let fileName := toLowerCase (name f) in
  includes analysisPath fileName || String.eqb filePath analysisPath.

(** [sourceFile] in the body of [tests.forEach]; there is no guard on
    [test.analysis_id] and no fall-back to [test_file_path] here. *)
Definition matchGenerated (sourceFiles : list File)
    (analyses : list Analysis.t) (test : GeneratedTest) : option File :=
  match List.find (fun a => sameId a test) analyses with
  | Some testAnalysis =>
      if truthyOpt (Analysis.file_path testAnalysis) then
        let analysisPath :=
          toLowerCase (orEmpty (Analysis.file_path testAnalysis)) in
        List.find (matchesAnalysis analysisPath) sourceFiles
      else None
  | None => None
  end.

Definition addGenerated (sourceFiles : list File) (analyses : list Analysis.t)
    (acc : gset string) (test : GeneratedTest) : gset string :=
  match matchGenerated sourceFiles analyses test with
  | Some sourceFile => {[relative_path sourceFile]} ∪ acc
  | None => acc
  end.

Definition sourceFilesWithTests (sourceFiles testFiles : list File)
    (tests : list GeneratedTest) (analyses : list Analysis.t) : gset string :=
  fold_left (addGenerated sourceFiles analyses) tests
    (fold_left (addTestFile sourceFiles) testFiles ∅).

Definition totalCoverage (sourceFiles testFiles : list File)
    (tests : list GeneratedTest) (analyses : list Analysis.t) : Q :=
  percentage (sourceFilesWithTests sourceFiles testFiles tests analyses)
    sourceFiles.

(** [totalCoverage] as a JavaScript number. *)
Definition totalCoverageNumber (sourceFiles testFiles : list File)
    (tests : list GeneratedTest) (analyses : list Analysis.t) : Q :=
  percentageNumber (sourceFilesWithTests sourceFiles testFiles tests analyses)
    sourceFiles.

(** [Math.round(totalCoverage * 10) / 10], the number kept in [repoStats]:
    the product and the quotient are rounded to doubles. *)
Definition roundedCoverage (totalCoverage : Q) : Q :=
  Number.div (Number.round (Number.mul totalCoverage 10)) 10.

End Repositories.

(** ** Records as the backend sends them

    In the source the file list is [any[]]: a record may lack [name],
    [relative_path] or [extension].  Calling [toLowerCase] on a missing field
    raises a [TypeError]; [extension] alone is read through [?.]. *)

Inductive result (A : Type) : Type :=
| Ok (a : A)
| Throw.

Arguments Ok {A} a.
Arguments Throw {A}.

Definition bind {A B} (r : result A) (k : A → result B) : result B :=
  match r with
  | Ok a => k a
  | Throw => Throw
  end.

Notation "'let*' x ':=' r 'in' k" := (bind r (fun x => k))
  (at level 10, x name, r at level 100, k at level 200).

Record AnyFile := mkAnyFile {
  any_name : option string;
  any_relative_path : option string;
  any_extension : option string
}.

(** A record with every field the estimator reads. *)
Definition anyOf (f : File) : AnyFile :=
  mkAnyFile (Some (name f)) (Some (relative_path f)) (extension f).

(** [o.toLowerCase()] on a field that may be [undefined]. *)
Definition lowerOf (o : option string) : result string :=
  match o with
  | Some s => Ok (toLowerCase s)
  | None => Throw
  end.

(** [arr.find(...)] or [arr.forEach(...)] on a field of the response that
    may be [undefined]: the array, or a [TypeError]. *)
Definition arrayOf {A} (o : option (list A)) : result (list A) :=
  match o with
  | Some l => Ok l
  | None => Throw
  end.

(** [find], [filter] and [forEach] with a callback that may throw. *)
Fixpoint findM {A} (pred : A → result bool) (l : list A) : result (option A) :=
  match l with
  | [] => Ok None
  | x :: l' =>
      let* b := pred x in
      if b then Ok (Some x) else findM pred l'
  end.

Fixpoint filterM {A} (pred : A → result bool) (l : list A) : result (list A) :=
  match l with
  | [] => Ok []
  | x :: l' =>
      let* b := pred x in
      let* rest := filterM pred l' in
      Ok (if b then x :: rest else rest)
  end.

Fixpoint forEachM {A S} (body : S → A → result S) (l : list A) (s : S)
  : result S :=
  match l with
  | [] => Ok s
  | x :: l' => let* s' := body s x in forEachM body l' s'
  end.

Module DetailsAny.

Definition isTestFile (filePath fileName : option string) : result bool :=
  let* lowerPath := lowerOf filePath in
  let* lowerName := lowerOf fileName in
  Ok (existsb
        (fun pattern => includes lowerPath pattern || includes lowerName pattern)
        Details.testPatterns).

Definition allCodeFiles (files : list AnyFile) : list AnyFile :=
  List.filter
    (fun f =>
       let ext := orEmpty (option_map toLowerCase (any_extension f)) in
       existsb (String.eqb ext) codeExtensions)
    files.

Definition sourceFiles (files : list AnyFile) : result (list AnyFile) :=
  filterM
    (fun f =>
       let* b := isTestFile (any_relative_path f) (any_name f) in Ok (negb b))
    (allCodeFiles files).

Definition testFiles (files : list AnyFile) : result (list AnyFile) :=
  filterM (fun f => isTestFile (any_relative_path f) (any_name f))
    (allCodeFiles files).

Definition matchesSource (testName testPath potentialSourceName : string)
    (sourceFile : AnyFile) : result bool :=
  let* sourceName := lowerOf (any_name sourceFile) in
  let* sourcePath := lowerOf (any_relative_path sourceFile) in
  Ok (if String.eqb sourceName potentialSourceName then true
      else
        let testDir := Details.dirOf testPath in
        let sourceDir := Details.dirOf sourcePath in
        if (String.eqb testDir sourceDir || includes testDir "test"
            || includes testDir "tests")
           && String.eqb
                (replaceEnd Details.sourceExt EmptyString
                   (replaceStart Details.testMarkers EmptyString testName))
                (replaceEnd Details.sourceExt EmptyString sourceName)
        then true
        else if includes testPath
                  (replaceEnd Details.sourceExt EmptyString sourceName)
        then true
        else if includes sourcePath
                  (replaceEnd Details.sourceExt EmptyString
                     (replaceStart Details.testMarkers EmptyString testName))
        then true
        else false).

(** [null] and a missing [relative_path] are both falsy for the caller: the
    result is the optional field of the source file found. *)
Definition matchTestFileToSource (sourceFiles : list AnyFile)
    (testFile : AnyFile) : result (option string) :=
  let* testName := lowerOf (any_name testFile) in
  let* testPath := lowerOf (any_relative_path testFile) in
  let* m :=
    findM
      (matchesSource testName testPath (Details.potentialSourceName testName))
      sourceFiles in
  Ok (match m with
      | Some matchingSource => any_relative_path matchingSource
      | None => None
      end).

Definition addTestFile (sourceFiles : list AnyFile) (acc : gset string)
    (testFile : AnyFile) : result (gset string) :=
  let* matchedPath := matchTestFileToSource sourceFiles testFile in
  Ok (match matchedPath with
      | Some p => if truthy p then {[p]} ∪ acc else acc
      | None => acc
      end).

Definition matchesAnalysis (analysisPath : string) (f : AnyFile) : result bool :=
  let* filePath := lowerOf (any_relative_path f) in
  let* fileName := lowerOf (any_name f) in
  Ok (includes analysisPath fileName
      || String.eqb filePath analysisPath
      || includes analysisPath filePath
      || includes filePath analysisPath
      || optEqb (Some fileName) (pop (split "/" analysisPath))
      || optEqb (pop (split "/" filePath)) (pop (split "/" analysisPath))).

Definition matchesSavedTest (testFilePath potentialSourceName : string)
    (f : AnyFile) : result bool :=
  let* fileName := lowerOf (any_name f) in
  let* filePath := lowerOf (any_relative_path f) in
  Ok (String.eqb fileName potentialSourceName
      || includes testFilePath fileName
      || includes filePath
           (replaceEnd Details.savedTestExt EmptyString potentialSourceName)).

(** [analyses] and [tests] are read from the response without a default
    (line 507): [analyses.find] and [tests.forEach] throw when the field is
    missing. *)
Definition matchViaAnalysis (sourceFiles : list AnyFile)
    (analyses : option (list Analysis.t)) (test : GeneratedTest)
  : result (option AnyFile) :=
  if truthyNum (analysis_id test) then
    let* analyses := arrayOf analyses in
    match List.find (fun a => sameId a test) analyses with
    | Some testAnalysis =>
        if truthyOpt (Analysis.file_path testAnalysis) then
          let analysisPath :=
            toLowerCase (orEmpty (Analysis.file_path testAnalysis)) in
          findM (matchesAnalysis analysisPath) sourceFiles
        else Ok None
    | None => Ok None
    end
  else Ok None.

Definition matchGenerated (sourceFiles : list AnyFile)
    (analyses : option (list Analysis.t)) (test : GeneratedTest)
  : result (option AnyFile) :=
  let* m := matchViaAnalysis sourceFiles analyses test in
  match m with
  | Some f => Ok (Some f)
  | None =>
      if truthyOpt (test_file_path test) then
        let testFilePath := toLowerCase (orEmpty (test_file_path test)) in
        let o := pop (split "/" testFilePath) in
        let testFileName := if truthyOpt o then orEmpty o else EmptyString in
        findM
          (matchesSavedTest testFilePath
             (Details.potentialSourceName testFileName))
          sourceFiles
      else Ok None
  end.

(** The record found has a [relative_path]: the callback that accepted it has
    lower-cased that field.  The [None] branch is never taken. *)
Definition addGenerated (sourceFiles : list AnyFile)
    (analyses : option (list Analysis.t)) (acc : gset string)
    (test : GeneratedTest) : result (gset string) :=
  let* m := matchGenerated sourceFiles analyses test in
  Ok (match m with
      | Some matchedSourceFile =>
          match any_relative_path matchedSourceFile with
          | Some p => {[p]} ∪ acc
          | None => acc
          end
      | None => acc
      end).

Definition sourceFilesWithTests (sourceFiles testFiles : list AnyFile)
    (tests : option (list GeneratedTest))
    (analyses : option (list Analysis.t)) : result (gset string) :=
  let* acc := forEachM (addTestFile sourceFiles) testFiles ∅ in
  let* tests := arrayOf tests in
  forEachM (addGenerated sourceFiles analyses) tests acc.

Definition totalCoverage (sourceFiles testFiles : list AnyFile)
    (tests : option (list GeneratedTest))
    (analyses : option (list Analysis.t)) : result Q :=
  let* covered := sourceFilesWithTests sourceFiles testFiles tests analyses in
  Ok (percentage covered sourceFiles).

(** The component from the file list to the coverage: the partition of
    [files] (lines 474-480), then the two loops and the percentage (lines
    527-637), on the [tests] and [analyses] of the response.  The result is
    [sourceFilesWithTests] with [totalCoverage]. *)
Definition RepositoryDetails (files : list AnyFile)
    (tests : option (list GeneratedTest))
    (analyses : option (list Analysis.t)) : result (gset string * Q) :=
  let* sourceFiles := sourceFiles files in
  let* testFiles := testFiles files in
  let* covered := sourceFilesWithTests sourceFiles testFiles tests analyses in
  Ok (covered, percentage covered sourceFiles).

End DetailsAny.

(** ** More JavaScript string primitives *)

Module JSText.

(** [s.split(sep)] for a separator of one character or more: the occurrences
    of [sep] are found from the left and do not overlap.  [skip] counts the
    characters of an occurrence already recognised that are still ahead. *)
Fixpoint splitFrom (sep : string) (skip : nat) (s : string) : list string :=
  match s with
  | EmptyString => [EmptyString]
  | String c s' =>
      match skip with
      | S k => splitFrom sep k s'
      | O =>
          if startsWith s sep
          then EmptyString :: splitFrom sep (String.length sep - 1) s'
          else
            match splitFrom sep 0 s' with
            | [] => [String c EmptyString]
            | seg :: segs => String c seg :: segs
            end
      end
  end.

Definition splitOn (sep s : string) : list string := splitFrom sep 0 s.

(** [arr.join(sep)] *)
Definition join (sep : string) (l : list string) : string := String.concat sep l.

(** The characters [\s] and [trim] take for white space, among ASCII. *)
Definition isSpace (c : ascii) : bool :=
  let n := nat_of_ascii c in
  ((9 <=? n)%nat && (n <=? 13)%nat) || (n =? 32)%nat.

Fixpoint trimStart (s : string) : string :=
  match s with
  | EmptyString => EmptyString
  | String c s' => if isSpace c then trimStart s' else s
  end.

(** [trimEnd]: drop the white space that runs to the end. *)
Fixpoint trimEnd (s : string) : string :=
  match s with
  | EmptyString => EmptyString
  | String c s' =>
      match trimEnd s' with
      | EmptyString => if isSpace c then EmptyString else String c EmptyString
      | t => String c t
      end
  end.

(** [s.trim()] *)
Definition trim (s : string) : string := trimEnd (trimStart s).

(** [s.replace(/re/g, rep)] where [re] matches exactly one character, those
    that [pred] accepts. *)
Fixpoint replaceChars (pred : ascii → bool) (rep : string) (s : string)
  : string :=
  match s with
  | EmptyString => EmptyString
  | String c s' =>
      (if pred c then rep else String c EmptyString)
      +:+ replaceChars pred rep s'
  end.

End JSText.

Import JSText.

(** ** Language line of a repository (both pages)

    [language.split(', ').filter(lang =>
       !lang.toLowerCase().includes('json')).join(', ')] *)
Definition displayLanguages (language : string) : string :=
  join ", "
    (List.filter (fun lang => negb (includes (toLowerCase lang) "json"))
       (splitOn ", " language)).

(** A generated-test record with the fields the test-coverage tabs read. *)
Record TestRow := mkTestRow {
  row : GeneratedTest;
  test_type : option string;
  test_count : option Z;
  test_code : option string
}.

(** An issue record; only the fields the views read. *)
Record Issue := mkIssue {
  issue_type : option string;
  severity : option string
}.

(** ** Repositories list page on records as the backend sends them

    The body of the [try] in [loadRepositories], from the two responses to
    the entry of [stats]; an exception anywhere in it is caught and the
    repository gets the defaults.  The file response is taken to be an
    array when the request succeeds. *)

Record Statistics := mkStatistics { total_issues : option Z }.

Record DetailsData := mkDetailsData {
  data_statistics : option Statistics;
  data_analyses : option (list Analysis.t);
  data_tests : option (list GeneratedTest)
}.

Record RepoStat := mkRepoStat { issues : Z; coverage : Q }.

Module RepositoriesAny.

Definition isTestFile (filePath fileName : option string) : result bool :=
  let* lowerPath := lowerOf filePath in
  let* lowerName := lowerOf fileName in
  Ok (existsb
        (fun pattern => includes lowerPath pattern || includes lowerName pattern)
        Repositories.testPatterns).

Definition allCodeFiles (files : list AnyFile) : list AnyFile :=
  List.filter
    (fun f =>
       let ext := orEmpty (option_map toLowerCase (any_extension f)) in
       existsb (String.eqb ext) codeExtensions)
    files.

Definition sourceFiles (files : list AnyFile) : result (list AnyFile) :=
  filterM
    (fun f =>
       let* b := isTestFile (any_relative_path f) (any_name f) in Ok (negb b))
    (allCodeFiles files).

Definition testFiles (files : list AnyFile) : result (list AnyFile) :=
  filterM (fun f => isTestFile (any_relative_path f) (any_name f))
    (allCodeFiles files).

Definition matchesSource (testName testPath potentialSourceName : string)
    (sourceFile : AnyFile) : result bool :=
  let* sourceName := lowerOf (any_name sourceFile) in
  let* sourcePath := lowerOf (any_relative_path sourceFile) in
  Ok (if String.eqb sourceName potentialSourceName then true
      else
        let testDir := Repositories.dirOf testPath in
        let sourceDir := Repositories.dirOf sourcePath in
        if (String.eqb testDir sourceDir || includes testDir "test"
            || includes testDir "tests")
           && String.eqb
                (replaceEnd Repositories.sourceExt EmptyString
                   (replaceStart Repositories.testMarkers EmptyString testName))
                (replaceEnd Repositories.sourceExt EmptyString sourceName)
        then true
        else false).

Definition matchingSource (sourceFiles : list AnyFile) (testFile : AnyFile)
  : result (option AnyFile) :=
  let* testName := lowerOf (any_name testFile) in
  let* testPath := lowerOf (any_relative_path testFile) in
  findM
    (matchesSource testName testPath
       (Repositories.potentialSourceName testName))
    sourceFiles.

(** The record found has a [relative_path]: the callback that accepted it has
    lower-cased that field.  The [None] branches are never taken. *)
Definition addFound (acc : gset string) (found : option AnyFile)
  : gset string :=
  match found with
  | Some sourceFile =>
      match any_relative_path sourceFile with
      | Some p => {[p]} ∪ acc
      | None => acc
      end
  | None => acc
  end.

Definition addTestFile (sourceFiles : list AnyFile) (acc : gset string)
    (testFile : AnyFile) : result (gset string) :=
  let* m := matchingSource sourceFiles testFile in Ok (addFound acc m).

Definition matchesAnalysis (analysisPath : string) (f : AnyFile) : result bool :=
  let* filePath := lowerOf (any_relative_path f) in
  let* fileName := lowerOf (any_name f) in
  Ok (includes analysisPath fileName || String.eqb filePath analysisPath).

Definition matchGenerated (sourceFiles : list AnyFile)
    (analyses : list Analysis.t) (test : GeneratedTest)
  : result (option AnyFile) :=
  match List.find (fun a => sameId a test) analyses with
  | Some testAnalysis =>
      if truthyOpt (Analysis.file_path testAnalysis) then
        let analysisPath :=
          toLowerCase (orEmpty (Analysis.file_path testAnalysis)) in
        findM (matchesAnalysis analysisPath) sourceFiles
      else Ok None
  | None => Ok None
  end.

Definition addGenerated (sourceFiles : list AnyFile)
    (analyses : list Analysis.t) (acc : gset string) (test : GeneratedTest)
  : result (gset string) :=
  let* m := matchGenerated sourceFiles analyses test in Ok (addFound acc m).

Definition sourceFilesWithTests (sourceFiles testFiles : list AnyFile)
    (tests : list GeneratedTest) (analyses : list Analysis.t)
  : result (gset string) :=
  let* acc := forEachM (addTestFile sourceFiles) testFiles ∅ in
  forEachM (addGenerated sourceFiles analyses) tests acc.

(** [totalCoverage], a JavaScript number. *)
Definition totalCoverage (sourceFiles testFiles : list AnyFile)
    (tests : list GeneratedTest) (analyses : list Analysis.t) : result Q :=
  let* covered := sourceFilesWithTests sourceFiles testFiles tests analyses in
  Ok (percentageNumber covered sourceFiles).

(** [statsData.total_issues || 0] *)
Definition issuesOrZero (statsData : Statistics) : Z :=
  match total_issues statsData with
  | Some n => n
  | None => 0
  end.

(** The body of the outer [try].  [details] is [Throw] when the request for
    the details fails; [filesResponse] is [Throw] when the request for the
    files fails, which the inner [catch] turns into no files. *)
Definition tryRepoStat (details : result DetailsData)
    (filesResponse : result (list AnyFile)) : result RepoStat :=
  let* data := details in
  let statsData := data_statistics data in
  let analyses := default [] (data_analyses data) in
  let tests := default [] (data_tests data) in
  let files := match filesResponse with Ok l => l | Throw => [] end in
  let* sourceFiles := sourceFiles files in
  let* testFiles := testFiles files in
  let* totalCoverage := totalCoverage sourceFiles testFiles tests analyses in
  let* stats :=
    match statsData with Some s => Ok s | None => Throw end in
  Ok (mkRepoStat (issuesOrZero stats)
        (Repositories.roundedCoverage totalCoverage)).

(** [stats[repo.id]] after the [try]/[catch]. *)
Definition repoStat (details : result DetailsData)
    (filesResponse : result (list AnyFile)) : RepoStat :=
  match tryRepoStat details filesResponse with
  | Ok s => s
  | Throw => mkRepoStat 0 0
  end.

End RepositoriesAny.

(** ** RepositoryDetails page: helpers of the views *)

Module DetailsView.

Definition getFileLanguage (extension : string) : string :=
  let ext := toLowerCase extension in
  if String.eqb ext ".py" then "python"
  else if existsb (String.eqb ext) [".js"; ".jsx"; ".mjs"; ".cjs"]
  then "javascript"
  else if existsb (String.eqb ext) [".ts"; ".tsx"] then "typescript"
  else if String.eqb ext ".java" then "java"
  else if existsb (String.eqb ext) [".cpp"; ".cc"; ".cxx"; ".hpp"] then "cpp"
  else if existsb (String.eqb ext) [".c"; ".h"] then "c"
  else if String.eqb ext ".cs" then "csharp"
  else if String.eqb ext ".go" then "go"
  else if String.eqb ext ".rs" then "rust"
  else if String.eqb ext ".rb" then "ruby"
  else if existsb (String.eqb ext) [".php"; ".phtml"] then "php"
  else "python".

(** [/\.(py|js|ts|jsx|tsx|java)$/] *)
Definition baseExt : list string :=
  [".py"; ".js"; ".ts"; ".jsx"; ".tsx"; ".java"].

(** [sourceName.replace(/\.(py|js|ts|jsx|tsx|java)$/, '')] *)
Definition sourceBaseName (sourceName : string) : string :=
  replaceEnd baseExt EmptyString sourceName.

(** The chain of five [replace] calls on a test file name. *)
Definition testBaseName (testName : string) : string :=
  replaceEnd baseExt EmptyString
    (replaceFirst ".spec." "."
       (replaceFirst ".test." "."
          (replaceFirst "_test." "."
             (replaceStart ["test_"] EmptyString testName)))).

(** Callback of [testFiles.filter] for source file [f]. *)
Definition matchesTestFile (f testFile : File) : bool :=
  let sourceName := toLowerCase (name f) in
  let testName := toLowerCase (name testFile) in
  String.eqb (testBaseName testName) (sourceBaseName sourceName)
  || includes testName (sourceBaseName sourceName).

(** Callback of [tests.filter] for source file [f]. *)
Definition matchesTest (analyses : list Analysis.t) (f : File) (t : TestRow)
  : bool :=
  let sourceName := toLowerCase (name f) in
  match List.find (fun a => sameId a (row t)) analyses with
  | None => false
  | Some testAnalysis =>
      let testPath :=
        orEmpty (option_map toLowerCase (Analysis.file_path testAnalysis)) in
      includes testPath sourceName
      || includes testPath (sourceBaseName sourceName)
  end.

(** [matchingTestFiles.length > 0 || fileTests.length > 0] *)
Definition hasTests (testFiles : list File) (tests : list TestRow)
    (analyses : list Analysis.t) (f : File) : bool :=
  (0 <? length (List.filter (matchesTestFile f) testFiles))%nat
  || (0 <? length (List.filter (matchesTest analyses f) tests))%nat.

(** [matchingTestFiles.length === 0 && fileTests.length === 0] *)
Definition lacksTests (testFiles : list File) (tests : list TestRow)
    (analyses : list Analysis.t) (f : File) : bool :=
  (length (List.filter (matchesTestFile f) testFiles) =? 0)%nat
  && (length (List.filter (matchesTest analyses f) tests) =? 0)%nat.

(** The file list: [fileCoverage] is 100 or 0. *)
Definition fileCoverage (testFiles : list File) (tests : list TestRow)
    (analyses : list Analysis.t) (f : File) : Z :=
  if hasTests testFiles tests analyses f then 100 else 0.

Definition unitTests (tests : list TestRow) : list TestRow :=
  List.filter
    (fun t =>
       negb (truthyOpt (test_type t))
       || optEqb (test_type t) (Some "unit")
       || optEqb (test_type t) (Some "Unit Test"))
    tests.

Definition unitTestFiles (testFiles : list File) : list File :=
  List.filter
    (fun f =>
       let name := toLowerCase (name f) in
       includes name "test" || includes name "spec" || includes name "unit")
    testFiles.

Definition e2eTests (tests : list TestRow) : list TestRow :=
  List.filter
    (fun t =>
       optEqb (test_type t) (Some "e2e")
       || optEqb (test_type t) (Some "E2E Test")
       || optEqb (test_type t) (Some "e2e"))
    tests.

Definition e2eTestFiles (testFiles : list File) : list File :=
  List.filter
    (fun f =>
       let name := toLowerCase (name f) in
       includes name "e2e" || includes name "integration"
       || includes name "end-to-end")
    testFiles.

(** [(n / total) * 100], or [0] when [total] is [0]. *)
Definition ratio100 (n total : nat) : Q :=
  if (0 <? total)%nat
  then (inject_Z (Z.of_nat n) / inject_Z (Z.of_nat total)) * 100
  else 0.

Definition filesWithUnitTests (sourceFiles testFiles : list File)
    (tests : list TestRow) (analyses : list Analysis.t) : list File :=
  List.filter (hasTests (unitTestFiles testFiles) (unitTests tests) analyses)
    sourceFiles.

Definition unitCoverage (sourceFiles testFiles : list File)
    (tests : list TestRow) (analyses : list Analysis.t) : Q :=
  ratio100 (length (filesWithUnitTests sourceFiles testFiles tests analyses))
    (length sourceFiles).

(** The count beside "Files Needing Test Coverage": all test files and all
    tests are used here. *)
Definition needingCoverageCount (sourceFiles testFiles : list File)
    (tests : list TestRow) (analyses : list Analysis.t) : nat :=
  length (List.filter (lacksTests testFiles tests analyses) sourceFiles).

(** [needsTests] of the unit tab; the list shown is its first 20 entries. *)
Definition needsUnitTests (sourceFiles testFiles : list File)
    (tests : list TestRow) (analyses : list Analysis.t) : list File :=
  List.filter (lacksTests (unitTestFiles testFiles) (unitTests tests) analyses)
    sourceFiles.

Definition shownNeedingUnitTests (sourceFiles testFiles : list File)
    (tests : list TestRow) (analyses : list Analysis.t) : list File :=
  firstn 20 (needsUnitTests sourceFiles testFiles tests analyses).

Definition filesWithE2ETests (sourceFiles testFiles : list File)
    (tests : list TestRow) (analyses : list Analysis.t) : list File :=
  List.filter (hasTests (e2eTestFiles testFiles) (e2eTests tests) analyses)
    sourceFiles.

Definition e2eCoverage (sourceFiles testFiles : list File)
    (tests : list TestRow) (analyses : list Analysis.t) : Q :=
  ratio100 (length (filesWithE2ETests sourceFiles testFiles tests analyses))
    (length sourceFiles).

Definition needsE2ETests (sourceFiles testFiles : list File)
    (tests : list TestRow) (analyses : list Analysis.t) : list File :=
  List.filter (lacksTests (e2eTestFiles testFiles) (e2eTests tests) analyses)
    sourceFiles.

(** Names that every object literal inherits from [Object.prototype]: read
    from [{}] they give a function or an object, which is truthy and has no
    [push]. *)
Definition objectPrototypeKeys : list string :=
  ["constructor"; "__defineGetter__"; "__defineSetter__"; "hasOwnProperty";
   "__lookupGetter__"; "__lookupSetter__"; "isPrototypeOf";
   "propertyIsEnumerable"; "toString"; "valueOf"; "__proto__";
   "toLocaleString"].

(** [file.relative_path.substring(0, file.relative_path.lastIndexOf('/'))
     || '/'] *)
Definition dirKey (file : File) : string :=
  let d :=
    substring (relative_path file) 0 (lastIndexOf "/" (relative_path file)) in
  if truthy d then d else "/".

(** Body of the [forEach] that fills [filesByDir]; the map holds the own
    properties of the object, each an array.  When [dir] is not an own
    property but an inherited name, [filesByDir[dir]] is truthy, no array is
    stored, and [filesByDir[dir].push] is not a function. *)
Definition groupFile (filesByDir : gmap string (list File)) (file : File)
  : result (gmap string (list File)) :=
  let dir := dirKey file in
  match filesByDir !! dir with
  | Some dirFiles => Ok (<[dir := (dirFiles ++ [file])%list]> filesByDir)
  | None =>
      if existsb (String.eqb dir) objectPrototypeKeys then Throw
      else Ok (<[dir := [file]]> filesByDir)
  end.

Definition filesByDir (sourceFiles : list File)
  : result (gmap string (list File)) :=
  forEachM groupFile sourceFiles ∅.

(** Callback of [issues.filter] for the count on the button of [type]. *)
Definition countedForButton (type : string) (i : Issue) : bool :=
  let issueType := toLowerCase (orEmpty (issue_type i)) in
  String.eqb issueType type
  || (String.eqb type "best_practice"
      && (String.eqb issueType "best_practice"
          || String.eqb issueType "code_improvements")).

(** [filterValue] of a button: [null] for 'all'. *)
Definition filterValue (type : string) : option string :=
  if String.eqb type "all" then None else Some type.

Definition filteredCount (type : string) (issues : list Issue) : nat :=
  if truthyOpt (filterValue type)
  then length (List.filter (countedForButton type) issues)
  else length issues.

(** [/[_\s]/] *)
Definition underscoreOrSpace (c : ascii) : bool :=
  Ascii.eqb c "_" || isSpace c.

(** Callback of [issues.filter] for the list, under a truthy filter. *)
Definition shownInList (issueTypeFilter : string) (i : Issue) : bool :=
  let issueType := trim (toLowerCase (orEmpty (issue_type i))) in
  let filterType := trim (toLowerCase issueTypeFilter) in
  if negb (truthy filterType) || String.eqb filterType "all" then true
  else if String.eqb filterType "best_practice"
          || String.eqb filterType "best practice"
  then String.eqb issueType "best_practice"
       || String.eqb issueType "code_improvements"
       || String.eqb issueType "code improvements"
       || String.eqb issueType "bestpractice"
  else if String.eqb issueType filterType then true
  else if String.eqb
            (replaceChars underscoreOrSpace EmptyString issueType)
            (replaceChars underscoreOrSpace EmptyString filterType)
  then true
  else false.

Definition filteredIssues (issueTypeFilter : option string)
    (issues : list Issue) : list Issue :=
  if truthyOpt issueTypeFilter
  then List.filter (shownInList (orEmpty issueTypeFilter)) issues
  else issues.

(** A match of [/lit1\s+lit2/] ([plus]) or [/lit1\s*lit2/] at the very start
    of [s]: what follows the match.  [lit2] starts with a character that is
    not white space, so the run of white space is taken whole. *)
Definition matchSpaced (plus : bool) (lit1 lit2 : string) (s : string)
  : option string :=
  match stripPrefix lit1 s with
  | None => None
  | Some r =>
      let r' := trimStart r in
      if plus && (String.length r =? String.length r')%nat then None
      else stripPrefix lit2 r'
  end.

(** [s.match(/re/g).length], [0] for [null]: the matches are found from the
    left and do not overlap.  [m] matches [re] at the start of a string and
    [skip] counts the characters of the last match still ahead. *)
Fixpoint countFrom (m : string → option string) (skip : nat) (s : string)
  : nat :=
  match s with
  | EmptyString => 0
  | String c s' =>
      match skip with
      | S k => countFrom m k s'
      | O =>
          match m s with
          | Some rest =>
              S (countFrom m (String.length s - String.length rest - 1) s')
          | None => countFrom m 0 s'
          end
      end
  end.

(** The six patterns of [countTestMethods]. *)
Definition testMethodPatterns : list (string → option string) :=
  [matchSpaced true "def" "test_";
   matchSpaced false "test" "(";
   matchSpaced false "it" "(";
   stripPrefix "@Test";
   matchSpaced true "void" "test";
   matchSpaced false "describe" "("].

(** Callback of [lines.filter] in the estimate. *)
Definition looksLikeTest (line : string) : bool :=
  let trimmed := trim line in
  startsWith trimmed "test" || startsWith trimmed "it("
  || startsWith trimmed "def " || includes trimmed "@Test".

Definition countTestMethods (testCode : string) : nat :=
  if negb (truthy testCode) then 0%nat
  else
    let count :=
      fold_left (fun count pattern => (count + countFrom pattern 0 testCode)%nat)
        testMethodPatterns 0%nat in
    let count :=
      if (count =? 0)%nat && (100 <? String.length testCode)%nat
      then length (List.filter looksLikeTest (split "010" testCode))
      else count in
    if (count =? 0)%nat then 1%nat else count.

(** [test.test_count || countTestMethods(test.test_code || '')] *)
Definition testCountOf (test : TestRow) : Z :=
  if truthyNum (test_count test) then default 0 (test_count test)
  else Z.of_nat (countTestMethods (orEmpty (test_code test))).

(** [totalTestMethods] of the unit tab, after its two fall-backs. *)
Definition totalTestMethods (testFiles : list File) (tests : list TestRow) : Z :=
  let unitTests := unitTests tests in
  let unitTestFiles := unitTestFiles testFiles in
  let total :=
    fold_left
      (fun sum test =>
         let testCount := testCountOf test in
         sum + (if 0 <? testCount then testCount else 0))
      unitTests 0 in
  let total :=
    if (total =? 0) && (0 <? length unitTests)%nat
    then Z.of_nat (length unitTests) else total in
  if (total =? 0) && (0 <? length unitTestFiles)%nat
  then Z.of_nat (length unitTestFiles) else total.

(** The number on the "Unit Tests" card. *)
Definition unitTestsShown (testFiles : list File) (tests : list TestRow) : Z :=
  let total := totalTestMethods testFiles tests in
  if 0 <? total then total
  else if (0 <? length (unitTests tests))%nat
  then Z.of_nat (length (unitTests tests))
  else Z.of_nat (length (unitTestFiles testFiles)).

(** [totalE2ETestMethods]: no clamp and no fall-back here. *)
Definition totalE2ETestMethods (tests : list TestRow) : Z :=
  fold_left (fun sum test => sum + testCountOf test) (e2eTests tests) 0.

(** The number on the "E2E Tests" card. *)
Definition e2eTestsShown (testFiles : list File) (tests : list TestRow) : Z :=
  let total := totalE2ETestMethods tests in
  if 0 <? total then total
  else if (0 <? length (e2eTests tests))%nat
  then Z.of_nat (length (e2eTests tests))
  else Z.of_nat (length (e2eTestFiles testFiles)).

End DetailsView.

(** ** Vocabulary of the statements *)

(** [Contains s pat]: [pat] occurs in [s] as a substring. *)
Definition Contains (s pat : string) : Prop :=
  ∃ pre post, s = pre +:+ pat +:+ post.

(** The nine patterns, each written once. *)
Definition ninePatterns : list string :=
  ["test_"; "_test"; ".test."; ".spec."; "tests/"; "test/"; "__test__";
   "spec/"; "__tests__"].

(** [set.add(p)] when there is a [p]. *)
Definition addOpt (o : option string) (acc : gset string) : gset string :=
  match o with
  | Some p => {[p]} ∪ acc
  | None => acc
  end.

(** An estimator in the shape both pages share: one step per test file, then
    one per generated test, all adding to the same set. *)
Definition coveredBy
    (stepT : list File → gset string → File → gset string)
    (stepG : list File → list Analysis.t → gset string → GeneratedTest
             → gset string)
    (sf tf : list File) (tests : list GeneratedTest) (an : list Analysis.t)
  : gset string :=
  fold_left (stepG sf an) tests (fold_left (stepT sf) tf ∅).

(** What one test file adds on the details page: the matched path, unless it
    is the empty string. *)
Definition detailsTestContribution (sf : list File) (t : File) : option string :=
  match Details.matchTestFileToSource sf t with
  | Some p => if truthy p then Some p else None
  | None => None
  end.

(** What one generated test adds on the details page. *)
Definition detailsGeneratedContribution (sf : list File) (an : list Analysis.t)
    (g : GeneratedTest) : option string :=
  option_map relative_path (Details.matchGenerated sf an g).

(** The same on the list page, where an empty path is added too. *)
Definition listTestContribution (sf : list File) (t : File) : option string :=
  option_map relative_path (Repositories.matchingSource sf t).

Definition listGeneratedContribution (sf : list File) (an : list Analysis.t)
    (g : GeneratedTest) : option string :=
  option_map relative_path (Repositories.matchGenerated sf an g).

(** A string of ASCII characters.  On these [toLowerCase] of module [JS] is
    [String.prototype.toLowerCase], which also lowers the letters beyond
    ASCII. *)
Fixpoint isAscii (s : string) : bool :=
  match s with
  | EmptyString => true
  | String c s' => (nat_of_ascii c <? 128)%nat && isAscii s'
  end.

Definition asciiFile (f : File) : Prop :=
  isAscii (name f) = true ∧ isAscii (relative_path f) = true.

(** An input of the estimator whose names and paths are all ASCII. *)
Definition asciiInput (sourceFiles testFiles : list File)
    (tests : list GeneratedTest) (analyses : list Analysis.t) : Prop :=
  Forall asciiFile sourceFiles
  ∧ Forall asciiFile testFiles
  ∧ Forall (fun t => isAscii (orEmpty (test_file_path t)) = true) tests
  ∧ Forall (fun a => isAscii (orEmpty (Analysis.file_path a)) = true) analyses.

(** [find]'s callback for test file [t], on each page. *)
Definition detailsMatches (t f : File) : bool :=
  Details.matchesSource (toLowerCase (name t)) (toLowerCase (relative_path t))
    (Details.potentialSourceName (toLowerCase (name t))) f.

Definition listMatches (t f : File) : bool :=
  Repositories.matchesSource (toLowerCase (name t))
    (toLowerCase (relative_path t))
    (Repositories.potentialSourceName (toLowerCase (name t))) f.

(** Two file records that differ at most in the letter case of their name and
    path; likewise for analyses. *)
Definition fileVariant (f f' : File) : Prop :=
  toLowerCase (name f) = toLowerCase (name f')
  ∧ toLowerCase (relative_path f) = toLowerCase (relative_path f').

Definition analysisVariant (a a' : Analysis.t) : Prop :=
  Analysis.id a = Analysis.id a'
  ∧ option_map toLowerCase (Analysis.file_path a)
    = option_map toLowerCase (Analysis.file_path a').

(** Source files whose paths agree up to letter case have names that agree up
    to letter case; so it is when [name] is the last segment of
    [relative_path]. *)
Definition namesFollowPaths (sourceFiles : list File) : Prop :=
  ∀ f g, In f sourceFiles → In g sourceFiles →
    toLowerCase (relative_path f) = toLowerCase (relative_path g) →
    toLowerCase (name f) = toLowerCase (name g).

(** A callback that reads only the lower-cased name and path. *)
Definition lowerRespecting (pred : File → bool) : Prop :=
  ∀ f g, fileVariant f g → pred f = pred g.

(** [f] is the answer of some [sourceFiles.find] with such a callback. *)
Definition FoundBy (sourceFiles : list File) (f : File) : Prop :=
  ∃ pred, lowerRespecting pred ∧ List.find pred sourceFiles = Some f.

(** [x] is [q] up to the rounding of two operations on doubles below 100:
    within 10^-13. *)
Definition nearly (q x : Q) : Prop :=
  (q - (1 # 10000000000000) <= x)%Q ∧ (x <= q + (1 # 10000000000000))%Q.

(** ** Inputs of the examples *)

Definition file (n p ext : string) : File := mkFile n p (Some ext).

Definition calc_py := file "calc.py" "src/calc.py" ".py".
Definition util_py := file "util.py" "src/util.py" ".py".
Definition test_calc_py := file "test_calc.py" "tests/test_calc.py" ".py".
Definition calc_test_js := file "calc.test.js" "src/calc.test.js" ".js".
Definition helpers_py := file "helpers.py" "src/helpers.py" ".py".
Definition helpers_test_py :=
  file "helpers_test.py" "src/helpers_test.py" ".py".
Definition a_py := file "a.py" "src/a.py" ".py".
Definition b_py := file "b.py" "src/b.py" ".py".
Definition c_py := file "c.py" "src/c.py" ".py".
Definition data_py := file "data.py" "src/data.py" ".py".

Definition A_PY := file "A.PY" "Src/A.PY" ".PY".
Definition Test_A_py := file "Test_A.py" "Tests/Test_A.py" ".py".
Definition test_a_py := file "test_a.py" "tests/test_a.py" ".py".

Definition a_at_X := file "a.py" "src/X.py" ".py".
Definition a_at_x := file "a.py" "src/x.py" ".py".
Definition b_at_x := file "b.py" "src/x.py" ".py".
Definition test_b_py := file "test_b.py" "tests/test_b.py" ".py".

Definition test9 : GeneratedTest := mkGeneratedTest 1 (Some 9) None.
Definition analysis9 (path : string) : Analysis.t := Analysis.mk 9 (Some path).

(** What reading [d] gives after more files of directory [d] were pushed. *)
Definition pushedOnto (before : option (list File)) (more : list File)
  : option (list File) :=
  match more with
  | [] => before
  | _ => Some (default [] before ++ more)%list
  end.

(** The source files of directory [d], in their order. *)
Definition filesOfDir (d : string) (sourceFiles : list File) : list File :=
  List.filter (fun f => String.eqb (DetailsView.dirKey f) d) sourceFiles.

(** The typed record of an untyped one that has its name and path. *)
Definition typedOf (x : AnyFile) : File :=
  mkFile (orEmpty (any_name x)) (orEmpty (any_relative_path x))
    (any_extension x).

(** A file record lacking [name] or [relative_path]. *)
Definition incomplete (x : AnyFile) : bool :=
  match any_name x, any_relative_path x with
  | Some _, Some _ => false
  | _, _ => true
  end.

(** A generated test that carries a positive [test_count], or no count (or
    the count [0]) and some test code. *)
Definition hasCountOrCode (t : TestRow) : Prop :=
  match test_count t with
  | Some n => 0 < n ∨ (n = 0 ∧ orEmpty (test_code t) ≠ EmptyString)
  | None => orEmpty (test_code t) ≠ EmptyString
  end.

(** * Properties *)

(** ** Facts about the string primitives *)

Section StringFacts.

Lemma stripPrefix_Some p s rest :
  stripPrefix p s = Some rest ↔ s = p +:+ rest.
Proof.
  revert s. induction p as [|a p IH]; intros s; simpl.
  - split; [intros [= ->]; reflexivity | intros ->; reflexivity].
  - destruct s as [|b s]; [split; discriminate|].
    destruct (Ascii.eqb_spec a b) as [->|Hne].
    + rewrite IH. split; [intros ->; reflexivity | intros [= ->]; reflexivity].
    + split; [discriminate | intros [= Hab _]; congruence].
Qed.

Lemma startsWith_true s p :
  startsWith s p = true ↔ ∃ rest, s = p +:+ rest.
Proof.
  unfold startsWith. destruct (stripPrefix p s) as [r|] eqn:E.
  - apply stripPrefix_Some in E. split; [eauto | reflexivity].
  - split; [discriminate|]. intros [r Hr].
    apply stripPrefix_Some in Hr. congruence.
Qed.

Lemma includes_Contains s pat : includes s pat = true ↔ Contains s pat.
Proof.
  unfold Contains. induction s as [|c s IH]; simpl.
  - rewrite orb_false_r, startsWith_true. split.
    + intros [r Hr]. exists EmptyString, r. exact Hr.
    + intros [pre [post H]]. destruct pre; [eauto | discriminate].
  - rewrite orb_true_iff, startsWith_true, IH. split.
    + intros [[r Hr] | [pre [post H]]].
      * exists EmptyString, r. exact Hr.
      * exists (String c pre), post. rewrite H. reflexivity.
    + intros [[|c' pre] [post H]].
      * left. exists post. exact H.
      * right. simpl in H. injection H as -> H. eauto.
Qed.

Lemma lowerChar_idemp c : lowerChar (lowerChar c) = lowerChar c.
Proof. destruct c as [[] [] [] [] [] [] [] []]; reflexivity. Qed.

Lemma toLowerCase_idemp s : toLowerCase (toLowerCase s) = toLowerCase s.
Proof.
  induction s as [|c s IH]; simpl; [reflexivity|].
  rewrite lowerChar_idemp, IH. reflexivity.
Qed.

Lemma truthy_toLowerCase s : truthy (toLowerCase s) = truthy s.
Proof. destruct s; reflexivity. Qed.

Lemma truthy_true s : truthy s = true ↔ s ≠ EmptyString.
Proof.
  unfold truthy. destruct (String.eqb_spec s EmptyString); simpl; split;
    congruence.
Qed.

End StringFacts.

(** ** The test-file heuristic *)

Lemma isTestFileWith_true patterns filePath fileName :
  isTestFileWith patterns filePath fileName = true ↔
  ∃ pattern, In pattern patterns ∧
    (Contains (toLowerCase filePath) pattern
     ∨ Contains (toLowerCase fileName) pattern).
Proof.
  unfold isTestFileWith. rewrite existsb_exists.
  split; intros [pat [Hin H]]; exists pat; split; try exact Hin.
  - apply orb_true_iff in H. rewrite !includes_Contains in H. exact H.
  - apply orb_true_iff. rewrite !includes_Contains. exact H.
Qed.

Lemma isTestFileWith_same_patterns ps qs filePath fileName :
  (∀ p, In p ps ↔ In p qs) →
  isTestFileWith ps filePath fileName = isTestFileWith qs filePath fileName.
Proof.
  intros Hpq. apply eq_true_iff_eq. rewrite !isTestFileWith_true.
  split; intros [pat [Hin H]]; exists pat; split; try exact H; apply Hpq, Hin.
Qed.

Lemma testPatterns_nine p : In p Details.testPatterns ↔ In p ninePatterns.
Proof.
  unfold Details.testPatterns, ninePatterns. simpl. intuition.
Qed.

(** C5. On both pages [isTestFile] holds exactly when the lower-cased path or
    the lower-cased name contains one of the nine patterns; it gives the same
    answer on the lower-cased strings, and for every list holding the same
    patterns, whatever their order and repetitions. *)
Theorem isTestFile_iff_contains_pattern (filePath fileName : string) :
  (Details.isTestFile filePath fileName = true ↔
     ∃ pattern, In pattern ninePatterns ∧
       (Contains (toLowerCase filePath) pattern
        ∨ Contains (toLowerCase fileName) pattern))
  ∧ Repositories.isTestFile filePath fileName
    = Details.isTestFile filePath fileName
  ∧ Details.isTestFile (toLowerCase filePath) (toLowerCase fileName)
    = Details.isTestFile filePath fileName
  ∧ (∀ patterns, (∀ p, In p patterns ↔ In p ninePatterns) →
       isTestFileWith patterns filePath fileName
       = Details.isTestFile filePath fileName).
Proof.
  split; [|split; [|split]].
  - unfold Details.isTestFile. rewrite isTestFileWith_true.
    split; intros [pat [Hin H]]; exists pat; split; try exact H;
      apply testPatterns_nine, Hin.
  - reflexivity.
  - unfold Details.isTestFile, isTestFileWith.
    rewrite !toLowerCase_idemp. reflexivity.
  - intros patterns Hp. apply isTestFileWith_same_patterns.
    intros p. rewrite Hp. symmetry. apply testPatterns_nine.
Qed.

Lemma isTestFile_iff_contains_pattern_witness :
  isTestFileWith (rev ninePatterns) "SRC/Calc.Test.JS" "Calc.Test.JS"
  = Details.isTestFile "SRC/Calc.Test.JS" "Calc.Test.JS".
Proof.
  apply (isTestFile_iff_contains_pattern "SRC/Calc.Test.JS" "Calc.Test.JS").
  intros p. simpl. tauto.
Defined.

(** ** Rounding to a double *)

Section NumberFacts.

Import Number.
Local Open Scope Q_scope.

Lemma two_nonzero : ~ 2 == 0.
Proof. discriminate. Qed.

Lemma pow2_pos (e : Z) : 0 < 2 ^ e.
Proof. apply Qpower_0_lt. reflexivity. Qed.

Lemma pow2_inject (n : Z) : (0 <= n)%Z -> 2 ^ n == inject_Z (2 ^ n).
Proof. intros H. rewrite Zpower_Qpower by exact H. reflexivity. Qed.

Lemma pow2_cancel (e : Z) : 2 ^ (52 - e) * 2 ^ (e - 52) == 1.
Proof.
  rewrite <- Qpower_plus by apply two_nonzero.
  replace (52 - e + (e - 52))%Z with 0%Z by lia. reflexivity.
Qed.

(** [exponent x] is the integer part of the binary logarithm of [x]. *)
Lemma exponent_spec (x : Q) :
  0 < x -> 2 ^ exponent x <= x /\ x < 2 ^ (exponent x + 1).
Proof.
  intros Hx. destruct x as [p q].
  assert (Hp : (0 < p)%Z) by (unfold Qlt in Hx; simpl in Hx; lia).
  unfold exponent. cbn [Qnum Qden].
  set (lp := Z.log2 p). set (lq := Z.log2 (Z.pos q)).
  destruct (Z.log2_spec p Hp) as [Hp1 Hp2]. fold lp in Hp1, Hp2.
  destruct (Z.log2_spec (Z.pos q) ltac:(lia)) as [Hq1 Hq2].
  fold lq in Hq1, Hq2.
  assert (Hlp : (0 <= lp)%Z) by apply Z.log2_nonneg.
  assert (Hlq : (0 <= lq)%Z) by apply Z.log2_nonneg.
  assert (HP : (p # q) * inject_Z (Z.pos q) == inject_Z p).
  { unfold Qeq, Qmult, inject_Z. simpl. lia. }
  set (x := p # q) in *. set (P := inject_Z p) in *.
  set (D := inject_Z (Z.pos q)) in *.
  assert (HP1 : 2 ^ lp <= P).
  { rewrite pow2_inject by exact Hlp. unfold P. rewrite <- Zle_Qle. exact Hp1. }
  assert (HP2 : P < 2 ^ (lp + 1)).
  { rewrite pow2_inject by lia. unfold P. rewrite <- Zlt_Qlt.
    replace (lp + 1)%Z with (Z.succ lp) by lia. exact Hp2. }
  assert (HD1 : 2 ^ lq <= D).
  { rewrite pow2_inject by exact Hlq. unfold D. rewrite <- Zle_Qle. exact Hq1. }
  assert (HD2 : D < 2 ^ (lq + 1)).
  { rewrite pow2_inject by lia. unfold D. rewrite <- Zlt_Qlt.
    replace (lq + 1)%Z with (Z.succ lq) by lia. exact Hq2. }
  assert (Hup : x < 2 ^ (lp - lq + 1)).
  { assert (E : 2 ^ (lp - lq + 1) * 2 ^ lq == 2 ^ (lp + 1)).
    { rewrite <- Qpower_plus by apply two_nonzero.
      replace (lp - lq + 1 + lq)%Z with (lp + 1)%Z by lia. reflexivity. }
    pose proof (pow2_pos (lp - lq + 1)) as H1.
    pose proof (pow2_pos lq) as H2.
    set (a := 2 ^ (lp - lq + 1)) in *. set (b := 2 ^ lq) in *.
    set (c := 2 ^ (lp + 1)) in *.
    apply Qnot_le_lt. intros Hle. nra. }
  assert (Hlo : 2 ^ (lp - lq - 1) <= x).
  { assert (E : 2 ^ (lp - lq - 1) * 2 ^ (lq + 1) == 2 ^ lp).
    { rewrite <- Qpower_plus by apply two_nonzero.
      replace (lp - lq - 1 + (lq + 1))%Z with lp by lia. reflexivity. }
    pose proof (pow2_pos (lp - lq - 1)) as H1.
    pose proof (pow2_pos (lq + 1)) as H2.
    set (a := 2 ^ (lp - lq - 1)) in *. set (b := 2 ^ (lq + 1)) in *.
    set (c := 2 ^ lp) in *.
    apply Qnot_lt_le. intros Hlt. nra. }
  destruct (Qle_bool (2 ^ (lp - lq)) x) eqn:E.
  - apply Qle_bool_iff in E. split; [exact E | exact Hup].
  - split; [exact Hlo|].
    replace (lp - lq - 1 + 1)%Z with (lp - lq)%Z by lia.
    apply Qnot_le_lt. intros Hle. apply Qle_bool_iff in Hle. congruence.
Qed.


Lemma inject_Z_succ (n : Z) : inject_Z (n + 1) == inject_Z n + 1.
Proof. rewrite inject_Z_plus. reflexivity. Qed.

Lemma floor_bounds (y : Q) :
  inject_Z (Qfloor y) <= y /\ y < inject_Z (Qfloor y) + 1.
Proof.
  split; [apply Qfloor_le|].
  pose proof (Qlt_floor y) as H. rewrite inject_Z_plus in H. exact H.
Qed.

(** The nearest integer is within one half. *)
Lemma roundEven_error (y : Q) :
  y - (1 # 2) <= inject_Z (roundEven y) /\ inject_Z (roundEven y) <= y + (1 # 2).
Proof.
  destruct (floor_bounds y) as [H1 H2]. unfold roundEven.
  set (n := Qfloor y) in *.
  destruct (Qcompare_spec (y - inject_Z n) (1 # 2)) as [E | E | E].
  - destruct (Z.even n); [|rewrite inject_Z_succ]; split; lra.
  - split; lra.
  - rewrite inject_Z_succ. split; lra.
Qed.

Lemma roundEven_nonneg (y : Q) : 0 <= y -> (0 <= roundEven y)%Z.
Proof.
  intros Hy.
  assert (H0 : (0 <= Qfloor y)%Z).
  { change 0%Z with (Qfloor 0). apply Qfloor_resp_le. exact Hy. }
  unfold roundEven.
  destruct (y - inject_Z (Qfloor y) ?= 1 # 2); [destruct (Z.even _)|..]; lia.
Qed.

(** Rounding to an integer never crosses an integer. *)
Lemma roundEven_le (y : Q) (N : Z) : y <= inject_Z N -> (roundEven y <= N)%Z.
Proof.
  intros Hy. destruct (floor_bounds y) as [H1 H2]. unfold roundEven.
  set (n := Qfloor y) in *.
  assert (Hn : (n <= N)%Z) by (rewrite Zle_Qle; lra).
  assert (Hhalf : 1 # 2 <= y - inject_Z n -> (n + 1 <= N)%Z).
  { intros H. assert (Hlt : inject_Z n < inject_Z N) by lra.
    rewrite <- Zlt_Qlt in Hlt. lia. }
  destruct (Qcompare_spec (y - inject_Z n) (1 # 2)) as [E | E | E].
  - destruct (Z.even n); [exact Hn|]. apply Hhalf. lra.
  - exact Hn.
  - apply Hhalf. lra.
Qed.

Lemma roundEven_ge (y : Q) (N : Z) : inject_Z N <= y -> (N <= roundEven y)%Z.
Proof.
  intros Hy. destruct (floor_bounds y) as [H1 H2]. unfold roundEven.
  set (n := Qfloor y) in *.
  assert (Hn : (N <= n)%Z).
  { assert (Hlt : inject_Z N < inject_Z (n + 1))
      by (rewrite inject_Z_succ; lra).
    rewrite <- Zlt_Qlt in Hlt. lia. }
  destruct (y - inject_Z n ?= 1 # 2); [destruct (Z.even n)|..]; lia.
Qed.

(** The significand that [nearest] rounds: between 2^52 and 2^53. *)
Lemma scaled_bounds (x : Q) :
  0 < x ->
  2 ^ 52 <= x * 2 ^ (52 - exponent x) /\ x * 2 ^ (52 - exponent x) < 2 ^ 53.
Proof.
  intros Hx. destruct (exponent_spec x Hx) as [H1 H2].
  pose proof (pow2_pos (52 - exponent x)) as Hs.
  assert (E1 : 2 ^ exponent x * 2 ^ (52 - exponent x) == 2 ^ 52).
  { rewrite <- Qpower_plus by apply two_nonzero.
    replace (exponent x + (52 - exponent x))%Z with 52%Z by lia. reflexivity. }
  assert (E2 : 2 ^ (exponent x + 1) * 2 ^ (52 - exponent x) == 2 ^ 53).
  { rewrite <- Qpower_plus by apply two_nonzero.
    replace (exponent x + 1 + (52 - exponent x))%Z with 53%Z by lia.
    reflexivity. }
  set (s := 2 ^ (52 - exponent x)) in *.
  set (a := 2 ^ exponent x) in *. set (b := 2 ^ (exponent x + 1)) in *.
  set (c := 2 ^ 52) in *. set (d := 2 ^ 53) in *.
  split; nra.
Qed.

(** The relative error of one rounding is at most 2^-53. *)
Lemma nearest_error (x : Q) :
  0 < x ->
  x - x * 2 ^ (-53) <= nearest x /\ nearest x <= x + x * 2 ^ (-53).
Proof.
  intros Hx. destruct (exponent_spec x Hx) as [H1 _]. unfold nearest.
  cbv zeta.
  destruct (roundEven_error (x * 2 ^ (52 - exponent x))) as [R1 R2].
  pose proof (pow2_cancel (exponent x)) as Hc.
  pose proof (pow2_pos (exponent x - 52)) as Ht.
  assert (Eu : 2 ^ (exponent x - 52) * (1 # 2) == 2 ^ exponent x * 2 ^ (-53)).
  { rewrite <- Qpower_plus by apply two_nonzero.
    replace (exponent x + -53)%Z with (exponent x - 52 + -1)%Z by lia.
    rewrite Qpower_plus by apply two_nonzero. reflexivity. }
  assert (Hu : 0 < 2 ^ (-53)) by apply pow2_pos.
  set (m := inject_Z (roundEven (x * 2 ^ (52 - exponent x)))) in *.
  set (s := 2 ^ (52 - exponent x)) in *.
  set (t := 2 ^ (exponent x - 52)) in *.
  set (a := 2 ^ exponent x) in *. set (u := 2 ^ (-53)) in *.
  assert (Hxs : x * s * t == x) by (rewrite <- Qmult_assoc, Hc; ring).
  split; nra.
Qed.

(** Rounding never crosses an integer below 2^53: such an integer is a
    double. *)
Lemma nearest_le_int (x : Q) (B : Z) :
  0 < x -> x <= inject_Z B -> (B < 2 ^ 53)%Z -> nearest x <= inject_Z B.
Proof.
  intros Hx HB Hlt. destruct (exponent_spec x Hx) as [H1 _].
  set (e := exponent x) in *.
  assert (He : (e < 53)%Z).
  { apply (Qpower_lt_compat_l_inv 2); [|reflexivity].
    rewrite (pow2_inject 53) by lia.
    apply Qle_lt_trans with x; [exact H1|].
    apply Qle_lt_trans with (inject_Z B); [exact HB|].
    rewrite <- Zlt_Qlt. exact Hlt. }
  unfold nearest. cbv zeta. fold e.
  assert (Hk : 2 ^ (52 - e) == inject_Z (2 ^ (52 - e))) by (apply pow2_inject; lia).
  assert (Hround : (roundEven (x * 2 ^ (52 - e)) <= B * 2 ^ (52 - e))%Z).
  { apply roundEven_le. rewrite inject_Z_mult, <- Hk.
    pose proof (pow2_pos (52 - e)). nra. }
  rewrite Zle_Qle in Hround. rewrite inject_Z_mult, <- Hk in Hround.
  pose proof (pow2_cancel e) as Hc.
  pose proof (pow2_pos (e - 52)) as Ht.
  set (m := inject_Z (roundEven (x * 2 ^ (52 - e)))) in *.
  set (s := 2 ^ (52 - e)) in *. set (t := 2 ^ (e - 52)) in *.
  assert (Hb : inject_Z B * s * t == inject_Z B)
    by (rewrite <- Qmult_assoc, Hc; ring).
  nra.
Qed.

Lemma nearest_nonneg (x : Q) : 0 < x -> 0 <= nearest x.
Proof.
  intros Hx. unfold nearest. cbv zeta.
  apply Qmult_le_0_compat; [|apply Qlt_le_weak, pow2_pos].
  change 0 with (inject_Z 0). rewrite <- Zle_Qle.
  apply roundEven_nonneg.
  apply Qmult_le_0_compat; [lra | apply Qlt_le_weak, pow2_pos].
Qed.

(** ** [fl] on the numbers that are not negative *)

Lemma fl_zero (x : Q) : x == 0 -> fl x = 0.
Proof. intros H. unfold fl. apply Qeq_alt in H. rewrite H. reflexivity. Qed.

Lemma fl_pos (x : Q) : 0 < x -> fl x = nearest x.
Proof.
  intros H. unfold fl. apply Qgt_alt in H. rewrite H. reflexivity.
Qed.

Lemma fl_nonneg (x : Q) : 0 <= x -> 0 <= fl x.
Proof.
  intros H. destruct (Qlt_le_dec 0 x) as [Hp | Hz].
  - rewrite (fl_pos x Hp). apply nearest_nonneg, Hp.
  - rewrite (fl_zero x) by lra. lra.
Qed.

Lemma fl_le_int (x : Q) (B : Z) :
  0 <= x -> x <= inject_Z B -> (B < 2 ^ 53)%Z -> fl x <= inject_Z B.
Proof.
  intros H HB Hlt. destruct (Qlt_le_dec 0 x) as [Hp | Hz].
  - rewrite (fl_pos x Hp). apply nearest_le_int; assumption.
  - rewrite (fl_zero x) by lra. lra.
Qed.

Lemma fl_error (x : Q) :
  0 <= x -> x - x * 2 ^ (-53) <= fl x /\ fl x <= x + x * 2 ^ (-53).
Proof.
  intros H. destruct (Qlt_le_dec 0 x) as [Hp | Hz].
  - rewrite (fl_pos x Hp). apply nearest_error, Hp.
  - rewrite (fl_zero x) by lra.
    assert (E : x == 0) by lra. rewrite E. split; lra.
Qed.


(** The same bound with the value of 2^-53 written out. *)
Lemma fl_close (x : Q) :
  0 <= x ->
  x - x * (1 # 9007199254740992) <= fl x
  /\ fl x <= x + x * (1 # 9007199254740992).
Proof. exact (fl_error x). Qed.

(** Integers up to 2^53 are doubles. *)
Lemma fl_int (n : Z) : (0 <= n <= 2 ^ 53)%Z -> fl (inject_Z n) == inject_Z n.
Proof.
  intros [H0 H53].
  destruct (Z.eq_dec n 0%Z) as [-> | Hn]; [reflexivity|].
  assert (Hpos : 0 < inject_Z n)
    by (change 0 with (inject_Z 0); rewrite <- Zlt_Qlt; lia).
  rewrite (fl_pos _ Hpos).
  destruct (exponent_spec _ Hpos) as [H1 _].
  set (e := exponent (inject_Z n)) in *.
  assert (He : (e <= 53)%Z).
  { apply (Qpower_le_compat_l_inv 2); [|reflexivity].
    rewrite (pow2_inject 53) by lia.
    apply Qle_trans with (inject_Z n); [exact H1|].
    rewrite <- Zle_Qle. exact H53. }
  unfold nearest. cbv zeta. fold e.
  pose proof (pow2_cancel e) as Hc.
  destruct (Z.eq_dec e 53%Z) as [E53 | Hne].
  - (* only 2^53 itself has exponent 53 *)
    assert (n = 2 ^ 53)%Z as ->.
    { assert (inject_Z (2 ^ 53) <= inject_Z n) as Hge.
      { rewrite <- (pow2_inject 53) by lia. rewrite <- E53. exact H1. }
      rewrite <- Zle_Qle in Hge. lia. }
    fold e. rewrite E53. reflexivity.
  - assert (Hk : 2 ^ (52 - e) == inject_Z (2 ^ (52 - e)))
      by (apply pow2_inject; lia).
    assert (Hy : inject_Z n * 2 ^ (52 - e) == inject_Z (n * 2 ^ (52 - e)))
      by (rewrite inject_Z_mult, Hk; reflexivity).
    assert (Hr : roundEven (inject_Z n * 2 ^ (52 - e)) = (n * 2 ^ (52 - e))%Z).
    { apply Z.le_antisymm.
      - apply roundEven_le. rewrite Hy. apply Qle_refl.
      - apply roundEven_ge. rewrite Hy. apply Qle_refl. }
    rewrite Hr, inject_Z_mult, <- Hk, <- Qmult_assoc, Hc. ring.
Qed.

End NumberFacts.

(** ** Arithmetic of the percentage *)

Section Percentage.

Lemma ratio_le (a b n : nat) :
  (a ≤ b)%nat →
  (inject_Z (Z.of_nat a) / inject_Z (Z.of_nat (S n)) * 100
   <= inject_Z (Z.of_nat b) / inject_Z (Z.of_nat (S n)) * 100)%Q.
Proof.
  intros Hab. apply Qmult_le_compat_r; [|discriminate].
  apply Qmult_le_compat_r.
  - rewrite <- Zle_Qle. lia.
  - apply Qinv_le_0_compat. rewrite <- (Zle_Qle 0). lia.
Qed.

Lemma ratio_full (n : nat) :
  (inject_Z (Z.of_nat (S n)) / inject_Z (Z.of_nat (S n)) * 100 == 100)%Q.
Proof.
  rewrite Qmult_comm. unfold Qdiv. rewrite Qmult_inv_r; [reflexivity|].
  intros H. unfold Qeq in H. simpl in H. lia.
Qed.

Lemma ratio_unit (k n : nat) :
  (0 < n)%nat → (k ≤ n)%nat →
  (0 <= inject_Z (Z.of_nat k) / inject_Z (Z.of_nat n))%Q
  ∧ (inject_Z (Z.of_nat k) / inject_Z (Z.of_nat n) <= 1)%Q.
Proof.
  intros Hn Hk.
  assert (Hn' : (0 < inject_Z (Z.of_nat n))%Q)
    by (change 0%Q with (inject_Z 0); rewrite <- Zlt_Qlt; lia).
  assert (Hk0 : (0 <= inject_Z (Z.of_nat k))%Q)
    by (change 0%Q with (inject_Z 0); rewrite <- Zle_Qle; lia).
  assert (Hkn : (inject_Z (Z.of_nat k) <= inject_Z (Z.of_nat n))%Q)
    by (rewrite <- Zle_Qle; lia).
  split.
  - apply Qle_shift_div_l; [exact Hn'|]. lra.
  - apply Qle_shift_div_r; [exact Hn'|]. lra.
Qed.

End Percentage.

Lemma percentage_no_source (covered : gset string) :
  percentage covered ([] : list File) = 0%Q.
Proof. reflexivity. Qed.

Lemma percentage_mono (c c' : gset string) (sourceFiles : list File) :
  (size c ≤ size c')%nat →
  (percentage c sourceFiles <= percentage c' sourceFiles)%Q.
Proof.
  intros Hle. unfold percentage. destruct sourceFiles as [|f l]; simpl.
  - discriminate.
  - apply (ratio_le _ _ (length l)). exact Hle.
Qed.

Lemma percentage_range (c : gset string) (sourceFiles : list File) :
  (size c ≤ length sourceFiles)%nat →
  (0 <= percentage c sourceFiles)%Q ∧ (percentage c sourceFiles <= 100)%Q.
Proof.
  intros Hle. unfold percentage. destruct sourceFiles as [|f l]; simpl.
  - split; discriminate.
  - simpl in Hle. split.
    + pose proof (ratio_le 0 (size c) (length l) ltac:(lia)) as H.
      eapply Qle_trans; [|exact H]. discriminate.
    + eapply Qle_trans; [apply (ratio_le _ _ _ Hle)|].
      rewrite ratio_full. apply Qle_refl.
Qed.

(** The percentage as a JavaScript number: within [0, 100] and within
    10^-13 of the exact percentage. *)
Lemma percentageNumber_spec {A} (c : gset string) (sourceFiles : list A) :
  (size c ≤ length sourceFiles)%nat →
  (0 <= percentageNumber c sourceFiles)%Q
  ∧ (percentageNumber c sourceFiles <= 100)%Q
  ∧ (percentage c sourceFiles - (1 # 10000000000000)
     <= percentageNumber c sourceFiles)%Q
  ∧ (percentageNumber c sourceFiles
     <= percentage c sourceFiles + (1 # 10000000000000))%Q.
Proof.
  intros Hk. unfold percentageNumber, percentage.
  destruct (Nat.ltb_spec 0 (length sourceFiles)) as [Hn | Hn];
    [|repeat split; lra].
  destruct (ratio_unit _ _ Hn Hk) as [Hx0 Hx1].
  unfold Number.mul, Number.div.
  set (x := (inject_Z (Z.of_nat (size c))
             / inject_Z (Z.of_nat (length sourceFiles)))%Q) in *.
  pose proof (fl_nonneg x Hx0) as Ha0.
  pose proof (fl_le_int x 1 Hx0 Hx1 eq_refl) as Ha1.
  destruct (fl_close x Hx0) as [Ha2 Ha3].
  change (inject_Z 1) with 1%Q in Ha1.
  set (a := Number.fl x) in *.
  assert (Hb : (0 <= a * 100)%Q) by lra.
  pose proof (fl_nonneg _ Hb) as Hb0.
  assert (Hb' : (a * 100 <= inject_Z 100)%Q)
    by (change (inject_Z 100) with 100%Q; lra).
  pose proof (fl_le_int _ 100 Hb Hb' eq_refl) as Hb1.
  change (inject_Z 100) with 100%Q in Hb1.
  destruct (fl_close _ Hb) as [Hb2 Hb3].
  set (b := Number.fl (a * 100)) in *.
  repeat split; lra.
Qed.

(** [Math.round(c * 10) / 10] for a number [c] in [0, 100]: the double
    nearest to a whole number of tenths, in [0, 100], and within 0.05 of [c]
    up to the rounding of the two operations. *)
Lemma roundedCoverage_spec (c : Q) :
  (0 <= c)%Q → (c <= 100)%Q →
  (∃ n : Z, (0 <= n <= 1000)%Z
            ∧ Repositories.roundedCoverage c = Number.div (inject_Z n) 10)
  ∧ (0 <= Repositories.roundedCoverage c)%Q
  ∧ (Repositories.roundedCoverage c <= 100)%Q
  ∧ (c - (1 # 20) - (1 # 10000000000000) <= Repositories.roundedCoverage c)%Q
  ∧ (Repositories.roundedCoverage c <= c + (1 # 20) + (1 # 10000000000000))%Q.
Proof.
  intros H0 H100.
  unfold Repositories.roundedCoverage, Number.round, Number.mul, Number.div.
  assert (Ht : (0 <= c * 10)%Q) by lra.
  pose proof (fl_nonneg _ Ht) as Ht0.
  assert (Ht' : (c * 10 <= inject_Z 1000)%Q)
    by (change (inject_Z 1000) with 1000%Q; lra).
  pose proof (fl_le_int _ 1000 Ht Ht' eq_refl) as Ht1.
  change (inject_Z 1000) with 1000%Q in Ht1.
  destruct (fl_close _ Ht) as [Ht2 Ht3].
  set (t := Number.fl (c * 10)) in *.
  destruct (floor_bounds (t + (1 # 2))) as [Hm1 Hm2].
  assert (Hm0 : (0 <= Qfloor (t + (1 # 2)))%Z).
  { change 0%Z with (Qfloor 0). apply Qfloor_resp_le. lra. }
  assert (Hm1000 : (Qfloor (t + (1 # 2)) <= 1000)%Z).
  { assert (Hlt : (inject_Z (Qfloor (t + (1 # 2))) < inject_Z 1001)%Q)
      by (change (inject_Z 1001) with 1001%Q; lra).
    rewrite <- Zlt_Qlt in Hlt. lia. }
  set (m := Qfloor (t + (1 # 2))) in *.
  assert (HM0 : (0 <= inject_Z m)%Q)
    by (change 0%Q with (inject_Z 0); rewrite <- Zle_Qle; exact Hm0).
  assert (HM1 : (inject_Z m <= 1000)%Q)
    by (change 1000%Q with (inject_Z 1000); rewrite <- Zle_Qle; exact Hm1000).
  assert (Hq : (0 <= inject_Z m / 10)%Q) by (apply Qle_shift_div_l; lra).
  assert (Hq' : (inject_Z m / 10 <= inject_Z 100)%Q).
  { change (inject_Z 100) with 100%Q. apply Qle_shift_div_r; lra. }
  pose proof (fl_nonneg _ Hq) as Hr0.
  pose proof (fl_le_int _ 100 Hq Hq' eq_refl) as Hr1.
  change (inject_Z 100) with 100%Q in Hr1, Hq'.
  destruct (fl_close _ Hq) as [Hr2 Hr3].
  assert (Hq10 : (inject_Z m / 10 * 10 == inject_Z m)%Q)
    by (field; discriminate).
  set (q := (inject_Z m / 10)%Q) in *.
  set (r := Number.fl q) in *.
  split; [exists m; split; [lia | reflexivity]|].
  repeat split; lra.
Qed.

(** ** The two [forEach] loops as unions of contributions *)

Section Collect.

Context {X : Type}.
Variable step : gset string → X → gset string.
Variable contribution : X → option string.
Hypothesis step_addOpt : ∀ acc x, step acc x = addOpt (contribution x) acc.

Lemma elem_of_collect (l : list X) (acc : gset string) (p : string) :
  p ∈ fold_left step l acc ↔
  p ∈ acc ∨ ∃ x, In x l ∧ contribution x = Some p.
Proof.
  revert acc. induction l as [|x l IH]; intros acc; simpl.
  - split; [auto | intros [H | [x [[] _]]]; exact H].
  - rewrite IH, step_addOpt. unfold addOpt. split.
    + intros [H | [y [Hy Hc]]]; [|right; eauto].
      destruct (contribution x) as [q|] eqn:E; [|auto].
      apply elem_of_union in H as [H | H]; [|auto].
      apply elem_of_singleton in H as ->. right; eauto.
    + intros [H | [y [[-> | Hy] Hc]]].
      * left. destruct (contribution x); [|exact H].
        apply elem_of_union. right. exact H.
      * left. rewrite Hc. apply elem_of_union. left.
        apply elem_of_singleton. reflexivity.
      * right; eauto.
Qed.

End Collect.

Lemma size_list_to_set_le (l : list string) :
  (size (list_to_set l : gset string) ≤ length l)%nat.
Proof.
  induction l as [|x l IH].
  - rewrite list_to_set_nil, size_empty. reflexivity.
  - rewrite list_to_set_cons, size_union_alt, size_singleton. simpl.
    assert (list_to_set l ∖ {[x]} ⊆ (list_to_set l : gset string)) as Hsub
      by (intros y Hy; apply elem_of_difference in Hy as [Hy _]; exact Hy).
    apply subseteq_size in Hsub. lia.
Qed.

Lemma size_add_le (p : string) (acc : gset string) :
  (size acc ≤ size ({[p]} ∪ acc) ∧ size ({[p]} ∪ acc) ≤ size acc + 1)%nat.
Proof.
  split.
  - apply subseteq_size, union_subseteq_r.
  - rewrite (union_comm_L {[p]} acc), size_union_alt.
    assert ({[p]} ∖ acc ⊆ ({[p]} : gset string)) as Hsub
      by (intros y Hy; apply elem_of_difference in Hy as [Hy _]; exact Hy).
    apply subseteq_size in Hsub. rewrite size_singleton in Hsub. lia.
Qed.

(** What holds of every estimator of the shape [coveredBy]. *)
Section Estimator.

Variable stepT : list File → gset string → File → gset string.
Variable stepG :
  list File → list Analysis.t → gset string → GeneratedTest → gset string.
Variable cT : list File → File → option string.
Variable cG : list File → list Analysis.t → GeneratedTest → option string.

Hypothesis stepT_addOpt : ∀ sf acc x, stepT sf acc x = addOpt (cT sf x) acc.
Hypothesis stepG_addOpt :
  ∀ sf an acc x, stepG sf an acc x = addOpt (cG sf an x) acc.
Hypothesis cT_source :
  ∀ sf x p, cT sf x = Some p → ∃ f, In f sf ∧ relative_path f = p.
Hypothesis cG_source :
  ∀ sf an x p, cG sf an x = Some p → ∃ f, In f sf ∧ relative_path f = p.

Local Abbreviation covered := (coveredBy stepT stepG).

Lemma elem_of_coveredBy sf tf tests an p :
  p ∈ covered sf tf tests an ↔
  (∃ t, In t tf ∧ cT sf t = Some p) ∨ (∃ g, In g tests ∧ cG sf an g = Some p).
Proof.
  unfold coveredBy.
  rewrite (elem_of_collect _ _ (stepG_addOpt sf an)).
  rewrite (elem_of_collect _ _ (stepT_addOpt sf)).
  rewrite elem_of_empty. tauto.
Qed.

Lemma coveredBy_source sf tf tests an p :
  p ∈ covered sf tf tests an → ∃ f, In f sf ∧ relative_path f = p.
Proof.
  rewrite elem_of_coveredBy. intros [[t [_ H]] | [g [_ H]]]; eauto.
Qed.

Lemma coveredBy_subseteq sf tf tests an :
  covered sf tf tests an ⊆ list_to_set (map relative_path sf).
Proof.
  intros p Hp. apply coveredBy_source in Hp as [f [Hf <-]].
  apply elem_of_list_to_set, list_elem_of_In, in_map, Hf.
Qed.

Lemma coveredBy_size sf tf tests an :
  (size (covered sf tf tests an) ≤ length sf)%nat.
Proof.
  etransitivity; [apply subseteq_size, coveredBy_subseteq|].
  etransitivity; [apply size_list_to_set_le|].
  rewrite length_map. reflexivity.
Qed.

Lemma coveredBy_snoc sf tf t tests an :
  covered sf (tf ++ [t]) tests an
  = addOpt (cT sf t) (covered sf tf tests an).
Proof.
  apply set_eq. intros p.
  assert (p ∈ addOpt (cT sf t) (covered sf tf tests an)
          ↔ cT sf t = Some p ∨ p ∈ covered sf tf tests an) as ->.
  { unfold addOpt. destruct (cT sf t) as [q|]; [|split; [auto|intros [|]; [discriminate|auto]]].
    rewrite elem_of_union, elem_of_singleton.
    split; (intros [H | H]; [left; congruence | right; exact H]). }
  rewrite !elem_of_coveredBy. split.
  - intros [[x [Hx Hc]] | Hg]; [|auto].
    apply in_app_or in Hx as [Hx | [<- | []]]; [right; left; eauto | auto].
  - intros [Hc | [[x [Hx Hc]] | Hg]]; [left; exists t | left; exists x | auto];
      (split; [apply in_or_app; simpl; auto | exact Hc]).
Qed.

Lemma coveredBy_snoc_bounds sf tf t tests an :
  covered sf tf tests an ⊆ covered sf (tf ++ [t]) tests an
  ∧ (size (covered sf tf tests an)
     ≤ size (covered sf (tf ++ [t]) tests an))%nat
  ∧ (size (covered sf (tf ++ [t]) tests an)
     ≤ size (covered sf tf tests an) + 1)%nat.
Proof.
  rewrite coveredBy_snoc. unfold addOpt. destruct (cT sf t) as [p|].
  - pose proof (size_add_le p (covered sf tf tests an)) as [H1 H2].
    split; [apply union_subseteq_r | split; assumption].
  - split; [reflexivity | split; lia].
Qed.

End Estimator.

(** ** Both pages are estimators of that shape *)

Lemma details_addTestFile sf acc t :
  Details.addTestFile sf acc t = addOpt (detailsTestContribution sf t) acc.
Proof.
  unfold Details.addTestFile, detailsTestContribution.
  destruct (Details.matchTestFileToSource sf t) as [p|]; [|reflexivity].
  destruct (truthy p); reflexivity.
Qed.

Lemma details_addGenerated sf an acc g :
  Details.addGenerated sf an acc g
  = addOpt (detailsGeneratedContribution sf an g) acc.
Proof.
  unfold Details.addGenerated, detailsGeneratedContribution.
  destruct (Details.matchGenerated sf an g); reflexivity.
Qed.

Lemma list_addTestFile sf acc t :
  Repositories.addTestFile sf acc t = addOpt (listTestContribution sf t) acc.
Proof.
  unfold Repositories.addTestFile, listTestContribution.
  destruct (Repositories.matchingSource sf t); reflexivity.
Qed.

Lemma list_addGenerated sf an acc g :
  Repositories.addGenerated sf an acc g
  = addOpt (listGeneratedContribution sf an g) acc.
Proof.
  unfold Repositories.addGenerated, listGeneratedContribution.
  destruct (Repositories.matchGenerated sf an g); reflexivity.
Qed.

Lemma find_In {A} (pred : A → bool) (l : list A) (x : A) :
  List.find pred l = Some x → In x l.
Proof. intros H. apply find_some in H as [H _]. exact H. Qed.

Lemma details_matchGenerated_In sf an g f :
  Details.matchGenerated sf an g = Some f → In f sf.
Proof.
  unfold Details.matchGenerated.
  destruct (Details.matchViaAnalysis sf an g) as [f'|] eqn:E.
  - intros [= <-]. unfold Details.matchViaAnalysis in E.
    destruct (truthyNum _); [|discriminate].
    destruct (List.find _ an) as [a|]; [|discriminate].
    destruct (truthyOpt _); [|discriminate].
    exact (find_In _ _ _ E).
  - destruct (truthyOpt _); [|discriminate]. apply find_In.
Qed.

Lemma list_matchGenerated_In sf an g f :
  Repositories.matchGenerated sf an g = Some f → In f sf.
Proof.
  unfold Repositories.matchGenerated.
  destruct (List.find _ an) as [a|]; [|discriminate].
  destruct (truthyOpt _); [|discriminate]. apply find_In.
Qed.

Lemma details_test_source sf t p :
  detailsTestContribution sf t = Some p → ∃ f, In f sf ∧ relative_path f = p.
Proof.
  unfold detailsTestContribution, Details.matchTestFileToSource.
  destruct (List.find _ sf) as [f|] eqn:E; [|discriminate].
  destruct (truthy _); [|discriminate]. intros [= <-].
  exists f. split; [exact (find_In _ _ _ E) | reflexivity].
Qed.

Lemma details_generated_source sf an g p :
  detailsGeneratedContribution sf an g = Some p →
  ∃ f, In f sf ∧ relative_path f = p.
Proof.
  unfold detailsGeneratedContribution.
  destruct (Details.matchGenerated sf an g) as [f|] eqn:E; [|discriminate].
  intros [= <-]. exists f. split; [|reflexivity].
  exact (details_matchGenerated_In _ _ _ _ E).
Qed.

Lemma list_test_source sf t p :
  listTestContribution sf t = Some p → ∃ f, In f sf ∧ relative_path f = p.
Proof.
  unfold listTestContribution, Repositories.matchingSource.
  destruct (List.find _ sf) as [f|] eqn:E; [|discriminate].
  intros [= <-]. exists f. split; [exact (find_In _ _ _ E) | reflexivity].
Qed.

Lemma list_generated_source sf an g p :
  listGeneratedContribution sf an g = Some p →
  ∃ f, In f sf ∧ relative_path f = p.
Proof.
  unfold listGeneratedContribution.
  destruct (Repositories.matchGenerated sf an g) as [f|] eqn:E; [|discriminate].
  intros [= <-]. exists f. split; [|reflexivity].
  exact (list_matchGenerated_In _ _ _ _ E).
Qed.

Lemma details_coveredBy sf tf tests an :
  Details.sourceFilesWithTests sf tf tests an
  = coveredBy Details.addTestFile Details.addGenerated sf tf tests an.
Proof. reflexivity. Qed.

Lemma list_coveredBy sf tf tests an :
  Repositories.sourceFilesWithTests sf tf tests an
  = coveredBy Repositories.addTestFile Repositories.addGenerated sf tf tests an.
Proof. reflexivity. Qed.

Lemma details_elem_of sf tf tests an p :
  p ∈ Details.sourceFilesWithTests sf tf tests an ↔
  (∃ t, In t tf ∧ detailsTestContribution sf t = Some p)
  ∨ (∃ g, In g tests ∧ detailsGeneratedContribution sf an g = Some p).
Proof.
  rewrite details_coveredBy.
  apply elem_of_coveredBy; [apply details_addTestFile | apply details_addGenerated].
Qed.

Lemma list_elem_of sf tf tests an p :
  p ∈ Repositories.sourceFilesWithTests sf tf tests an ↔
  (∃ t, In t tf ∧ listTestContribution sf t = Some p)
  ∨ (∃ g, In g tests ∧ listGeneratedContribution sf an g = Some p).
Proof.
  rewrite list_coveredBy.
  apply elem_of_coveredBy; [apply list_addTestFile | apply list_addGenerated].
Qed.

Lemma details_size sf tf tests an :
  (size (Details.sourceFilesWithTests sf tf tests an) ≤ length sf)%nat.
Proof.
  rewrite details_coveredBy.
  eapply coveredBy_size;
    eauto using details_addTestFile, details_addGenerated, details_test_source,
      details_generated_source.
Qed.

Lemma list_size sf tf tests an :
  (size (Repositories.sourceFilesWithTests sf tf tests an) ≤ length sf)%nat.
Proof.
  rewrite list_coveredBy.
  eapply coveredBy_size;
    eauto using list_addTestFile, list_addGenerated, list_test_source,
      list_generated_source.
Qed.

(** ** Invariants of the result *)

(** C3. On both pages every covered path is the [relative_path] of one of the
    source files given, the covered set is no larger than the list of source
    files, and the percentage lies between 0 and 100. *)
Theorem covered_subset_percentage_range
    (sourceFiles testFiles : list File) (tests : list GeneratedTest)
    (analyses : list Analysis.t) :
  let D := Details.sourceFilesWithTests sourceFiles testFiles tests analyses in
  let L := Repositories.sourceFilesWithTests sourceFiles testFiles tests analyses in
  let covD := Details.totalCoverage sourceFiles testFiles tests analyses in
  let covL := Repositories.totalCoverage sourceFiles testFiles tests analyses in
  (∀ p, p ∈ D → ∃ f, In f sourceFiles ∧ relative_path f = p)
  ∧ (∀ p, p ∈ L → ∃ f, In f sourceFiles ∧ relative_path f = p)
  ∧ (size D ≤ length sourceFiles)%nat
  ∧ (size L ≤ length sourceFiles)%nat
  ∧ (0 <= covD)%Q ∧ (covD <= 100)%Q
  ∧ (0 <= covL)%Q ∧ (covL <= 100)%Q.
Proof.
  intros D L covD covL.
  pose proof (details_size sourceFiles testFiles tests analyses) as HD.
  pose proof (list_size sourceFiles testFiles tests analyses) as HL.
  pose proof (percentage_range _ _ HD) as [HD0 HD1].
  pose proof (percentage_range _ _ HL) as [HL0 HL1].
  repeat split; try assumption.
  - intros p Hp. apply details_elem_of in Hp as [[t [_ H]] | [g [_ H]]];
      eauto using details_test_source, details_generated_source.
  - intros p Hp. apply list_elem_of in Hp as [[t [_ H]] | [g [_ H]]];
      eauto using list_test_source, list_generated_source.
Qed.

(** C4. Without source files the coverage is 0 on both pages, whatever the
    test files, generated tests and analyses are. *)
Theorem coverage_zero_without_source_files
    (testFiles : list File) (tests : list GeneratedTest)
    (analyses : list Analysis.t) :
  Details.totalCoverage [] testFiles tests analyses = 0%Q
  ∧ Repositories.totalCoverage [] testFiles tests analyses = 0%Q.
Proof. split; reflexivity. Qed.

(** C9. Appending one test file to the test-file list, on either page, keeps
    every covered path, enlarges the covered set by at most one path and
    never lowers the percentage. *)
Theorem appending_test_file_monotone
    (sourceFiles testFiles : list File) (testFile : File)
    (tests : list GeneratedTest) (analyses : list Analysis.t) :
  let D := Details.sourceFilesWithTests sourceFiles testFiles tests analyses in
  let D' := Details.sourceFilesWithTests sourceFiles (testFiles ++ [testFile])
              tests analyses in
  let L := Repositories.sourceFilesWithTests sourceFiles testFiles tests analyses in
  let L' := Repositories.sourceFilesWithTests sourceFiles
              (testFiles ++ [testFile]) tests analyses in
  (D ⊆ D' ∧ (size D ≤ size D')%nat ∧ (size D' ≤ size D + 1)%nat
   ∧ (Details.totalCoverage sourceFiles testFiles tests analyses
      <= Details.totalCoverage sourceFiles (testFiles ++ [testFile]) tests
           analyses)%Q)
  ∧ (L ⊆ L' ∧ (size L ≤ size L')%nat ∧ (size L' ≤ size L + 1)%nat
     ∧ (Repositories.totalCoverage sourceFiles testFiles tests analyses
        <= Repositories.totalCoverage sourceFiles (testFiles ++ [testFile])
             tests analyses)%Q).
Proof.
  intros D D' L L'. split.
  - destruct (coveredBy_snoc_bounds _ _ _ _ details_addTestFile
                details_addGenerated sourceFiles testFiles testFile tests
                analyses) as [H1 [H2 H3]].
    repeat split; try assumption. apply percentage_mono. exact H2.
  - destruct (coveredBy_snoc_bounds _ _ _ _ list_addTestFile
                list_addGenerated sourceFiles testFiles testFile tests
                analyses) as [H1 [H2 H3]].
    repeat split; try assumption. apply percentage_mono. exact H2.
Qed.

(** ** The examples of the specification *)

Example example1_details :
  Details.sourceFilesWithTests [calc_py] [test_calc_py] [] [] = {["src/calc.py"]}
  ∧ (Details.totalCoverage [calc_py] [test_calc_py] [] [] == 100)%Q.
Proof. split; vm_compute; reflexivity. Qed.

Example example1_list :
  Repositories.sourceFilesWithTests [calc_py] [test_calc_py] [] []
  = {["src/calc.py"]}
  ∧ (Repositories.totalCoverage [calc_py] [test_calc_py] [] [] == 100)%Q.
Proof. split; vm_compute; reflexivity. Qed.

Example example2_details :
  Details.sourceFilesWithTests [calc_py; util_py] [calc_test_js] [] []
  = {["src/calc.py"]}
  ∧ (Details.totalCoverage [calc_py; util_py] [calc_test_js] [] [] == 50)%Q.
Proof. split; vm_compute; reflexivity. Qed.

Example example2_list :
  Repositories.sourceFilesWithTests [calc_py; util_py] [calc_test_js] [] [] = ∅
  ∧ (Repositories.totalCoverage [calc_py; util_py] [calc_test_js] [] [] == 0)%Q.
Proof. split; vm_compute; reflexivity. Qed.

Example example2_partition :
  Details.sourceFiles [calc_py; util_py; calc_test_js] = [calc_py; util_py]
  ∧ Details.testFiles [calc_py; util_py; calc_test_js] = [calc_test_js]
  ∧ Repositories.sourceFiles [calc_py; util_py; calc_test_js]
    = [calc_py; util_py]
  ∧ Repositories.testFiles [calc_py; util_py; calc_test_js] = [calc_test_js].
Proof. repeat split. Qed.

(** Why the two pages part on example 2: neither the normalised name nor the
    stripped base of [calc.test.js] equals that of [calc.py]; only the
    path-substring rule of the details page accepts the pair. *)
Example example2_rules :
  Details.potentialSourceName "calc.test.js" = "calc.js"
  ∧ replaceEnd Details.sourceExt EmptyString
      (replaceStart Details.testMarkers EmptyString "calc.test.js")
    = "calc.test"
  ∧ includes "src/calc.test.js"
      (replaceEnd Details.sourceExt EmptyString "calc.py") = true
  ∧ Repositories.matchesSource "calc.test.js" "src/calc.test.js"
      (Repositories.potentialSourceName "calc.test.js") calc_py = false.
Proof. repeat split. Qed.

(** C1. The list page and the details page disagree on the input of
    example 2, which both pages obtain from the same three files: the covered
    sets differ and so do the percentages. *)
Theorem pages_disagree_on_example2 :
  (Details.sourceFiles [calc_py; util_py; calc_test_js]
   = Repositories.sourceFiles [calc_py; util_py; calc_test_js]
   ∧ Details.testFiles [calc_py; util_py; calc_test_js]
     = Repositories.testFiles [calc_py; util_py; calc_test_js])
  ∧ Details.sourceFilesWithTests [calc_py; util_py] [calc_test_js] [] []
    ≠ Repositories.sourceFilesWithTests [calc_py; util_py] [calc_test_js] [] []
  ∧ ¬ Qeq (Details.totalCoverage [calc_py; util_py] [calc_test_js] [] [])
        (Repositories.totalCoverage [calc_py; util_py] [calc_test_js] [] []).
Proof.
  destruct example2_details as [HD HDc], example2_list as [HL HLc].
  split; [split; reflexivity|]. split.
  - rewrite HD, HL. intros H.
    apply (not_elem_of_empty (C:=gset string) "src/calc.py").
    rewrite <- H. apply elem_of_singleton. reflexivity.
  - rewrite HDc, HLc. discriminate.
Qed.

(** C7. On the input of example 2 the details page covers [src/calc.py] and
    shows 50, while the list page covers nothing and shows 0. *)
Theorem example2_details_50_list_0 :
  ("src/calc.py" ∈ Details.sourceFilesWithTests [calc_py; util_py]
                     [calc_test_js] [] []
   ∧ Qeq (Details.totalCoverage [calc_py; util_py] [calc_test_js] [] []) 50)
  ∧ (("src/calc.py" ∉ Repositories.sourceFilesWithTests [calc_py; util_py]
                        [calc_test_js] [] [])
     ∧ Qeq (Repositories.totalCoverage [calc_py; util_py] [calc_test_js] [] [])
         0).
Proof.
  destruct example2_details as [HD HDc], example2_list as [HL HLc].
  split; split; try assumption.
  - rewrite HD. apply elem_of_singleton. reflexivity.
  - rewrite HL. apply not_elem_of_empty.
Qed.

(** ** First match wins *)

Lemma find_first {A} (pred : A → bool) (pre : list A) (x : A) (post : list A) :
  (∀ y, In y pre → pred y = false) → pred x = true →
  List.find pred (pre ++ x :: post) = Some x.
Proof.
  intros Hpre Hx. induction pre as [|y pre IH]; simpl.
  - rewrite Hx. reflexivity.
  - rewrite (Hpre y (or_introl eq_refl)). apply IH.
    intros z Hz. apply Hpre. right. exact Hz.
Qed.

Lemma detailsMatches_name t s :
  toLowerCase (name s) = Details.potentialSourceName (toLowerCase (name t)) →
  detailsMatches t s = true.
Proof.
  intros H. unfold detailsMatches, Details.matchesSource.
  rewrite H, String.eqb_refl. reflexivity.
Qed.

Lemma listMatches_name t s :
  toLowerCase (name s) = Repositories.potentialSourceName (toLowerCase (name t)) →
  listMatches t s = true.
Proof.
  intros H. unfold listMatches, Repositories.matchesSource.
  rewrite H, String.eqb_refl. reflexivity.
Qed.

Lemma details_first_match_covered sf tf tests an t pre s post :
  In t tf → sf = (pre ++ s :: post)%list →
  (∀ f, In f pre → detailsMatches t f = false) →
  detailsMatches t s = true →
  relative_path s ≠ EmptyString →
  relative_path s ∈ Details.sourceFilesWithTests sf tf tests an.
Proof.
  intros Ht -> Hpre Hs Hne. apply details_elem_of. left. exists t.
  split; [exact Ht|].
  unfold detailsTestContribution, Details.matchTestFileToSource.
  fold (detailsMatches t). rewrite (find_first _ _ _ _ Hpre Hs).
  apply truthy_true in Hne. rewrite Hne. reflexivity.
Qed.

Lemma list_first_match_covered sf tf tests an t pre s post :
  In t tf → sf = (pre ++ s :: post)%list →
  (∀ f, In f pre → listMatches t f = false) →
  listMatches t s = true →
  relative_path s ∈ Repositories.sourceFilesWithTests sf tf tests an.
Proof.
  intros Ht -> Hpre Hs. apply list_elem_of. left. exists t.
  split; [exact Ht|].
  unfold listTestContribution, Repositories.matchingSource.
  fold (listMatches t). rewrite (find_first _ _ _ _ Hpre Hs). reflexivity.
Qed.

Example example4 :
  "src/helpers.py" ∈ Details.sourceFilesWithTests [helpers_py]
                       [helpers_test_py] [] []
  ∧ "src/helpers.py" ∈ Repositories.sourceFilesWithTests [helpers_py]
                         [helpers_test_py] [] [].
Proof.
  split.
  - replace (Details.sourceFilesWithTests _ _ _ _)
      with ({["src/helpers.py"]} : gset string) by (vm_compute; reflexivity).
    apply elem_of_singleton. reflexivity.
  - replace (Repositories.sourceFilesWithTests _ _ _ _)
      with ({["src/helpers.py"]} : gset string) by (vm_compute; reflexivity).
    apply elem_of_singleton. reflexivity.
Qed.

(** C6, as amended. On inputs whose names and paths are ASCII: when the
    normalised name of a test file equals the lower-cased name of a source
    file, and no source file earlier in the list is accepted by the page's
    matching rule for that test file, the source file is covered (on the
    details page only if its path is not the empty string).  Example 1 gives
    100 and example 4 covers [helpers.py], on both pages. *)
Theorem named_source_covered_when_first_match :
  (∀ sourceFiles testFiles tests analyses testFile pre sourceFile post,
     asciiInput sourceFiles testFiles tests analyses →
     In testFile testFiles →
     sourceFiles = (pre ++ sourceFile :: post)%list →
     toLowerCase (name sourceFile)
     = Details.potentialSourceName (toLowerCase (name testFile)) →
     (∀ f, In f pre → detailsMatches testFile f = false) →
     relative_path sourceFile ≠ EmptyString →
     relative_path sourceFile
     ∈ Details.sourceFilesWithTests sourceFiles testFiles tests analyses)
  ∧ (∀ sourceFiles testFiles tests analyses testFile pre sourceFile post,
       asciiInput sourceFiles testFiles tests analyses →
       In testFile testFiles →
       sourceFiles = (pre ++ sourceFile :: post)%list →
       toLowerCase (name sourceFile)
       = Repositories.potentialSourceName (toLowerCase (name testFile)) →
       (∀ f, In f pre → listMatches testFile f = false) →
       relative_path sourceFile
       ∈ Repositories.sourceFilesWithTests sourceFiles testFiles tests analyses)
  ∧ Qeq (Details.totalCoverage [calc_py] [test_calc_py] [] []) 100
  ∧ Qeq (Repositories.totalCoverage [calc_py] [test_calc_py] [] []) 100
  ∧ "src/helpers.py" ∈ Details.sourceFilesWithTests [helpers_py]
                         [helpers_test_py] [] []
  ∧ "src/helpers.py" ∈ Repositories.sourceFilesWithTests [helpers_py]
                         [helpers_test_py] [] [].
Proof.
  split; [|split; [|split; [|split]]].
  - intros sf tf tests an t pre s post _ Ht Hsf Hname Hpre Hne.
    eapply details_first_match_covered; eauto using detailsMatches_name.
  - intros sf tf tests an t pre s post _ Ht Hsf Hname Hpre.
    eapply list_first_match_covered; eauto using listMatches_name.
  - apply example1_details.
  - apply example1_list.
  - apply example4.
Qed.

Lemma named_source_covered_when_first_match_witness :
  "src/calc.py" ∈ Details.sourceFilesWithTests [calc_py] [test_calc_py] [] [].
Proof.
  apply (proj1 named_source_covered_when_first_match
           [calc_py] [test_calc_py] [] [] test_calc_py [] calc_py []).
  - repeat split; repeat constructor.
  - simpl. left. reflexivity.
  - reflexivity.
  - reflexivity.
  - intros f [].
  - discriminate.
Defined.

(** C6, as stated, fails: [test_calc.py] normalises to [calc.py], the name of
    the second source file, but the details page gives the test to [a.py],
    whose base name [a] occurs in the test path, and leaves [src/calc.py]
    uncovered. *)
Lemma named_source_not_covered :
  In test_calc_py [test_calc_py] ∧ In calc_py [a_py; calc_py]
  ∧ replaceStart ["test_"] EmptyString (name test_calc_py) = name calc_py
  ∧ Details.potentialSourceName (toLowerCase (name test_calc_py))
    = toLowerCase (name calc_py)
  ∧ relative_path calc_py
    ∉ Details.sourceFilesWithTests [a_py; calc_py] [test_calc_py] [] [].
Proof.
  split; [left; reflexivity|]. split; [right; left; reflexivity|].
  split; [reflexivity|]. split; [reflexivity|].
  replace (Details.sourceFilesWithTests _ _ _ _)
    with ({["src/a.py"]} : gset string) by (vm_compute; reflexivity).
  intros H. apply elem_of_singleton in H. discriminate H.
Qed.

(** ** Generated tests resolved through their analysis *)

Lemma list_matchesAnalysis_true analysisPath s :
  Contains analysisPath (toLowerCase (name s))
  ∨ toLowerCase (relative_path s) = analysisPath →
  Repositories.matchesAnalysis analysisPath s = true.
Proof.
  unfold Repositories.matchesAnalysis. intros [H | H].
  - apply includes_Contains in H. rewrite H. reflexivity.
  - rewrite H, String.eqb_refl. apply orb_true_r.
Qed.

Lemma details_matchesAnalysis_of_list analysisPath f :
  Repositories.matchesAnalysis analysisPath f = true →
  Details.matchesAnalysis analysisPath f = true.
Proof.
  unfold Repositories.matchesAnalysis, Details.matchesAnalysis.
  intros H. rewrite H. reflexivity.
Qed.

Lemma details_analysis_first_match sf tf tests an g a fp pre s post :
  In g tests → truthyNum (analysis_id g) = true →
  List.find (fun a => sameId a g) an = Some a →
  Analysis.file_path a = Some fp → fp ≠ EmptyString →
  sf = (pre ++ s :: post)%list →
  (∀ f, In f pre → Details.matchesAnalysis (toLowerCase fp) f = false) →
  Details.matchesAnalysis (toLowerCase fp) s = true →
  relative_path s ∈ Details.sourceFilesWithTests sf tf tests an.
Proof.
  intros Hg Hid Ha Hfp Hne -> Hpre Hs. apply details_elem_of. right.
  exists g. split; [exact Hg|].
  unfold detailsGeneratedContribution, Details.matchGenerated,
    Details.matchViaAnalysis.
  rewrite Hid, Ha, Hfp. simpl. apply truthy_true in Hne. rewrite Hne.
  rewrite (find_first _ _ _ _ Hpre Hs). reflexivity.
Qed.

Lemma list_analysis_first_match sf tf tests an g a fp pre s post :
  In g tests →
  List.find (fun a => sameId a g) an = Some a →
  Analysis.file_path a = Some fp → fp ≠ EmptyString →
  sf = (pre ++ s :: post)%list →
  (∀ f, In f pre → Repositories.matchesAnalysis (toLowerCase fp) f = false) →
  Repositories.matchesAnalysis (toLowerCase fp) s = true →
  relative_path s ∈ Repositories.sourceFilesWithTests sf tf tests an.
Proof.
  intros Hg Ha Hfp Hne -> Hpre Hs. apply list_elem_of. right.
  exists g. split; [exact Hg|].
  unfold listGeneratedContribution, Repositories.matchGenerated.
  rewrite Ha, Hfp. simpl. apply truthy_true in Hne. rewrite Hne.
  rewrite (find_first _ _ _ _ Hpre Hs). reflexivity.
Qed.

Example example3 :
  Details.sourceFilesWithTests [a_py; b_py; c_py] [] [test9]
    [analysis9 "src/a.py"] = {["src/a.py"]}
  ∧ Repositories.sourceFilesWithTests [a_py; b_py; c_py] [] [test9]
      [analysis9 "src/a.py"] = {["src/a.py"]}
  ∧ Qeq (Details.totalCoverage [a_py; b_py; c_py] [] [test9]
           [analysis9 "src/a.py"]) (100 # 3)
  ∧ Qeq (Repositories.totalCoverage [a_py; b_py; c_py] [] [test9]
           [analysis9 "src/a.py"]) (100 # 3)
  ∧ nearly (100 # 3)
      (Details.totalCoverageNumber [a_py; b_py; c_py] [] [test9]
         [analysis9 "src/a.py"])
  ∧ nearly (100 # 3)
      (Repositories.totalCoverageNumber [a_py; b_py; c_py] [] [test9]
         [analysis9 "src/a.py"])
  ∧ Qeq (Repositories.roundedCoverage
           (Repositories.totalCoverageNumber [a_py; b_py; c_py] [] [test9]
              [analysis9 "src/a.py"])) (Number.fl (333 # 10)).
Proof.
  split; [vm_compute; reflexivity|]. split; [vm_compute; reflexivity|].
  split; [vm_compute; reflexivity|]. split; [vm_compute; reflexivity|].
  split; [|split].
  - split; apply Qle_bool_iff; vm_compute; reflexivity.
  - split; apply Qle_bool_iff; vm_compute; reflexivity.
  - vm_compute. reflexivity.
Qed.

(** C8, as amended. On inputs whose names and paths are ASCII: when the
    analysis of a generated test resolves (first analysis with that id,
    non-empty [file_path]; on the details page the [analysis_id] must also be
    non-zero) and its lower-cased path contains the lower-cased name of a
    source file or equals its lower-cased relative path, that source file is
    covered provided no source file earlier in the list is accepted by the
    page's rule for the same analysis path.  In example 3 with [a.py],
    [b.py], [c.py], exactly [src/a.py] is covered; the exact percentage is
    100/3, the number computed is within 10^-13 of it, and the list page
    keeps the number 33.3. *)
Theorem analysed_source_covered_when_first_match :
  (∀ sourceFiles testFiles tests analyses test a fp pre sourceFile post,
     asciiInput sourceFiles testFiles tests analyses →
     In test tests → truthyNum (analysis_id test) = true →
     List.find (fun a => sameId a test) analyses = Some a →
     Analysis.file_path a = Some fp → fp ≠ EmptyString →
     sourceFiles = (pre ++ sourceFile :: post)%list →
     Contains (toLowerCase fp) (toLowerCase (name sourceFile))
     ∨ toLowerCase (relative_path sourceFile) = toLowerCase fp →
     (∀ f, In f pre → Details.matchesAnalysis (toLowerCase fp) f = false) →
     relative_path sourceFile
     ∈ Details.sourceFilesWithTests sourceFiles testFiles tests analyses)
  ∧ (∀ sourceFiles testFiles tests analyses test a fp pre sourceFile post,
       asciiInput sourceFiles testFiles tests analyses →
       In test tests →
       List.find (fun a => sameId a test) analyses = Some a →
       Analysis.file_path a = Some fp → fp ≠ EmptyString →
       sourceFiles = (pre ++ sourceFile :: post)%list →
       Contains (toLowerCase fp) (toLowerCase (name sourceFile))
       ∨ toLowerCase (relative_path sourceFile) = toLowerCase fp →
       (∀ f, In f pre →
             Repositories.matchesAnalysis (toLowerCase fp) f = false) →
       relative_path sourceFile
       ∈ Repositories.sourceFilesWithTests sourceFiles testFiles tests analyses)
  ∧ Details.sourceFilesWithTests [a_py; b_py; c_py] [] [test9]
      [analysis9 "src/a.py"] = {["src/a.py"]}
  ∧ Repositories.sourceFilesWithTests [a_py; b_py; c_py] [] [test9]
      [analysis9 "src/a.py"] = {["src/a.py"]}
  ∧ Qeq (Details.totalCoverage [a_py; b_py; c_py] [] [test9]
           [analysis9 "src/a.py"]) (100 # 3)
  ∧ Qeq (Repositories.totalCoverage [a_py; b_py; c_py] [] [test9]
           [analysis9 "src/a.py"]) (100 # 3)
  ∧ nearly (100 # 3)
      (Details.totalCoverageNumber [a_py; b_py; c_py] [] [test9]
         [analysis9 "src/a.py"])
  ∧ nearly (100 # 3)
      (Repositories.totalCoverageNumber [a_py; b_py; c_py] [] [test9]
         [analysis9 "src/a.py"])
  ∧ Qeq (Repositories.roundedCoverage
           (Repositories.totalCoverageNumber [a_py; b_py; c_py] [] [test9]
              [analysis9 "src/a.py"])) (Number.fl (333 # 10)).
Proof.
  split; [|split; [|exact example3]].
  - intros sf tf tests an g a fp pre s post _ Hg Hid Ha Hfp Hne Hsf Hs Hpre.
    eapply details_analysis_first_match; eauto.
    apply details_matchesAnalysis_of_list, list_matchesAnalysis_true, Hs.
  - intros sf tf tests an g a fp pre s post _ Hg Ha Hfp Hne Hsf Hs Hpre.
    eapply list_analysis_first_match; eauto.
    apply list_matchesAnalysis_true, Hs.
Qed.

Lemma analysed_source_covered_when_first_match_witness :
  "src/a.py" ∈ Details.sourceFilesWithTests [a_py; b_py; c_py] [] [test9]
                 [analysis9 "src/a.py"].
Proof.
  apply (proj1 analysed_source_covered_when_first_match
           [a_py; b_py; c_py] [] [test9] [analysis9 "src/a.py"] test9
           (analysis9 "src/a.py") "src/a.py" [] a_py [b_py; c_py]).
  - repeat split; repeat constructor.
  - simpl. left. reflexivity.
  - reflexivity.
  - reflexivity.
  - reflexivity.
  - discriminate.
  - reflexivity.
  - right. reflexivity.
  - intros f [].
Defined.

(** C8, as stated, fails: the analysis path [src/data.py] equals the relative
    path of [data.py] and contains its name, but it also contains [a.py], the
    name of an earlier source file, and both pages cover [src/a.py] instead. *)
Lemma analysed_source_not_covered :
  List.find (fun a => sameId a test9) [analysis9 "src/data.py"]
  = Some (analysis9 "src/data.py")
  ∧ In data_py [a_py; data_py]
  ∧ includes (toLowerCase "src/data.py") (name data_py) = true
  ∧ toLowerCase "src/data.py" = relative_path data_py
  ∧ (relative_path data_py
     ∉ Details.sourceFilesWithTests [a_py; data_py] [] [test9]
         [analysis9 "src/data.py"])
  ∧ (relative_path data_py
     ∉ Repositories.sourceFilesWithTests [a_py; data_py] [] [test9]
         [analysis9 "src/data.py"]).
Proof.
  split; [reflexivity|]. split; [right; left; reflexivity|].
  split; [reflexivity|]. split; [reflexivity|]. split.
  - replace (Details.sourceFilesWithTests _ _ _ _)
      with ({["src/a.py"]} : gset string) by (vm_compute; reflexivity).
    intros H. apply elem_of_singleton in H. discriminate H.
  - replace (Repositories.sourceFilesWithTests _ _ _ _)
      with ({["src/a.py"]} : gset string) by (vm_compute; reflexivity).
    intros H. apply elem_of_singleton in H. discriminate H.
Qed.

(** ** The details page on records as the backend sends them *)

Lemma findM_anyOf (predM : AnyFile → result bool) (pred : File → bool)
    (l : list File) :
  (∀ f, predM (anyOf f) = Ok (pred f)) →
  findM predM (map anyOf l) = Ok (option_map anyOf (List.find pred l)).
Proof.
  intros H. induction l as [|x l IH]; simpl; [reflexivity|].
  rewrite H. simpl. destruct (pred x); [reflexivity | exact IH].
Qed.

Lemma filterM_anyOf (predM : AnyFile → result bool) (pred : File → bool)
    (l : list File) :
  (∀ f, predM (anyOf f) = Ok (pred f)) →
  filterM predM (map anyOf l) = Ok (map anyOf (List.filter pred l)).
Proof.
  intros H. induction l as [|x l IH]; simpl; [reflexivity|].
  rewrite H, IH. simpl. destruct (pred x); reflexivity.
Qed.

Lemma forEachM_pure {A B S} (bodyM : S → B → result S) (body : S → A → S)
    (inj : A → B) (l : list A) (s : S) :
  (∀ s x, bodyM s (inj x) = Ok (body s x)) →
  forEachM bodyM (map inj l) s = Ok (fold_left body l s).
Proof.
  intros H. revert s. induction l as [|x l IH]; intros s; simpl; [reflexivity|].
  rewrite H. simpl. apply IH.
Qed.

Lemma filter_anyOf (predA : AnyFile → bool) (pred : File → bool)
    (l : list File) :
  (∀ f, predA (anyOf f) = pred f) →
  List.filter predA (map anyOf l) = map anyOf (List.filter pred l).
Proof.
  intros H. induction l as [|x l IH]; [reflexivity|].
  cbn [map List.filter]. rewrite H, IH. destruct (pred x); reflexivity.
Qed.

Lemma filterM_throw {A} (pred : A → result bool) (l : list A) (x : A) :
  In x l → pred x = Throw → filterM pred l = Throw.
Proof.
  intros Hx Hp. induction l as [|y l IH]; [destruct Hx|].
  cbn [filterM]. destruct Hx as [-> | Hx].
  - rewrite Hp. reflexivity.
  - rewrite (IH Hx). destruct (pred y); reflexivity.
Qed.

Lemma anyOf_typedOf x : incomplete x = false → anyOf (typedOf x) = x.
Proof.
  destruct x as [[n|] [p|] e]; simpl; try discriminate. reflexivity.
Qed.

Lemma map_anyOf_typedOf (l : list AnyFile) :
  existsb incomplete l = false → map anyOf (map typedOf l) = l.
Proof.
  induction l as [|x l IH]; [reflexivity|]. simpl.
  intros H. apply orb_false_iff in H as [Hx Hl].
  rewrite (anyOf_typedOf x Hx), (IH Hl). reflexivity.
Qed.

Lemma any_allCodeFiles files :
  DetailsAny.allCodeFiles (map anyOf files) = map anyOf (allCodeFiles files).
Proof. apply filter_anyOf. reflexivity. Qed.

Lemma any_isTestFile filePath fileName :
  DetailsAny.isTestFile (Some filePath) (Some fileName)
  = Ok (Details.isTestFile filePath fileName).
Proof. reflexivity. Qed.

Lemma any_matchTestFileToSource sf t :
  DetailsAny.matchTestFileToSource (map anyOf sf) (anyOf t)
  = Ok (Details.matchTestFileToSource sf t).
Proof.
  unfold DetailsAny.matchTestFileToSource, Details.matchTestFileToSource. simpl.
  rewrite (findM_anyOf _
             (Details.matchesSource (toLowerCase (name t))
                (toLowerCase (relative_path t))
                (Details.potentialSourceName (toLowerCase (name t)))))
    by reflexivity.
  simpl. destruct (List.find _ sf); reflexivity.
Qed.

Lemma any_addTestFile sf acc t :
  DetailsAny.addTestFile (map anyOf sf) acc (anyOf t)
  = Ok (Details.addTestFile sf acc t).
Proof.
  unfold DetailsAny.addTestFile, Details.addTestFile.
  rewrite any_matchTestFileToSource. reflexivity.
Qed.

Lemma any_matchGenerated sf an g :
  DetailsAny.matchGenerated (map anyOf sf) (Some an) g
  = Ok (option_map anyOf (Details.matchGenerated sf an g)).
Proof.
  assert (DetailsAny.matchViaAnalysis (map anyOf sf) (Some an) g
          = Ok (option_map anyOf (Details.matchViaAnalysis sf an g))) as Hvia.
  { unfold DetailsAny.matchViaAnalysis, Details.matchViaAnalysis.
    destruct (truthyNum _); [|reflexivity]. cbn [arrayOf bind].
    destruct (List.find _ an) as [a|]; [|reflexivity].
    destruct (truthyOpt _); [|reflexivity].
    apply findM_anyOf. reflexivity. }
  unfold DetailsAny.matchGenerated, Details.matchGenerated.
  rewrite Hvia. simpl.
  destruct (Details.matchViaAnalysis sf an g); simpl; [reflexivity|].
  destruct (truthyOpt (test_file_path g)); [|reflexivity].
  apply findM_anyOf. reflexivity.
Qed.

Lemma any_addGenerated sf an acc g :
  DetailsAny.addGenerated (map anyOf sf) (Some an) acc g
  = Ok (Details.addGenerated sf an acc g).
Proof.
  unfold DetailsAny.addGenerated, Details.addGenerated.
  rewrite any_matchGenerated. simpl.
  destruct (Details.matchGenerated sf an g); reflexivity.
Qed.

(** Without [analyses], a generated test that names an analysis throws; one
    that names none is handled as with no analyses at all. *)
Lemma any_addGenerated_undefined sf acc g :
  DetailsAny.addGenerated (map anyOf sf) None acc g
  = if truthyNum (analysis_id g) then Throw
    else Ok (Details.addGenerated sf [] acc g).
Proof.
  unfold DetailsAny.addGenerated, DetailsAny.matchGenerated,
    DetailsAny.matchViaAnalysis, Details.addGenerated, Details.matchGenerated,
    Details.matchViaAnalysis.
  destruct (truthyNum (analysis_id g)); [reflexivity|]. cbn [bind].
  destruct (truthyOpt (test_file_path g)); [|reflexivity].
  rewrite (findM_anyOf _
             (Details.matchesSavedTest
                (toLowerCase (orEmpty (test_file_path g)))
                (Details.potentialSourceName
                   (let o :=
                      pop (split "/" (toLowerCase (orEmpty (test_file_path g))))
                    in if truthyOpt o then orEmpty o else EmptyString))))
    by reflexivity.
  cbn [bind]. destruct (List.find _ sf); reflexivity.
Qed.

Lemma forEachM_throw {A S} (body : S → A → result S) (l : list A) (s : S)
    (x : A) :
  In x l → (∀ s, body s x = Throw) → forEachM body l s = Throw.
Proof.
  intros Hx Hb. revert s. induction l as [|y l IH]; intros s; [destruct Hx|].
  cbn [forEachM]. destruct Hx as [-> | Hx].
  - rewrite Hb. reflexivity.
  - destruct (body s y); [cbn [bind]; apply IH, Hx | reflexivity].
Qed.

Lemma forEachM_pure_In {A S} (bodyM : S → A → result S) (body : S → A → S)
    (l : list A) (s : S) :
  (∀ s x, In x l → bodyM s x = Ok (body s x)) →
  forEachM bodyM l s = Ok (fold_left body l s).
Proof.
  revert s. induction l as [|x l IH]; intros s H; simpl; [reflexivity|].
  rewrite (H s x (or_introl eq_refl)). simpl. apply IH.
  intros s' y Hy. apply H. right. exact Hy.
Qed.

Lemma any_tests_loop sf tests an acc :
  (let* tests := arrayOf tests in
   forEachM (DetailsAny.addGenerated (map anyOf sf) an) tests acc)
  = match tests with
    | None => Throw
    | Some ts =>
        match an with
        | Some _ => Ok (fold_left (Details.addGenerated sf (default [] an)) ts acc)
        | None =>
            if existsb (fun t => truthyNum (analysis_id t)) ts then Throw
            else Ok (fold_left (Details.addGenerated sf []) ts acc)
        end
    end.
Proof.
  destruct tests as [ts|]; [|reflexivity]. cbn [arrayOf bind].
  destruct an as [an|].
  - rewrite <- (map_id ts) at 1.
    apply (forEachM_pure _ (Details.addGenerated sf an) (fun g => g)).
    apply any_addGenerated.
  - destruct (existsb _ ts) eqn:E.
    + apply existsb_exists in E as [t [Ht Hid]].
      apply (forEachM_throw _ _ _ t Ht). intros s.
      rewrite any_addGenerated_undefined, Hid. reflexivity.
    + apply forEachM_pure_In. intros s t Ht.
      rewrite any_addGenerated_undefined.
      assert (truthyNum (analysis_id t) = false) as ->; [|reflexivity].
      destruct (truthyNum (analysis_id t)) eqn:Hid; [|reflexivity].
      rewrite <- E. symmetry. apply existsb_exists. exists t. auto.
Qed.

Lemma any_sourceFilesWithTests sf tf tests an :
  DetailsAny.sourceFilesWithTests (map anyOf sf) (map anyOf tf) (Some tests)
    (Some an)
  = Ok (Details.sourceFilesWithTests sf tf tests an).
Proof.
  unfold DetailsAny.sourceFilesWithTests, Details.sourceFilesWithTests.
  rewrite (forEachM_pure _ (Details.addTestFile sf) anyOf)
    by apply any_addTestFile.
  cbn [bind]. rewrite any_tests_loop. reflexivity.
Qed.

Lemma any_sourceFiles files :
  DetailsAny.sourceFiles (map anyOf files)
  = Ok (map anyOf (Details.sourceFiles files)).
Proof.
  unfold DetailsAny.sourceFiles, Details.sourceFiles.
  rewrite any_allCodeFiles. apply filterM_anyOf. reflexivity.
Qed.

Lemma any_testFiles files :
  DetailsAny.testFiles (map anyOf files)
  = Ok (map anyOf (Details.testFiles files)).
Proof.
  unfold DetailsAny.testFiles, Details.testFiles.
  rewrite any_allCodeFiles. apply filterM_anyOf. reflexivity.
Qed.

(** ** When the details page throws *)

Lemma details_isTestFile_throw filePath fileName :
  DetailsAny.isTestFile filePath fileName = Throw
  ↔ filePath = None ∨ fileName = None.
Proof.
  destruct filePath as [p|], fileName as [n|]; simpl;
    split; intros H; try discriminate H; try reflexivity; auto;
    destruct H as [H | H]; discriminate H.
Qed.

Lemma incomplete_true x :
  incomplete x = true ↔ any_relative_path x = None ∨ any_name x = None.
Proof.
  destruct x as [[n|] [p|] e]; simpl; split; intros H; auto;
    try discriminate H; destruct H as [H | H]; discriminate H.
Qed.

(** [find] with a callback that may throw: it throws exactly when it reaches
    an element on which the callback throws. *)
Lemma findM_throw_iff {A} (pred : A → result bool) (l : list A) :
  findM pred l = Throw
  ↔ ∃ pre x post, l = (pre ++ x :: post)%list ∧ pred x = Throw
                  ∧ ∀ y, In y pre → pred y = Ok false.
Proof.
  induction l as [|a l IH]; cbn [findM].
  - split; [discriminate|]. intros (pre & x & post & E & _).
    destruct pre; discriminate E.
  - destruct (pred a) as [[|]|] eqn:Ea; cbn [bind].
    + split; [discriminate|]. intros (pre & x & post & E & Hx & Hpre).
      destruct pre as [|y pre]; injection E as <- _.
      * congruence.
      * specialize (Hpre a (or_introl eq_refl)). congruence.
    + rewrite IH. split.
      * intros (pre & x & post & -> & Hx & Hpre).
        exists (a :: pre), x, post. split; [reflexivity|]. split; [exact Hx|].
        intros y [<- | Hy]; [exact Ea | apply Hpre, Hy].
      * intros (pre & x & post & E & Hx & Hpre).
        destruct pre as [|y pre]; injection E as <- E.
        -- congruence.
        -- exists pre, x, post. split; [exact E|]. split; [exact Hx|].
           intros z Hz. apply Hpre. right. exact Hz.
    + split; [|reflexivity]. intros _.
      exists [], a, l. split; [reflexivity|]. split; [exact Ea|].
      intros y [].
Qed.

Lemma details_matchesSource_any tn tp pn x :
  DetailsAny.matchesSource tn tp pn x
  = if incomplete x then Throw
    else Ok (Details.matchesSource tn tp pn (typedOf x)).
Proof. destruct x as [[n|] [p|] e]; reflexivity. Qed.

Lemma details_matchTestFileToSource_throw sourceFiles testFile :
  DetailsAny.matchTestFileToSource sourceFiles testFile = Throw
  ↔ incomplete testFile = true
    ∨ ∃ pre x post,
        sourceFiles = (pre ++ x :: post)%list ∧ incomplete x = true
        ∧ ∀ f, In f pre →
               incomplete f = false
               ∧ detailsMatches (typedOf testFile) (typedOf f) = false.
Proof.
  unfold DetailsAny.matchTestFileToSource.
  destruct testFile as [[n|] [p|] e]; cbn [lowerOf any_name any_relative_path bind];
    try (split; [intros _; left; reflexivity | reflexivity]).
  set (pred := DetailsAny.matchesSource _ _ _).
  assert (Hpred : ∀ x, pred x
                       = if incomplete x then Throw
                         else Ok (detailsMatches
                                    (typedOf (mkAnyFile (Some n) (Some p) e))
                                    (typedOf x)))
    by (intros x; apply details_matchesSource_any).
  destruct (findM pred sourceFiles) as [m|] eqn:Ef; cbn [bind].
  - split; [discriminate|]. intros [H | (pre & x & post & E & Hx & Hpre)].
    + discriminate H.
    + assert (findM pred sourceFiles = Throw) as Hthrow; [|congruence].
      apply findM_throw_iff. exists pre, x, post. split; [exact E|].
      split; [rewrite Hpred, Hx; reflexivity|].
      intros y Hy. destruct (Hpre y Hy) as [Hc Hm].
      rewrite Hpred, Hc, Hm. reflexivity.
  - split; [|reflexivity]. intros _. right.
    apply findM_throw_iff in Ef as (pre & x & post & E & Hx & Hpre).
    exists pre, x, post. split; [exact E|]. split.
    + rewrite Hpred in Hx. destruct (incomplete x); [reflexivity|discriminate].
    + intros f Hf. specialize (Hpre f Hf). rewrite Hpred in Hpre.
      destruct (incomplete f); [discriminate|].
      split; [reflexivity|]. congruence.
Qed.

Lemma details_isTestFile_incomplete x :
  incomplete x = true →
  DetailsAny.isTestFile (any_relative_path x) (any_name x) = Throw.
Proof. destruct x as [[n|] [p|] e]; simpl; try discriminate; reflexivity. Qed.

Lemma any_extension_typedOf x : extension (typedOf x) = any_extension x.
Proof. reflexivity. Qed.

Lemma typed_allCodeFiles files :
  allCodeFiles (map typedOf files) = map typedOf (DetailsAny.allCodeFiles files).
Proof.
  unfold allCodeFiles, DetailsAny.allCodeFiles.
  induction files as [|x l IH]; [reflexivity|].
  cbn [map List.filter]. rewrite any_extension_typedOf.
  destruct (existsb _ codeExtensions); cbn [map]; rewrite IH; reflexivity.
Qed.

(** The partition, when every code file has its name and path. *)
Lemma details_partition_complete files :
  existsb incomplete (DetailsAny.allCodeFiles files) = false →
  DetailsAny.sourceFiles files
  = Ok (map anyOf (Details.sourceFiles (map typedOf files)))
  ∧ DetailsAny.testFiles files
    = Ok (map anyOf (Details.testFiles (map typedOf files))).
Proof.
  intros Hc. unfold DetailsAny.sourceFiles, DetailsAny.testFiles,
    Details.sourceFiles, Details.testFiles.
  rewrite typed_allCodeFiles.
  pose proof (map_anyOf_typedOf _ Hc) as E.
  set (typed := map typedOf (DetailsAny.allCodeFiles files)) in *.
  clearbody typed. rewrite <- E.
  split; apply filterM_anyOf; reflexivity.
Qed.

Lemma details_partition_incomplete files x :
  In x (DetailsAny.allCodeFiles files) → incomplete x = true →
  DetailsAny.sourceFiles files = Throw.
Proof.
  intros Hx Hinc. unfold DetailsAny.sourceFiles.
  rewrite (filterM_throw _ _ x Hx); [reflexivity|].
  rewrite (details_isTestFile_incomplete x Hinc). reflexivity.
Qed.

(** The whole computation, case by case. *)
Lemma details_page_cases files tests analyses :
  DetailsAny.RepositoryDetails files tests analyses
  = if existsb incomplete (DetailsAny.allCodeFiles files) then Throw
    else
      match tests with
      | None => Throw
      | Some ts =>
          if match analyses with
             | Some _ => false
             | None => existsb (fun t => truthyNum (analysis_id t)) ts
             end
          then Throw
          else
            let sf := Details.sourceFiles (map typedOf files) in
            let tf := Details.testFiles (map typedOf files) in
            Ok (Details.sourceFilesWithTests sf tf ts (default [] analyses),
                Details.totalCoverage sf tf ts (default [] analyses))
      end.
Proof.
  unfold DetailsAny.RepositoryDetails.
  destruct (existsb incomplete (DetailsAny.allCodeFiles files)) eqn:Hc.
  - apply existsb_exists in Hc as [x [Hx Hinc]].
    rewrite (details_partition_incomplete files x Hx Hinc). reflexivity.
  - destruct (details_partition_complete files Hc) as [-> ->]. cbn [bind].
    unfold DetailsAny.sourceFilesWithTests.
    rewrite (forEachM_pure _
               (Details.addTestFile (Details.sourceFiles (map typedOf files)))
               anyOf)
      by apply any_addTestFile.
    cbn [bind]. rewrite any_tests_loop.
    destruct tests as [ts|]; [|reflexivity].
    destruct analyses as [an|]; cbn [default bind].
    + unfold Details.totalCoverage, Details.sourceFilesWithTests, percentage.
      rewrite length_map. reflexivity.
    + destruct (existsb _ ts); [reflexivity|]. cbn [bind].
      unfold Details.totalCoverage, Details.sourceFilesWithTests, percentage.
      rewrite length_map. reflexivity.
Qed.

(** C2, as amended.  Only the fields behind a guard degrade silently: a
    record without [extension] is not a code file, and a generated test
    without [analysis_id] and [test_file_path] covers nothing.  A missing
    [relative_path] or [name] throws wherever the code reaches it:
    [isTestFile] throws exactly when one of its two arguments is missing;
    [matchTestFileToSource] exactly when the test file lacks one of the two
    fields or [find] reaches a source file that does; the computation of the
    page, from the file list to the coverage, exactly when some code file
    lacks one of the two fields, or the response has no [tests], or it has no
    [analyses] while a generated test names one.  In every other case nothing
    throws and the results are those of the typed functions. *)
Theorem details_page_throws_iff_field_missing
    (files sourceFiles : list AnyFile) (testFile : AnyFile)
    (tests : option (list GeneratedTest))
    (analyses : option (list Analysis.t)) (filePath fileName : option string) :
  (DetailsAny.isTestFile filePath fileName = Throw
   ↔ filePath = None ∨ fileName = None)
  ∧ (∀ p n, DetailsAny.isTestFile (Some p) (Some n)
            = Ok (Details.isTestFile p n))
  ∧ (DetailsAny.matchTestFileToSource sourceFiles testFile = Throw
     ↔ incomplete testFile = true
       ∨ ∃ pre x post,
           sourceFiles = (pre ++ x :: post)%list ∧ incomplete x = true
           ∧ ∀ f, In f pre →
                  incomplete f = false
                  ∧ detailsMatches (typedOf testFile) (typedOf f) = false)
  ∧ (∀ sf t, DetailsAny.matchTestFileToSource (map anyOf sf) (anyOf t)
             = Ok (Details.matchTestFileToSource sf t))
  ∧ (DetailsAny.RepositoryDetails files tests analyses = Throw
     ↔ (∃ x, In x (DetailsAny.allCodeFiles files) ∧ incomplete x = true)
       ∨ tests = None
       ∨ (analyses = None
          ∧ ∃ t, In t (default [] tests) ∧ truthyNum (analysis_id t) = true))
  ∧ (∀ r, DetailsAny.RepositoryDetails files tests analyses = Ok r →
          let sf := Details.sourceFiles (map typedOf files) in
          let tf := Details.testFiles (map typedOf files) in
          r = (Details.sourceFilesWithTests sf tf (default [] tests)
                 (default [] analyses),
               Details.totalCoverage sf tf (default [] tests)
                 (default [] analyses)))
  ∧ DetailsAny.allCodeFiles [mkAnyFile fileName filePath None] = []
  ∧ (∀ acc i,
       DetailsAny.addGenerated sourceFiles analyses acc
         (mkGeneratedTest i None None) = Ok acc).
Proof.
  split; [apply details_isTestFile_throw|].
  split; [intros p n; apply any_isTestFile|].
  split; [apply details_matchTestFileToSource_throw|].
  split; [intros sf t; apply any_matchTestFileToSource|].
  split; [|split; [|split; reflexivity]].
  - rewrite details_page_cases.
    destruct (existsb incomplete (DetailsAny.allCodeFiles files)) eqn:Hc.
    { split; [intros _|reflexivity]. left.
      apply existsb_exists in Hc. exact Hc. }
    assert (Hno : ¬ ∃ x, In x (DetailsAny.allCodeFiles files)
                         ∧ incomplete x = true).
    { intros Hex. apply existsb_exists in Hex. congruence. }
    destruct tests as [ts|]; [|split; [intros _; right; left|]; reflexivity].
    destruct analyses as [an|]; cbn [default].
    { split; [discriminate|].
      intros [H | [H | [H _]]]; [contradiction | discriminate H..]. }
    destruct (existsb _ ts) eqn:E.
    + split; [intros _|reflexivity]. right. right.
      split; [reflexivity|]. apply existsb_exists in E. exact E.
    + split; [discriminate|].
      intros [H | [H | [_ H]]]; [contradiction | discriminate H|].
      destruct H as [t [Ht Hid]].
      assert (existsb (fun t => truthyNum (analysis_id t)) ts = true) as Hex
        by (apply existsb_exists; exists t; split; [exact Ht | exact Hid]).
      rewrite E in Hex. discriminate Hex.
  - intros r. rewrite details_page_cases.
    destruct (existsb incomplete _); [discriminate|].
    destruct tests as [ts|]; [|discriminate].
    destruct analyses as [an|]; cbn [default].
    + intros [= <-]. reflexivity.
    + destruct (existsb _ ts); [discriminate|]. intros [= <-]. reflexivity.
Qed.

Lemma details_page_throws_iff_field_missing_witness :
  ({["src/calc.py"]}, 100%Q)
  = (Details.sourceFilesWithTests [calc_py] [test_calc_py]
       [mkGeneratedTest 1 None None] [],
     Details.totalCoverage [calc_py] [test_calc_py]
       [mkGeneratedTest 1 None None] []).
Proof.
  apply (proj1 (proj2 (proj2 (proj2 (proj2 (proj2
           (details_page_throws_iff_field_missing
              [anyOf calc_py; anyOf test_calc_py; mkAnyFile None None None]
              [] (anyOf test_calc_py) (Some [mkGeneratedTest 1 None None])
              None None None))))))
           ({["src/calc.py"]}, 100%Q)).
  vm_compute. reflexivity.
Defined.

(** C2, as stated, fails: without [relative_path] or [name] the classifier
    throws, and so do the matching of a test file without [name] and the whole
    computation, also when it is a source file that lacks the field. *)
Lemma missing_field_throws :
  DetailsAny.isTestFile None (Some "calc.py") = Throw
  ∧ DetailsAny.isTestFile (Some "src/calc.py") None = Throw
  ∧ DetailsAny.sourceFiles [mkAnyFile None (Some "src/calc.py") (Some ".py")]
    = Throw
  ∧ DetailsAny.matchTestFileToSource [anyOf calc_py]
      (mkAnyFile None (Some "tests/test_calc.py") (Some ".py")) = Throw
  ∧ DetailsAny.totalCoverage [anyOf calc_py]
      [mkAnyFile None (Some "tests/test_calc.py") (Some ".py")] (Some [])
      (Some []) = Throw
  ∧ DetailsAny.totalCoverage
      [mkAnyFile (Some "calc.py") None (Some ".py")] [anyOf test_calc_py]
      (Some []) (Some [])
    = Throw
  ∧ DetailsAny.RepositoryDetails
      [anyOf calc_py; mkAnyFile (Some "test_calc.py") None (Some ".py")]
      (Some []) (Some [])
    = Throw.
Proof. repeat split. Qed.

(** ** Changing the letter case of the inputs *)

Lemma fileVariant_sym f g : fileVariant f g → fileVariant g f.
Proof. intros [H1 H2]. split; congruence. Qed.

Lemma analysisVariant_sym a b : analysisVariant a b → analysisVariant b a.
Proof. intros [H1 H2]. split; congruence. Qed.

Lemma Forall2_sym {A} (R : A → A → Prop) (l l' : list A) :
  (∀ x y, R x y → R y x) → Forall2 R l l' → Forall2 R l' l.
Proof. intros Hsym H. induction H; constructor; auto. Qed.

Lemma Forall2_In_l {A} (R : A → A → Prop) (l l' : list A) (x : A) :
  Forall2 R l l' → In x l → ∃ x', In x' l' ∧ R x x'.
Proof.
  intros H. induction H as [|y y' l l' Hy _ IH]; intros Hx; [destruct Hx|].
  destruct Hx as [<- | Hx].
  - exists y'. split; [left; reflexivity | exact Hy].
  - destruct (IH Hx) as [x' [Hin HR]]. exists x'. split; [right|]; assumption.
Qed.

Lemma find_variant {A} (R : A → A → Prop) (pred pred' : A → bool)
    (l l' : list A) :
  Forall2 R l l' → (∀ x x', R x x' → pred x = pred' x') →
  option_Forall2 R (List.find pred l) (List.find pred' l').
Proof.
  intros H Hp. induction H as [|y y' l l' Hy _ IH]; simpl; [constructor|].
  rewrite <- (Hp y y' Hy). destruct (pred y); [constructor; exact Hy | exact IH].
Qed.

Lemma first_match_unique {A} (p1 p2 : A → bool) (l : list A) (f g : A) :
  List.find p1 l = Some f → List.find p2 l = Some g →
  p1 g = true → p2 f = true → f = g.
Proof.
  induction l as [|x l IH]; simpl; [discriminate|].
  destruct (p1 x) eqn:E1, (p2 x) eqn:E2.
  - intros [= <-] [= <-] _ _. reflexivity.
  - intros [= <-] _ _ H. congruence.
  - intros _ [= <-] H _. congruence.
  - exact IH.
Qed.

Lemma foundBy_In sf f : FoundBy sf f → In f sf.
Proof. intros [pred [_ H]]. exact (find_In _ _ _ H). Qed.

Lemma foundBy_inj sf f g :
  namesFollowPaths sf → FoundBy sf f → FoundBy sf g →
  toLowerCase (relative_path f) = toLowerCase (relative_path g) → f = g.
Proof.
  intros Hnames Hf Hg Hpath.
  assert (fileVariant f g) as Hfg.
  { split; [|exact Hpath]. apply Hnames; auto using foundBy_In. }
  destruct Hf as [p1 [Hp1 Hf]], Hg as [p2 [Hp2 Hg]].
  apply (first_match_unique p1 p2 sf); try assumption.
  - rewrite <- (Hp1 f g Hfg). apply find_some in Hf as [_ Hf]. exact Hf.
  - rewrite (Hp2 f g Hfg). apply find_some in Hg as [_ Hg]. exact Hg.
Qed.

Lemma size_set_map_inj_on (f : string → string) (X : gset string) :
  (∀ x y, x ∈ X → y ∈ X → f x = f y → x = y) →
  size (set_map (D:=gset string) f X) = size X.
Proof.
  induction X as [|x X Hx IH] using set_ind_L; intros Hinj.
  - rewrite set_map_empty, !size_empty. reflexivity.
  - rewrite set_map_union_L, set_map_singleton_L.
    rewrite !size_union, !size_singleton, IH; [reflexivity| | |].
    + intros y z Hy Hz. apply Hinj; apply elem_of_union; right; assumption.
    + intros y Hy1 Hy2. apply elem_of_singleton in Hy1 as ->. exact (Hx Hy2).
    + intros y Hy1 Hy2. apply elem_of_singleton in Hy1 as ->.
      apply elem_of_map in Hy2 as [z [Hfz Hz]].
      apply Hx. rewrite (Hinj x z); [exact Hz | | | exact Hfz].
      * apply elem_of_union. left. apply elem_of_singleton. reflexivity.
      * apply elem_of_union. right. exact Hz.
Qed.

Lemma namesFollowPaths_variant sf sf' :
  Forall2 fileVariant sf sf' → namesFollowPaths sf → namesFollowPaths sf'.
Proof.
  intros Hv Hn f' g' Hf' Hg' Hpath.
  apply (Forall2_sym _ _ _ fileVariant_sym) in Hv.
  destruct (Forall2_In_l _ _ _ _ Hv Hf') as [f [Hf [Hf1 Hf2]]].
  destruct (Forall2_In_l _ _ _ _ Hv Hg') as [g [Hg [Hg1 Hg2]]].
  rewrite Hf1, Hg1. apply Hn; [assumption..|]. congruence.
Qed.

Lemma percentage_variant {A B} (c c' : gset string) (l : list A) (l' : list B) :
  size c = size c' → length l = length l' → percentage c l = percentage c' l'.
Proof. intros Hs Hl. unfold percentage. rewrite Hs, Hl. reflexivity. Qed.

Section CaseInvariance.

Variable stepT : list File → gset string → File → gset string.
Variable stepG :
  list File → list Analysis.t → gset string → GeneratedTest → gset string.
Variable cT : list File → File → option string.
Variable cG : list File → list Analysis.t → GeneratedTest → option string.

Hypothesis stepT_addOpt : ∀ sf acc x, stepT sf acc x = addOpt (cT sf x) acc.
Hypothesis stepG_addOpt :
  ∀ sf an acc x, stepG sf an acc x = addOpt (cG sf an x) acc.
Hypothesis cT_found :
  ∀ sf t p, cT sf t = Some p → ∃ f, FoundBy sf f ∧ relative_path f = p.
Hypothesis cG_found :
  ∀ sf an g p, cG sf an g = Some p → ∃ f, FoundBy sf f ∧ relative_path f = p.
Hypothesis cT_variant :
  ∀ sf sf' t t', Forall2 fileVariant sf sf' → fileVariant t t' →
    option_map toLowerCase (cT sf t) = option_map toLowerCase (cT sf' t').
Hypothesis cG_variant :
  ∀ sf sf' an an' g,
    Forall2 fileVariant sf sf' → Forall2 analysisVariant an an' →
    option_map toLowerCase (cG sf an g) = option_map toLowerCase (cG sf' an' g).

Local Abbreviation covered := (coveredBy stepT stepG).

Lemma covered_found sf tf tests an p :
  p ∈ covered sf tf tests an → ∃ f, FoundBy sf f ∧ relative_path f = p.
Proof.
  rewrite (elem_of_coveredBy _ _ _ _ stepT_addOpt stepG_addOpt).
  intros [[t [_ H]] | [g [_ H]]]; eauto.
Qed.

Lemma covered_lower_inj sf tf tests an p q :
  namesFollowPaths sf →
  p ∈ covered sf tf tests an → q ∈ covered sf tf tests an →
  toLowerCase p = toLowerCase q → p = q.
Proof.
  intros Hn Hp Hq Hpq.
  apply covered_found in Hp as [f [Hf <-]].
  apply covered_found in Hq as [g [Hg <-]].
  rewrite (foundBy_inj sf f g Hn Hf Hg Hpq). reflexivity.
Qed.

Lemma lower_image_sub sf sf' tf tf' tests an an' p :
  Forall2 fileVariant sf sf' → Forall2 fileVariant tf tf' →
  Forall2 analysisVariant an an' →
  p ∈ covered sf tf tests an →
  ∃ p', p' ∈ covered sf' tf' tests an' ∧ toLowerCase p' = toLowerCase p.
Proof.
  intros Hsf Htf Han.
  rewrite (elem_of_coveredBy _ _ _ _ stepT_addOpt stepG_addOpt).
  intros [[t [Ht Hc]] | [g [Hg Hc]]].
  - destruct (Forall2_In_l _ _ _ _ Htf Ht) as [t' [Ht' Htt']].
    pose proof (cT_variant sf sf' t t' Hsf Htt') as Hv. rewrite Hc in Hv.
    destruct (cT sf' t') as [p'|] eqn:E; [|discriminate].
    injection Hv as Hv. exists p'. split; [|congruence].
    apply (elem_of_coveredBy _ _ _ _ stepT_addOpt stepG_addOpt).
    left. eauto.
  - pose proof (cG_variant sf sf' an an' g Hsf Han) as Hv. rewrite Hc in Hv.
    destruct (cG sf' an' g) as [p'|] eqn:E; [|discriminate].
    injection Hv as Hv. exists p'. split; [|congruence].
    apply (elem_of_coveredBy _ _ _ _ stepT_addOpt stepG_addOpt).
    right. eauto.
Qed.

Lemma lower_image_eq sf sf' tf tf' tests an an' :
  Forall2 fileVariant sf sf' → Forall2 fileVariant tf tf' →
  Forall2 analysisVariant an an' →
  set_map (D:=gset string) toLowerCase (covered sf tf tests an)
  = set_map (D:=gset string) toLowerCase (covered sf' tf' tests an').
Proof.
  intros Hsf Htf Han. apply set_eq. intros q. rewrite !elem_of_map. split.
  - intros [p [-> Hp]].
    destruct (lower_image_sub _ _ _ _ tests _ _ p Hsf Htf Han Hp)
      as [p' [Hp' Heq]]; eauto.
  - intros [p [-> Hp]].
    apply (Forall2_sym _ _ _ fileVariant_sym) in Hsf, Htf.
    apply (Forall2_sym _ _ _ analysisVariant_sym) in Han.
    destruct (lower_image_sub _ _ _ _ tests _ _ p Hsf Htf Han Hp)
      as [p' [Hp' Heq]]; eauto.
Qed.

Lemma covered_size_variant sf sf' tf tf' tests an an' :
  Forall2 fileVariant sf sf' → Forall2 fileVariant tf tf' →
  Forall2 analysisVariant an an' → namesFollowPaths sf →
  size (covered sf tf tests an) = size (covered sf' tf' tests an').
Proof.
  intros Hsf Htf Han Hn.
  rewrite <- (size_set_map_inj_on toLowerCase (covered sf tf tests an)).
  - rewrite (lower_image_eq _ _ _ _ tests _ _ Hsf Htf Han).
    apply size_set_map_inj_on. intros p q.
    apply covered_lower_inj. exact (namesFollowPaths_variant _ _ Hsf Hn).
  - intros p q. apply covered_lower_inj. exact Hn.
Qed.

End CaseInvariance.

(** Every [find] callback of the two pages reads lower-cased fields only. *)

Lemma details_matchesSource_lower tn tp pn :
  lowerRespecting (Details.matchesSource tn tp pn).
Proof.
  intros f g [Hn Hp]. unfold Details.matchesSource. rewrite Hn, Hp. reflexivity.
Qed.

Lemma details_matchesAnalysis_lower ap :
  lowerRespecting (Details.matchesAnalysis ap).
Proof.
  intros f g [Hn Hp]. unfold Details.matchesAnalysis. rewrite Hn, Hp.
  reflexivity.
Qed.

Lemma details_matchesSavedTest_lower tp pn :
  lowerRespecting (Details.matchesSavedTest tp pn).
Proof.
  intros f g [Hn Hp]. unfold Details.matchesSavedTest. rewrite Hn, Hp.
  reflexivity.
Qed.

Lemma list_matchesSource_lower tn tp pn :
  lowerRespecting (Repositories.matchesSource tn tp pn).
Proof.
  intros f g [Hn Hp]. unfold Repositories.matchesSource. rewrite Hn, Hp.
  reflexivity.
Qed.

Lemma list_matchesAnalysis_lower ap :
  lowerRespecting (Repositories.matchesAnalysis ap).
Proof.
  intros f g [Hn Hp]. unfold Repositories.matchesAnalysis. rewrite Hn, Hp.
  reflexivity.
Qed.

Lemma truthy_variant p p' :
  toLowerCase p = toLowerCase p' → truthy p = truthy p'.
Proof.
  intros H. rewrite <- (truthy_toLowerCase p), H. apply truthy_toLowerCase.
Qed.

Lemma optional_path_variant o o' :
  option_map toLowerCase o = option_map toLowerCase o' →
  truthyOpt o = truthyOpt o'
  ∧ toLowerCase (orEmpty o) = toLowerCase (orEmpty o').
Proof.
  destruct o as [s|], o' as [s'|]; simpl; try discriminate.
  - intros [= H]. split; [apply truthy_variant, H | exact H].
  - split; reflexivity.
Qed.

Lemma analysis_find_variant an an' g :
  Forall2 analysisVariant an an' →
  option_Forall2 analysisVariant
    (List.find (fun a => sameId a g) an) (List.find (fun a => sameId a g) an').
Proof.
  intros H. apply find_variant; [exact H|].
  intros a a' [Hid _]. unfold sameId. rewrite Hid. reflexivity.
Qed.

Lemma details_matchGenerated_variant sf sf' an an' g :
  Forall2 fileVariant sf sf' → Forall2 analysisVariant an an' →
  option_Forall2 fileVariant
    (Details.matchGenerated sf an g) (Details.matchGenerated sf' an' g).
Proof.
  intros Hsf Han.
  assert (option_Forall2 fileVariant (Details.matchViaAnalysis sf an g)
            (Details.matchViaAnalysis sf' an' g)) as Hvia.
  { unfold Details.matchViaAnalysis.
    destruct (truthyNum (analysis_id g)); [|constructor].
    destruct (analysis_find_variant an an' g Han) as [a a' [_ Ha]|];
      [|constructor].
    apply optional_path_variant in Ha as [-> ->].
    destruct (truthyOpt (Analysis.file_path a')); [|constructor].
    apply find_variant; [exact Hsf|].
    intros x x'. apply details_matchesAnalysis_lower. }
  unfold Details.matchGenerated.
  destruct Hvia as [f f' Hf|]; [constructor; exact Hf|].
  destruct (truthyOpt (test_file_path g)); [|constructor].
  apply find_variant; [exact Hsf|].
  intros x x'. apply details_matchesSavedTest_lower.
Qed.

Lemma list_matchGenerated_variant sf sf' an an' g :
  Forall2 fileVariant sf sf' → Forall2 analysisVariant an an' →
  option_Forall2 fileVariant
    (Repositories.matchGenerated sf an g)
    (Repositories.matchGenerated sf' an' g).
Proof.
  intros Hsf Han. unfold Repositories.matchGenerated.
  destruct (analysis_find_variant an an' g Han) as [a a' [_ Ha]|];
    [|constructor].
  apply optional_path_variant in Ha as [-> ->].
  destruct (truthyOpt (Analysis.file_path a')); [|constructor].
  apply find_variant; [exact Hsf|].
  intros x x'. apply list_matchesAnalysis_lower.
Qed.

Lemma path_of_variant (o o' : option File) :
  option_Forall2 fileVariant o o' →
  option_map toLowerCase (option_map relative_path o)
  = option_map toLowerCase (option_map relative_path o').
Proof. intros [f f' [_ Hp]|]; simpl; congruence. Qed.

Lemma details_test_variant sf sf' t t' :
  Forall2 fileVariant sf sf' → fileVariant t t' →
  option_map toLowerCase (detailsTestContribution sf t)
  = option_map toLowerCase (detailsTestContribution sf' t').
Proof.
  intros Hsf [Hn Hp]. unfold detailsTestContribution,
    Details.matchTestFileToSource. rewrite Hn, Hp.
  destruct (find_variant fileVariant _ _ sf sf' Hsf
              (details_matchesSource_lower (toLowerCase (name t'))
                 (toLowerCase (relative_path t'))
                 (Details.potentialSourceName (toLowerCase (name t')))))
    as [f f' [_ Hf]|]; [|reflexivity].
  rewrite (truthy_variant _ _ Hf).
  destruct (truthy (relative_path f')); simpl; congruence.
Qed.

Lemma list_test_variant sf sf' t t' :
  Forall2 fileVariant sf sf' → fileVariant t t' →
  option_map toLowerCase (listTestContribution sf t)
  = option_map toLowerCase (listTestContribution sf' t').
Proof.
  intros Hsf [Hn Hp]. unfold listTestContribution, Repositories.matchingSource.
  rewrite Hn, Hp. apply path_of_variant.
  apply find_variant; [exact Hsf|]. apply list_matchesSource_lower.
Qed.

Lemma details_generated_variant sf sf' an an' g :
  Forall2 fileVariant sf sf' → Forall2 analysisVariant an an' →
  option_map toLowerCase (detailsGeneratedContribution sf an g)
  = option_map toLowerCase (detailsGeneratedContribution sf' an' g).
Proof.
  intros Hsf Han. apply path_of_variant, details_matchGenerated_variant;
    assumption.
Qed.

Lemma list_generated_variant sf sf' an an' g :
  Forall2 fileVariant sf sf' → Forall2 analysisVariant an an' →
  option_map toLowerCase (listGeneratedContribution sf an g)
  = option_map toLowerCase (listGeneratedContribution sf' an' g).
Proof.
  intros Hsf Han. apply path_of_variant, list_matchGenerated_variant;
    assumption.
Qed.

Lemma details_test_found sf t p :
  detailsTestContribution sf t = Some p →
  ∃ f, FoundBy sf f ∧ relative_path f = p.
Proof.
  unfold detailsTestContribution, Details.matchTestFileToSource.
  destruct (List.find _ sf) as [f|] eqn:E; [|discriminate].
  destruct (truthy _); [|discriminate]. intros [= <-].
  exists f. split; [|reflexivity].
  eexists. split; [apply details_matchesSource_lower | exact E].
Qed.

Lemma list_test_found sf t p :
  listTestContribution sf t = Some p →
  ∃ f, FoundBy sf f ∧ relative_path f = p.
Proof.
  unfold listTestContribution, Repositories.matchingSource.
  destruct (List.find _ sf) as [f|] eqn:E; [|discriminate]. intros [= <-].
  exists f. split; [|reflexivity].
  eexists. split; [apply list_matchesSource_lower | exact E].
Qed.

Lemma details_generated_found sf an g p :
  detailsGeneratedContribution sf an g = Some p →
  ∃ f, FoundBy sf f ∧ relative_path f = p.
Proof.
  unfold detailsGeneratedContribution.
  destruct (Details.matchGenerated sf an g) as [f|] eqn:E; [|discriminate].
  intros [= <-]. exists f. split; [|reflexivity].
  unfold Details.matchGenerated in E.
  destruct (Details.matchViaAnalysis sf an g) as [f'|] eqn:Evia.
  - injection E as ->. unfold Details.matchViaAnalysis in Evia.
    destruct (truthyNum _); [|discriminate].
    destruct (List.find _ an) as [a|]; [|discriminate].
    destruct (truthyOpt _); [|discriminate].
    eexists. split; [apply details_matchesAnalysis_lower | exact Evia].
  - destruct (truthyOpt _); [|discriminate].
    eexists. split; [apply details_matchesSavedTest_lower | exact E].
Qed.

Lemma list_generated_found sf an g p :
  listGeneratedContribution sf an g = Some p →
  ∃ f, FoundBy sf f ∧ relative_path f = p.
Proof.
  unfold listGeneratedContribution.
  destruct (Repositories.matchGenerated sf an g) as [f|] eqn:E; [|discriminate].
  intros [= <-]. exists f. split; [|reflexivity].
  unfold Repositories.matchGenerated in E.
  destruct (List.find _ an) as [a|]; [|discriminate].
  destruct (truthyOpt _); [|discriminate].
  eexists. split; [apply list_matchesAnalysis_lower | exact E].
Qed.

(** C10, as amended. Take an input whose names and paths are ASCII and whose
    source files are such that paths equal up to letter case come with names
    equal up to letter case.  Changing the letter case of names and relative
    paths of source and test files, and of the [file_path] of analyses,
    changes neither the number of covered paths nor the percentage, on either
    page. *)
Theorem case_change_keeps_coverage
    (sourceFiles sourceFiles' testFiles testFiles' : list File)
    (tests : list GeneratedTest) (analyses analyses' : list Analysis.t) :
  asciiInput sourceFiles testFiles tests analyses →
  asciiInput sourceFiles' testFiles' tests analyses' →
  Forall2 fileVariant sourceFiles sourceFiles' →
  Forall2 fileVariant testFiles testFiles' →
  Forall2 analysisVariant analyses analyses' →
  namesFollowPaths sourceFiles →
  (size (Details.sourceFilesWithTests sourceFiles testFiles tests analyses)
   = size (Details.sourceFilesWithTests sourceFiles' testFiles' tests analyses')
   ∧ Details.totalCoverage sourceFiles testFiles tests analyses
     = Details.totalCoverage sourceFiles' testFiles' tests analyses')
  ∧ (size (Repositories.sourceFilesWithTests sourceFiles testFiles tests
             analyses)
     = size (Repositories.sourceFilesWithTests sourceFiles' testFiles' tests
               analyses')
     ∧ Repositories.totalCoverage sourceFiles testFiles tests analyses
       = Repositories.totalCoverage sourceFiles' testFiles' tests analyses').
Proof.
  intros _ _ Hsf Htf Han Hn.
  pose proof (Forall2_length _ _ _ Hsf) as Hlen.
  assert (size (Details.sourceFilesWithTests sourceFiles testFiles tests analyses)
          = size (Details.sourceFilesWithTests sourceFiles' testFiles' tests
                    analyses')) as HD.
  { rewrite !details_coveredBy.
    apply (covered_size_variant _ _ _ _ details_addTestFile details_addGenerated
             details_test_found details_generated_found details_test_variant
             details_generated_variant); assumption. }
  assert (size (Repositories.sourceFilesWithTests sourceFiles testFiles tests
                  analyses)
          = size (Repositories.sourceFilesWithTests sourceFiles' testFiles' tests
                    analyses')) as HL.
  { rewrite !list_coveredBy.
    apply (covered_size_variant _ _ _ _ list_addTestFile list_addGenerated
             list_test_found list_generated_found list_test_variant
             list_generated_variant); assumption. }
  split; (split; [assumption|]); apply percentage_variant; assumption.
Qed.

Lemma case_change_keeps_coverage_witness :
  size (Details.sourceFilesWithTests [A_PY; b_py] [Test_A_py] [test9]
          [analysis9 "SRC/B.py"])
  = size (Details.sourceFilesWithTests [a_py; b_py] [test_a_py] [test9]
            [analysis9 "src/b.py"]).
Proof.
  apply (case_change_keeps_coverage [A_PY; b_py] [a_py; b_py] [Test_A_py]
           [test_a_py] [test9] [analysis9 "SRC/B.py"] [analysis9 "src/b.py"]).
  - repeat split; repeat constructor.
  - repeat split; repeat constructor.
  - repeat constructor.
  - repeat constructor.
  - repeat constructor.
  - intros f g [<- | [<- | []]] [<- | [<- | []]] H;
      first [reflexivity | discriminate H].
Defined.

(** C10, as stated, fails: two source files whose paths differ only in letter
    case are two covered paths; once the case of one path is changed they are
    one. *)
Lemma case_change_alters_coverage :
  Forall2 fileVariant [a_at_X; b_at_x] [a_at_x; b_at_x]
  ∧ size (Details.sourceFilesWithTests [a_at_X; b_at_x]
            [test_a_py; test_b_py] [] []) = 2%nat
  ∧ size (Details.sourceFilesWithTests [a_at_x; b_at_x]
            [test_a_py; test_b_py] [] []) = 1%nat
  ∧ Qeq (Details.totalCoverage [a_at_X; b_at_x] [test_a_py; test_b_py] [] [])
      100
  ∧ Qeq (Details.totalCoverage [a_at_x; b_at_x] [test_a_py; test_b_py] [] [])
      50
  ∧ size (Repositories.sourceFilesWithTests [a_at_X; b_at_x]
            [test_a_py; test_b_py] [] []) = 2%nat
  ∧ size (Repositories.sourceFilesWithTests [a_at_x; b_at_x]
            [test_a_py; test_b_py] [] []) = 1%nat
  ∧ Qeq (Repositories.totalCoverage [a_at_X; b_at_x] [test_a_py; test_b_py]
           [] []) 100
  ∧ Qeq (Repositories.totalCoverage [a_at_x; b_at_x] [test_a_py; test_b_py]
           [] []) 50.
Proof.
  split; [repeat constructor|].
  repeat split; vm_compute; reflexivity.
Qed.

(** * Further properties of the two pages *)

(** ** The partition into source files and test files *)

Lemma allCodeFiles_In files f :
  In f (allCodeFiles files) ↔
  In f files
  ∧ In (orEmpty (option_map toLowerCase (extension f))) codeExtensions.
Proof.
  unfold allCodeFiles. rewrite filter_In, existsb_exists. split.
  - intros [Hf [e [He Heq]]]. apply String.eqb_eq in Heq. subst e. auto.
  - intros [Hf He]. split; [exact Hf|]. eexists. split; [exact He|].
    apply String.eqb_refl.
Qed.

(** X1. On both pages every code file (a file whose lower-cased extension is
    on the allow-list) goes to exactly one of [sourceFiles] and [testFiles]:
    to [testFiles] when [isTestFile] accepts it, to [sourceFiles] otherwise;
    a file without extension goes to neither. *)
Theorem code_files_are_partitioned (files : list File) (f : File) :
  (In f (Details.sourceFiles files) ↔
     In f files
     ∧ In (orEmpty (option_map toLowerCase (extension f))) codeExtensions
     ∧ Details.isTestFile (relative_path f) (name f) = false)
  ∧ (In f (Details.testFiles files) ↔
       In f files
       ∧ In (orEmpty (option_map toLowerCase (extension f))) codeExtensions
       ∧ Details.isTestFile (relative_path f) (name f) = true)
  ∧ (length (Details.sourceFiles files) + length (Details.testFiles files)
     = length (allCodeFiles files))%nat
  ∧ Repositories.sourceFiles files = Details.sourceFiles files
  ∧ Repositories.testFiles files = Details.testFiles files
  ∧ (extension f = None → ¬ In f (Details.sourceFiles files)
                          ∧ ¬ In f (Details.testFiles files)).
Proof.
  unfold Details.sourceFiles, Details.testFiles.
  split; [|split; [|split; [|split; [|split]]]].
  - rewrite filter_In, allCodeFiles_In, negb_true_iff. tauto.
  - rewrite filter_In, allCodeFiles_In. tauto.
  - rewrite Nat.add_comm. apply filter_length.
  - reflexivity.
  - reflexivity.
  - intros Hext. rewrite !filter_In, allCodeFiles_In, Hext. simpl.
    split; intros [[_ H] _]; simpl in H; intuition discriminate.
Qed.

Lemma code_files_are_partitioned_witness :
  ¬ In (mkFile "Makefile" "Makefile" None)
      (Details.sourceFiles [calc_py; mkFile "Makefile" "Makefile" None])
  ∧ ¬ In (mkFile "Makefile" "Makefile" None)
        (Details.testFiles [calc_py; mkFile "Makefile" "Makefile" None]).
Proof.
  apply (code_files_are_partitioned
           [calc_py; mkFile "Makefile" "Makefile" None]
           (mkFile "Makefile" "Makefile" None)).
  reflexivity.
Defined.

(** ** The order of the test artefacts does not matter *)

Lemma coveredBy_same_elements
    (stepT : list File → gset string → File → gset string)
    (stepG : list File → list Analysis.t → gset string → GeneratedTest
             → gset string)
    (cT : list File → File → option string)
    (cG : list File → list Analysis.t → GeneratedTest → option string)
    sf tf tf' tests tests' an :
  (∀ sf acc x, stepT sf acc x = addOpt (cT sf x) acc) →
  (∀ sf an acc x, stepG sf an acc x = addOpt (cG sf an x) acc) →
  (∀ t, In t tf ↔ In t tf') → (∀ g, In g tests ↔ In g tests') →
  coveredBy stepT stepG sf tf tests an = coveredBy stepT stepG sf tf' tests' an.
Proof.
  intros HT HG Htf Htests. apply set_eq. intros p.
  rewrite !(elem_of_coveredBy _ _ _ _ HT HG).
  split; (intros [[t [Ht Hc]] | [g [Hg Hc]]];
          [left; exists t | right; exists g]; split; try exact Hc);
    first [apply Htf, Ht | apply Htests, Hg].
Qed.

(** X2. The covered set, hence the percentage, depends on the test files and
    on the generated tests only as sets: reordering either list, or
    repeating an entry, changes nothing on either page.  (The order of the
    source files does matter: [find] returns the first match.) *)
Theorem covered_set_ignores_test_order
    (sourceFiles testFiles testFiles' : list File)
    (tests tests' : list GeneratedTest) (analyses : list Analysis.t) :
  (∀ t, In t testFiles ↔ In t testFiles') →
  (∀ g, In g tests ↔ In g tests') →
  Details.sourceFilesWithTests sourceFiles testFiles tests analyses
  = Details.sourceFilesWithTests sourceFiles testFiles' tests' analyses
  ∧ Details.totalCoverage sourceFiles testFiles tests analyses
    = Details.totalCoverage sourceFiles testFiles' tests' analyses
  ∧ Repositories.sourceFilesWithTests sourceFiles testFiles tests analyses
    = Repositories.sourceFilesWithTests sourceFiles testFiles' tests' analyses
  ∧ Repositories.totalCoverage sourceFiles testFiles tests analyses
    = Repositories.totalCoverage sourceFiles testFiles' tests' analyses.
Proof.
  intros Htf Htests.
  assert (Details.sourceFilesWithTests sourceFiles testFiles tests analyses
          = Details.sourceFilesWithTests sourceFiles testFiles' tests' analyses)
    as HD.
  { rewrite !details_coveredBy.
    apply (coveredBy_same_elements _ _ _ _ _ _ _ _ _ _ details_addTestFile
             details_addGenerated Htf Htests). }
  assert (Repositories.sourceFilesWithTests sourceFiles testFiles tests analyses
          = Repositories.sourceFilesWithTests sourceFiles testFiles' tests'
              analyses) as HL.
  { rewrite !list_coveredBy.
    apply (coveredBy_same_elements _ _ _ _ _ _ _ _ _ _ list_addTestFile
             list_addGenerated Htf Htests). }
  unfold Details.totalCoverage, Repositories.totalCoverage.
  rewrite HD, HL. repeat split; reflexivity.
Qed.

Lemma covered_set_ignores_test_order_witness :
  Details.sourceFilesWithTests [calc_py; util_py] [test_calc_py; calc_test_js]
    [] []
  = Details.sourceFilesWithTests [calc_py; util_py]
      [calc_test_js; test_calc_py; calc_test_js] [] [].
Proof.
  apply (covered_set_ignores_test_order [calc_py; util_py]
           [test_calc_py; calc_test_js]
           [calc_test_js; test_calc_py; calc_test_js] [] [] []).
  - intros t. simpl. tauto.
  - intros g. simpl. tauto.
Defined.

(** ** The number kept for the list page *)

(** The tenth kept is not always the one nearest to the exact percentage:
    23 covered files of 80 are 28.75 percent, the number computed is just
    below it, and 28.7 is kept. *)
Example rounded_coverage_23_of_80 :
  (Number.mul (Number.div 23 80) 100 < 23 / 80 * 100)%Q
  ∧ Qeq (Repositories.roundedCoverage (Number.mul (Number.div 23 80) 100))
      (Number.fl (287 # 10)).
Proof.
  split; [|vm_compute; reflexivity].
  apply Qnot_le_lt. intros H. apply Qle_bool_iff in H. vm_compute in H.
  discriminate H.
Qed.

(** X3. The coverage the list page keeps for a repository,
    [Math.round(totalCoverage * 10) / 10], is the double nearest to a whole
    number of tenths, lies between 0 and 100 and differs from the exact
    percentage by at most 0.05, up to the rounding of the four operations
    (less than 2 * 10^-13). *)
Theorem list_page_rounded_coverage
    (sourceFiles testFiles : list File) (tests : list GeneratedTest)
    (analyses : list Analysis.t) :
  let c := Repositories.totalCoverage sourceFiles testFiles tests analyses in
  let r :=
    Repositories.roundedCoverage
      (Repositories.totalCoverageNumber sourceFiles testFiles tests analyses) in
  (∃ n : Z, (0 <= n <= 1000)%Z ∧ r = Number.div (inject_Z n) 10)
  ∧ (0 <= r)%Q ∧ (r <= 100)%Q
  ∧ (c - (1 # 20) - (2 # 10000000000000) <= r)%Q
  ∧ (r <= c + (1 # 20) + (2 # 10000000000000))%Q.
Proof.
  intros c r.
  destruct (percentageNumber_spec _ _
              (list_size sourceFiles testFiles tests analyses))
    as (H0 & H100 & Hlo & Hhi).
  fold (Repositories.totalCoverage sourceFiles testFiles tests analyses)
    in Hlo, Hhi.
  fold (Repositories.totalCoverageNumber sourceFiles testFiles tests analyses)
    in H0, H100, Hlo, Hhi.
  fold c in Hlo, Hhi.
  destruct (roundedCoverage_spec _ H0 H100) as (Hn & Hr0 & Hr100 & Hrlo & Hrhi).
  fold r in Hn, Hr0, Hr100, Hrlo, Hrhi.
  split; [exact Hn|]. repeat split; lra.
Qed.

(** ** Directory and last segment of a path *)

Lemma append_empty_l s : EmptyString +:+ s = s.
Proof. reflexivity. Qed.

Lemma append_String b a s : String b a +:+ s = String b (a +:+ s).
Proof. reflexivity. Qed.

Lemma includes_slash_cons b s :
  includes (String b s) "/" = Ascii.eqb "/" b || includes s "/".
Proof.
  cbn [includes]. unfold startsWith. cbn [stripPrefix].
  destruct (Ascii.eqb "/" b); reflexivity.
Qed.

Lemma lastIndexOf_absent s :
  includes s "/" = false → lastIndexOf "/" s = (-1)%Z.
Proof.
  induction s as [|b s IH]; [reflexivity|].
  rewrite includes_slash_cons. intros H. apply orb_false_iff in H as [Hb Hs].
  cbn [lastIndexOf]. rewrite (IH Hs), Ascii.eqb_sym, Hb. reflexivity.
Qed.

Lemma lastIndexOf_last_slash d n :
  includes n "/" = false →
  lastIndexOf "/" (d +:+ String "/" n) = Z.of_nat (String.length d).
Proof.
  intros Hn. induction d as [|b d IH].
  - rewrite append_empty_l. cbn [lastIndexOf].
    rewrite (lastIndexOf_absent n Hn), Ascii.eqb_refl. reflexivity.
  - rewrite append_String. cbn [lastIndexOf String.length]. rewrite IH.
    destruct (0 <=? Z.of_nat (String.length d))%Z eqn:E; [lia|].
    apply Z.leb_gt in E. lia.
Qed.

Lemma take_append d rest : take (String.length d) (d +:+ rest) = d.
Proof.
  induction d as [|b d IH].
  - destruct rest; reflexivity.
  - rewrite append_String. cbn [String.length take]. rewrite IH. reflexivity.
Qed.

Lemma length_append' a b :
  String.length (a +:+ b) = (String.length a + String.length b)%nat.
Proof.
  induction a as [|c a IH]; [reflexivity|].
  rewrite append_String. cbn [String.length]. rewrite IH. reflexivity.
Qed.

Lemma substring_prefix d rest :
  substring (d +:+ rest) 0 (Z.of_nat (String.length d)) = d.
Proof.
  unfold substring. rewrite length_append'.
  replace (Z.min (Z.max 0 0) _) with 0%Z by lia.
  replace (Z.min (Z.max (Z.of_nat (String.length d)) 0) _)
    with (Z.of_nat (String.length d)) by lia.
  replace (Z.min 0 (Z.of_nat (String.length d))) with 0%Z by lia.
  replace (Z.max 0 (Z.of_nat (String.length d)))
    with (Z.of_nat (String.length d)) by lia.
  rewrite Z.sub_0_r, Nat2Z.id. simpl. apply take_append.
Qed.

Lemma substring_negative s : substring s 0 (-1) = EmptyString.
Proof.
  unfold substring.
  replace (Z.min (Z.max 0 0) _) with 0%Z by lia.
  replace (Z.min (Z.max (-1) 0) _) with 0%Z by lia.
  reflexivity.
Qed.

Lemma split_nonempty c s : split c s ≠ [].
Proof.
  destruct s as [|b s]; cbn [split]; [discriminate|].
  destruct (Ascii.eqb b c); [discriminate|].
  destruct (split c s); discriminate.
Qed.

Lemma split_no_slash n : includes n "/" = false → split "/" n = [n].
Proof.
  induction n as [|b n IH]; [reflexivity|].
  rewrite includes_slash_cons. intros H. apply orb_false_iff in H as [Hb Hn].
  cbn [split]. rewrite Ascii.eqb_sym, Hb, (IH Hn). reflexivity.
Qed.

Lemma split_two_segments d n :
  ∃ seg1 seg2 segs, split "/" (d +:+ String "/" n) = seg1 :: seg2 :: segs.
Proof.
  induction d as [|b d (s1 & s2 & segs & IH)].
  - rewrite append_empty_l. cbn [split]. rewrite Ascii.eqb_refl.
    destruct (split "/" n) as [|s l] eqn:E; [|eauto].
    destruct (split_nonempty _ _ E).
  - rewrite append_String. cbn [split]. rewrite IH.
    destruct (Ascii.eqb b "/"); eauto.
Qed.

Lemma pop_split_last_slash d n :
  pop (split "/" (d +:+ String "/" n)) = pop (split "/" n).
Proof.
  unfold pop. induction d as [|b d IH].
  - rewrite append_empty_l. cbn [split]. rewrite Ascii.eqb_refl.
    destruct (split "/" n) as [|s l] eqn:E;
      [destruct (split_nonempty _ _ E) | apply last_cons_cons].
  - rewrite append_String. cbn [split].
    destruct (split_two_segments d n) as (s1 & s2 & segs & E).
    rewrite E in IH |- *.
    destruct (Ascii.eqb b "/"); rewrite <- IH, !last_cons_cons; reflexivity.
Qed.

(** X4. For a path [d/n] whose last segment [n] has no slash, the directory
    the pages compute ([substring(0, lastIndexOf('/'))]) is [d] and
    [split('/').pop()] is [n]; for a path without any slash the directory is
    the empty string and the last segment is the whole path. *)
Theorem directory_and_last_segment (d n : string) :
  includes n "/" = false →
  Details.dirOf (d +:+ "/" +:+ n) = d
  ∧ Repositories.dirOf (d +:+ "/" +:+ n) = d
  ∧ pop (split "/" (d +:+ "/" +:+ n)) = Some n
  ∧ Details.dirOf n = EmptyString
  ∧ pop (split "/" n) = Some n.
Proof.
  intros Hn.
  assert (Details.dirOf (d +:+ "/" +:+ n) = d) as Hd.
  { unfold Details.dirOf. change ("/" +:+ n) with (String "/" n).
    rewrite (lastIndexOf_last_slash d n Hn). apply substring_prefix. }
  assert (pop (split "/" n) = Some n) as Hp
    by (rewrite (split_no_slash n Hn); reflexivity).
  repeat split; try assumption.
  - change ("/" +:+ n) with (String "/" n).
    rewrite pop_split_last_slash. exact Hp.
  - unfold Details.dirOf. rewrite (lastIndexOf_absent n Hn).
    apply substring_negative.
Qed.

Lemma directory_and_last_segment_witness :
  Details.dirOf ("src/app" +:+ "/" +:+ "calc.py") = "src/app".
Proof.
  apply (directory_and_last_segment "src/app" "calc.py"). reflexivity.
Defined.

(** ** The language line *)

Lemma toLowerCase_app a b :
  toLowerCase (a +:+ b) = toLowerCase a +:+ toLowerCase b.
Proof.
  induction a as [|c a IH]; [reflexivity|].
  rewrite append_String. cbn [toLowerCase]. rewrite IH. reflexivity.
Qed.

Lemma includes_char_cons c b s :
  includes (String b s) (String c EmptyString)
  = Ascii.eqb c b || includes s (String c EmptyString).
Proof.
  cbn [includes]. unfold startsWith. cbn [stripPrefix].
  destruct (Ascii.eqb c b); reflexivity.
Qed.

(** A pattern that lacks the character [cb] cannot start inside [a] and end
    beyond it when [cb] follows [a]. *)
Lemma startsWith_before_char p a cb b :
  includes p (String cb EmptyString) = false →
  startsWith (a +:+ String cb b) p = startsWith a p.
Proof.
  unfold startsWith. revert a. induction p as [|x p IH]; intros a Hp.
  - reflexivity.
  - rewrite includes_char_cons in Hp. apply orb_false_iff in Hp as [Hx Hp].
    destruct a as [|c a].
    + rewrite append_empty_l. cbn [stripPrefix].
      rewrite Ascii.eqb_sym, Hx. reflexivity.
    + rewrite append_String. cbn [stripPrefix].
      destruct (Ascii.eqb x c); [apply IH, Hp | reflexivity].
Qed.

Lemma includes_before_char p a cb b :
  includes p (String cb EmptyString) = false →
  includes (a +:+ String cb b) p = includes a p || includes (String cb b) p.
Proof.
  intros Hp. induction a as [|c a IH].
  - rewrite append_empty_l. destruct p; reflexivity.
  - rewrite append_String. cbn [includes]. rewrite IH.
    rewrite <- append_String, (startsWith_before_char p _ cb b Hp).
    rewrite orb_assoc. reflexivity.
Qed.

Lemma includes_json_join (l : list string) :
  includes (toLowerCase (join ", " l)) "json"
  = existsb (fun lang => includes (toLowerCase lang) "json") l.
Proof.
  induction l as [|x [|y l] IH].
  - reflexivity.
  - cbn [existsb join String.concat]. rewrite orb_false_r. reflexivity.
  - change (join ", " (x :: y :: l)) with (x +:+ ", " +:+ join ", " (y :: l)).
    rewrite !toLowerCase_app.
    change (toLowerCase ", " +:+ toLowerCase (join ", " (y :: l)))
      with (String "," (String " " (toLowerCase (join ", " (y :: l))))).
    rewrite includes_before_char by reflexivity.
    change (includes (String "," (String " " ?s)) "json")
      with (includes s "json").
    change (includes (String "," (String " " (toLowerCase (join ", " (y :: l)))))
              "json")
      with (includes (toLowerCase (join ", " (y :: l))) "json").
    rewrite IH. reflexivity.
Qed.

Lemma splitFrom_nonempty sep skip s : splitFrom sep skip s ≠ [].
Proof.
  revert skip. induction s as [|c s IH]; intros skip; [discriminate|].
  cbn [splitFrom]. destruct skip as [|k]; [|apply IH].
  destruct (startsWith _ sep); [discriminate|].
  destruct (splitFrom sep 0 s); discriminate.
Qed.

Lemma join_cons_empty sep l :
  l ≠ [] → join sep (EmptyString :: l) = sep +:+ join sep l.
Proof. destruct l; [congruence | reflexivity]. Qed.

Lemma join_cons_head sep c seg segs :
  join sep (String c seg :: segs) = String c (join sep (seg :: segs)).
Proof. destruct segs; reflexivity. Qed.

Lemma drop_append p rest : drop (String.length p) (p +:+ rest) = rest.
Proof.
  induction p as [|c p IH]; [destruct rest; reflexivity|].
  rewrite append_String. exact IH.
Qed.

(** Joining what [split] gave restores the string; [skip] characters of a
    separator already emitted are dropped. *)
Lemma join_splitFrom sep skip s :
  sep ≠ EmptyString → join sep (splitFrom sep skip s) = drop skip s.
Proof.
  intros Hsep. revert skip. induction s as [|c s IH]; intros skip.
  - destruct skip; reflexivity.
  - cbn [splitFrom]. destruct skip as [|k]; [|apply IH].
    cbn [drop]. destruct (startsWith (String c s) sep) eqn:E.
    + rewrite join_cons_empty by apply splitFrom_nonempty. rewrite IH.
      apply startsWith_true in E as [rest E].
      destruct sep as [|c0 sep]; [congruence|].
      rewrite append_String in E. injection E as -> ->.
      cbn [String.length].
      replace (S (String.length sep) - 1)%nat with (String.length sep) by lia.
      rewrite drop_append.
      rewrite append_String. reflexivity.
    + pose proof (IH 0%nat) as IH0. cbn [drop] in IH0.
      destruct (splitFrom sep 0 s) as [|seg segs] eqn:Es.
      * destruct (splitFrom_nonempty _ _ _ Es).
      * rewrite join_cons_head, IH0. destruct s; reflexivity.
Qed.

Lemma filter_all_kept {A} (pred : A → bool) (l : list A) :
  existsb pred l = false → List.filter (fun x => negb (pred x)) l = l.
Proof.
  induction l as [|x l IH]; [reflexivity|]. simpl.
  intros H. apply orb_false_iff in H as [Hx Hl].
  rewrite Hx, (IH Hl). reflexivity.
Qed.

Lemma existsb_filter_negb {A} (pred : A → bool) (l : list A) :
  existsb pred (List.filter (fun x => negb (pred x)) l) = false.
Proof.
  induction l as [|x l IH]; [reflexivity|]. simpl.
  destruct (pred x) eqn:E; simpl; [exact IH | rewrite E, IH; reflexivity].
Qed.

(** X5. The language line never shows a language whose name contains "json"
    in any letter case, and it shows the stored string unchanged exactly when
    that string does not contain "json": splitting at ", " and joining again
    loses nothing. *)
Theorem language_line_hides_json (language : string) :
  includes (toLowerCase (displayLanguages language)) "json" = false
  ∧ join ", " (splitOn ", " language) = language
  ∧ (displayLanguages language = language
     ↔ includes (toLowerCase language) "json" = false).
Proof.
  assert (join ", " (splitOn ", " language) = language) as Hround.
  { unfold splitOn. rewrite join_splitFrom by discriminate.
    destruct language; reflexivity. }
  assert (includes (toLowerCase (displayLanguages language)) "json" = false)
    as Hhide.
  { unfold displayLanguages. rewrite includes_json_join.
    apply (existsb_filter_negb
             (fun lang => includes (toLowerCase lang) "json")). }
  split; [exact Hhide|]. split; [exact Hround|]. split.
  - intros H. rewrite <- H. exact Hhide.
  - intros H. unfold displayLanguages.
    rewrite (filter_all_kept (fun lang => includes (toLowerCase lang) "json")).
    + exact Hround.
    + rewrite <- includes_json_join, Hround. exact H.
Qed.

(** ** The language passed to test generation *)

Lemma orEmpty_lower (o : option string) :
  orEmpty (option_map toLowerCase o) = toLowerCase (orEmpty o).
Proof. destruct o; reflexivity. Qed.

(** X6. For a code file, [getFileLanguage(file.extension || '')] never falls
    through to its default: the answer is python only for the extension
    [.py] (in any letter case), and each other extension of the allow-list
    has its own language. *)
Theorem code_file_language (files : list File) (f : File) :
  In f (allCodeFiles files) →
  let e := orEmpty (extension f) in
  (DetailsView.getFileLanguage e = "python" ↔ toLowerCase e = ".py")
  ∧ (DetailsView.getFileLanguage e = "javascript"
     ↔ In (toLowerCase e) [".js"; ".jsx"])
  ∧ (DetailsView.getFileLanguage e = "typescript"
     ↔ In (toLowerCase e) [".ts"; ".tsx"])
  ∧ (DetailsView.getFileLanguage e = "c" ↔ In (toLowerCase e) [".c"; ".h"])
  ∧ In (DetailsView.getFileLanguage e)
      ["python"; "javascript"; "typescript"; "java"; "cpp"; "c"; "csharp";
       "go"; "rust"; "ruby"; "php"].
Proof.
  intros Hf e. apply allCodeFiles_In in Hf as [_ Hext].
  rewrite orEmpty_lower in Hext. fold e in Hext.
  unfold DetailsView.getFileLanguage. cbv zeta.
  unfold codeExtensions in Hext. simpl in Hext.
  repeat (destruct Hext as [Hext | Hext]; [rewrite <- Hext; clear Hext|]);
    [..|destruct Hext];
    (split; [|split; [|split; [|split]]]);
    try (split; intros H; simpl in *; first [reflexivity | discriminate H | intuition discriminate | tauto]);
    simpl; tauto.
Qed.

Lemma code_file_language_witness :
  DetailsView.getFileLanguage (orEmpty (extension calc_test_js)) = "javascript"
  ↔ In (toLowerCase (orEmpty (extension calc_test_js))) [".js"; ".jsx"].
Proof.
  apply (code_file_language [calc_py; calc_test_js] calc_test_js).
  simpl. right. left. reflexivity.
Defined.

(** ** The test-coverage tabs *)

Lemma positive_length_filter {A} (pred : A → bool) (l : list A) :
  (0 <? length (List.filter pred l))%nat = existsb pred l.
Proof.
  induction l as [|x l IH]; [reflexivity|]. simpl.
  destruct (pred x); [reflexivity | exact IH].
Qed.

Lemma zero_length_filter {A} (pred : A → bool) (l : list A) :
  (length (List.filter pred l) =? 0)%nat = negb (existsb pred l).
Proof.
  induction l as [|x l IH]; [reflexivity|]. simpl.
  destruct (pred x); [reflexivity | exact IH].
Qed.

Lemma lacksTests_negb_hasTests tf tests an f :
  DetailsView.lacksTests tf tests an f = negb (DetailsView.hasTests tf tests an f).
Proof.
  unfold DetailsView.lacksTests, DetailsView.hasTests.
  rewrite !positive_length_filter, !zero_length_filter, negb_orb. reflexivity.
Qed.

Lemma filter_ext_negb {A} (p q : A → bool) (l : list A) :
  (∀ x, q x = negb (p x)) →
  List.filter q l = List.filter (fun x => negb (p x)) l.
Proof. intros H. apply filter_ext. exact H. Qed.

Lemma filter_nil_iff {A} (pred : A → bool) (l : list A) :
  List.filter pred l = [] ↔ ∀ x, In x l → pred x = false.
Proof.
  induction l as [|x l IH]; simpl.
  - split; [intros _ y [] | reflexivity].
  - destruct (pred x) eqn:E.
    + split; [discriminate|]. intros H. rewrite (H x) in E; [discriminate|auto].
    + rewrite IH. split.
      * intros H y [<- | Hy]; [exact E | apply H, Hy].
      * intros H y Hy. apply H. right. exact Hy.
Qed.

Lemma ratio100_range (n total : nat) :
  (n ≤ total)%nat →
  (0 <= DetailsView.ratio100 n total)%Q ∧ (DetailsView.ratio100 n total <= 100)%Q.
Proof.
  intros Hle. unfold DetailsView.ratio100. destruct total as [|t]; simpl.
  - split; discriminate.
  - split.
    + pose proof (ratio_le 0 n t ltac:(lia)) as H.
      eapply Qle_trans; [|exact H]. discriminate.
    + eapply Qle_trans; [apply (ratio_le _ _ _ Hle)|].
      rewrite ratio_full. apply Qle_refl.
Qed.

Lemma ratio100_full (n total : nat) :
  (0 < total)%nat → (DetailsView.ratio100 n total == 100)%Q ↔ n = total.
Proof.
  intros Hpos. unfold DetailsView.ratio100.
  replace (0 <? total)%nat with true by (symmetry; apply Nat.ltb_lt; lia).
  split.
  - intros H.
    assert (~ inject_Z (Z.of_nat total) == 0)%Q as Hnz
      by (intros Hz; unfold Qeq in Hz; simpl in Hz; lia).
    pose proof (Qmult_div_r (inject_Z (Z.of_nat n)) _ Hnz) as Hab.
    set (q := (inject_Z (Z.of_nat n) / inject_Z (Z.of_nat total))%Q) in *.
    clearbody q.
    assert (q == 1)%Q as H1 by (clear Hab; lra).
    rewrite H1, Qmult_1_r in Hab. unfold Qeq in Hab. simpl in Hab. lia.
  - intros ->. destruct total as [|t]; [lia | apply ratio_full].
Qed.

(** X7. In the unit-test tab the files with unit tests and the files needing
    unit tests divide the source files between them: each source file is in
    exactly one of the two lists and the two lengths add up to the number of
    source files.  The same holds in the E2E tab. *)
Theorem tabs_divide_source_files
    (sourceFiles testFiles : list File) (tests : list TestRow)
    (analyses : list Analysis.t) (f : File) :
  (length (DetailsView.filesWithUnitTests sourceFiles testFiles tests analyses)
   + length (DetailsView.needsUnitTests sourceFiles testFiles tests analyses)
   = length sourceFiles)%nat
  ∧ (In f sourceFiles ↔
       In f (DetailsView.filesWithUnitTests sourceFiles testFiles tests analyses)
       ∨ In f (DetailsView.needsUnitTests sourceFiles testFiles tests analyses))
  ∧ ¬ (In f (DetailsView.filesWithUnitTests sourceFiles testFiles tests analyses)
       ∧ In f (DetailsView.needsUnitTests sourceFiles testFiles tests analyses))
  ∧ (length (DetailsView.filesWithE2ETests sourceFiles testFiles tests analyses)
     + length (DetailsView.needsE2ETests sourceFiles testFiles tests analyses)
     = length sourceFiles)%nat
  ∧ (In f sourceFiles ↔
       In f (DetailsView.filesWithE2ETests sourceFiles testFiles tests analyses)
       ∨ In f (DetailsView.needsE2ETests sourceFiles testFiles tests analyses))
  ∧ ¬ (In f (DetailsView.filesWithE2ETests sourceFiles testFiles tests analyses)
       ∧ In f (DetailsView.needsE2ETests sourceFiles testFiles tests analyses)).
Proof.
  unfold DetailsView.filesWithUnitTests, DetailsView.needsUnitTests,
    DetailsView.filesWithE2ETests, DetailsView.needsE2ETests.
  rewrite !(filter_ext_negb _ _ _ (lacksTests_negb_hasTests _ _ _)).
  rewrite !filter_length, !filter_In.
  repeat split; try tauto.
  - intros Hf.
    destruct (DetailsView.hasTests (DetailsView.unitTestFiles testFiles)
                (DetailsView.unitTests tests) analyses f); simpl; tauto.
  - intros [[_ H1] [_ H2]]. rewrite H1 in H2. discriminate.
  - intros Hf.
    destruct (DetailsView.hasTests (DetailsView.e2eTestFiles testFiles)
                (DetailsView.e2eTests tests) analyses f); simpl; tauto.
  - intros [[_ H1] [_ H2]]. rewrite H1 in H2. discriminate.
Qed.

(** X8. The unit and E2E coverage figures lie between 0 and 100, and when
    there are source files a figure is 100 exactly when the list of files
    needing such tests is empty, which is when the tab says that all source
    files are covered. *)
Theorem tab_coverage_range_and_full
    (sourceFiles testFiles : list File) (tests : list TestRow)
    (analyses : list Analysis.t) :
  let u := DetailsView.unitCoverage sourceFiles testFiles tests analyses in
  let e := DetailsView.e2eCoverage sourceFiles testFiles tests analyses in
  (0 <= u)%Q ∧ (u <= 100)%Q ∧ (0 <= e)%Q ∧ (e <= 100)%Q
  ∧ (sourceFiles ≠ [] →
     ((u == 100)%Q ↔
        DetailsView.needsUnitTests sourceFiles testFiles tests analyses = [])
     ∧ ((e == 100)%Q ↔
          DetailsView.needsE2ETests sourceFiles testFiles tests analyses = [])).
Proof.
  intros u e. unfold u, e, DetailsView.unitCoverage, DetailsView.e2eCoverage,
    DetailsView.filesWithUnitTests, DetailsView.filesWithE2ETests,
    DetailsView.needsUnitTests, DetailsView.needsE2ETests.
  pose proof (filter_length_le
                (DetailsView.hasTests (DetailsView.unitTestFiles testFiles)
                   (DetailsView.unitTests tests) analyses) sourceFiles) as Hu.
  pose proof (filter_length_le
                (DetailsView.hasTests (DetailsView.e2eTestFiles testFiles)
                   (DetailsView.e2eTests tests) analyses) sourceFiles) as He.
  destruct (ratio100_range _ _ Hu) as [Hu0 Hu1].
  destruct (ratio100_range _ _ He) as [He0 He1].
  repeat (split; [assumption|]).
  intros Hne.
  assert (0 < length sourceFiles)%nat as Hpos
    by (destruct sourceFiles; [congruence | simpl; lia]).
  rewrite !(ratio100_full _ _ Hpos).
  rewrite !(filter_ext_negb _ _ _ (lacksTests_negb_hasTests _ _ _)).
  split.
  - pose proof (filter_length
                  (DetailsView.hasTests (DetailsView.unitTestFiles testFiles)
                     (DetailsView.unitTests tests) analyses) sourceFiles) as H.
    rewrite <- length_zero_iff_nil. lia.
  - pose proof (filter_length
                  (DetailsView.hasTests (DetailsView.e2eTestFiles testFiles)
                     (DetailsView.e2eTests tests) analyses) sourceFiles) as H.
    rewrite <- length_zero_iff_nil. lia.
Qed.

Lemma tab_coverage_range_and_full_witness :
  (DetailsView.unitCoverage [calc_py] [test_calc_py] [] [] == 100)%Q ↔
  DetailsView.needsUnitTests [calc_py] [test_calc_py] [] [] = [].
Proof.
  destruct (tab_coverage_range_and_full [calc_py] [test_calc_py] [] [])
    as (_ & _ & _ & _ & H).
  apply H. discriminate.
Defined.

Lemma existsb_filter_sub {A} (p q : A → bool) (l : list A) :
  existsb p (List.filter q l) = true → existsb p l = true.
Proof.
  rewrite !existsb_exists. intros [x [Hx Hp]].
  apply filter_In in Hx as [Hx _]. eauto.
Qed.

Lemma hasTests_mono tf tests an f (keepF : File → bool) (keepT : TestRow → bool) :
  DetailsView.hasTests (List.filter keepF tf) (List.filter keepT tests) an f
  = true →
  DetailsView.hasTests tf tests an f = true.
Proof.
  unfold DetailsView.hasTests. rewrite !positive_length_filter.
  intros H. apply orb_true_iff in H as [H | H]; apply orb_true_iff;
    [left | right]; exact (existsb_filter_sub _ _ _ H).
Qed.

Lemma lacksTests_anti tf tests an f (keepF : File → bool)
    (keepT : TestRow → bool) :
  DetailsView.lacksTests tf tests an f = true →
  DetailsView.lacksTests (List.filter keepF tf) (List.filter keepT tests) an f
  = true.
Proof.
  rewrite !lacksTests_negb_hasTests, !negb_true_iff. intros H.
  destruct (DetailsView.hasTests (List.filter keepF tf) _ an f) eqn:E;
    [|reflexivity].
  apply hasTests_mono in E. congruence.
Qed.

Lemma filter_length_mono {A} (p q : A → bool) (l : list A) :
  (∀ x, p x = true → q x = true) →
  (length (List.filter p l) ≤ length (List.filter q l))%nat.
Proof.
  intros H. induction l as [|x l IH]; [reflexivity|]. simpl.
  destruct (p x) eqn:E.
  - rewrite (H x E). simpl. lia.
  - destruct (q x); simpl; lia.
Qed.

(** X9. The count shown beside "Files Needing Test Coverage" is computed
    from all test files and all generated tests, the list below it from the
    unit ones only: every file counted is in the list before it is cut to 20
    entries, so the count never exceeds the length of that list, and the
    list shown has at most 20 entries.  A file that a tab counts as covered
    has [fileCoverage] 100 in the file list, and a file has [fileCoverage] 0
    exactly when that count includes it. *)
Theorem needing_coverage_count_and_lists
    (sourceFiles testFiles : list File) (tests : list TestRow)
    (analyses : list Analysis.t) (f : File) :
  (In f (List.filter (DetailsView.lacksTests testFiles tests analyses)
           sourceFiles) →
   In f (DetailsView.needsUnitTests sourceFiles testFiles tests analyses)
   ∧ In f (DetailsView.needsE2ETests sourceFiles testFiles tests analyses))
  ∧ (DetailsView.needingCoverageCount sourceFiles testFiles tests analyses
     ≤ length (DetailsView.needsUnitTests sourceFiles testFiles tests analyses))%nat
  ∧ length (DetailsView.shownNeedingUnitTests sourceFiles testFiles tests
              analyses)
    = Nat.min 20
        (length (DetailsView.needsUnitTests sourceFiles testFiles tests
                   analyses))
  ∧ (In f (DetailsView.filesWithUnitTests sourceFiles testFiles tests analyses)
     ∨ In f (DetailsView.filesWithE2ETests sourceFiles testFiles tests analyses)
     → DetailsView.fileCoverage testFiles tests analyses f = 100%Z)
  ∧ (DetailsView.fileCoverage testFiles tests analyses f = 0%Z
     ↔ DetailsView.lacksTests testFiles tests analyses f = true).
Proof.
  unfold DetailsView.needsUnitTests, DetailsView.needsE2ETests,
    DetailsView.needingCoverageCount, DetailsView.shownNeedingUnitTests,
    DetailsView.filesWithUnitTests, DetailsView.filesWithE2ETests,
    DetailsView.fileCoverage, DetailsView.unitTestFiles, DetailsView.unitTests,
    DetailsView.e2eTestFiles, DetailsView.e2eTests.
  split; [|split; [|split; [|split]]].
  - rewrite !filter_In. intros [Hf H].
    split; (split; [exact Hf | apply lacksTests_anti, H]).
  - apply filter_length_mono. intros x. apply lacksTests_anti.
  - apply length_firstn.
  - rewrite !filter_In. intros [[_ H] | [_ H]];
      apply hasTests_mono in H; rewrite H; reflexivity.
  - rewrite lacksTests_negb_hasTests.
    destruct (DetailsView.hasTests testFiles tests analyses f); simpl;
      split; (reflexivity || discriminate).
Qed.

Lemma needing_coverage_count_and_lists_witness :
  DetailsView.fileCoverage [test_calc_py] [] [] calc_py = 100%Z.
Proof.
  apply (needing_coverage_count_and_lists [calc_py] [test_calc_py] [] []
           calc_py).
  left. simpl. left. reflexivity.
Defined.

(** ** Source files grouped by directory *)

Lemma inherited_bool (d : string) :
  existsb (String.eqb d) DetailsView.objectPrototypeKeys = true
  ↔ In d DetailsView.objectPrototypeKeys.
Proof.
  rewrite existsb_exists. split.
  - intros [k [Hk Heq]]. apply String.eqb_eq in Heq. subst. exact Hk.
  - intros H. exists d. split; [exact H | apply String.eqb_refl].
Qed.

Lemma groupFile_ok (acc : gmap string (list File)) (f : File) :
  (∀ k, In k DetailsView.objectPrototypeKeys → acc !! k = None) →
  ¬ In (DetailsView.dirKey f) DetailsView.objectPrototypeKeys →
  ∃ acc', DetailsView.groupFile acc f = Ok acc'
    ∧ (∀ k, In k DetailsView.objectPrototypeKeys → acc' !! k = None)
    ∧ ∀ d, acc' !! d
           = if String.eqb (DetailsView.dirKey f) d
             then Some (default [] (acc !! d) ++ [f])%list
             else acc !! d.
Proof.
  intros Hinv Hgood. unfold DetailsView.groupFile. cbv zeta.
  set (dir := DetailsView.dirKey f) in *.
  assert (∀ v k, In k DetailsView.objectPrototypeKeys →
                 <[dir := v]> acc !! k = None) as Hins.
  { intros v k Hk. rewrite lookup_insert_ne; [apply Hinv, Hk|].
    intros ->. exact (Hgood Hk). }
  assert (∀ v d, <[dir := v]> acc !! d
                 = if String.eqb dir d then Some v else acc !! d) as Hlook.
  { intros v d. destruct (String.eqb_spec dir d) as [<- | Hne].
    - apply lookup_insert_eq.
    - apply lookup_insert_ne, Hne. }
  destruct (acc !! dir) as [l0|] eqn:E.
  - eexists. split; [reflexivity|]. split; [apply Hins|].
    intros d. rewrite Hlook.
    destruct (String.eqb_spec dir d) as [<- | Hne]; [|reflexivity].
    rewrite E. reflexivity.
  - destruct (existsb (String.eqb dir) DetailsView.objectPrototypeKeys) eqn:Eb.
    + apply inherited_bool in Eb. destruct (Hgood Eb).
    + eexists. split; [reflexivity|]. split; [apply Hins|].
      intros d. rewrite Hlook.
      destruct (String.eqb_spec dir d) as [<- | Hne]; [|reflexivity].
      rewrite E. reflexivity.
Qed.

Lemma groupFiles_ok (l : list File) (acc : gmap string (list File)) :
  (∀ k, In k DetailsView.objectPrototypeKeys → acc !! k = None) →
  (∀ f, In f l → ¬ In (DetailsView.dirKey f) DetailsView.objectPrototypeKeys) →
  ∃ m, forEachM DetailsView.groupFile l acc = Ok m
    ∧ ∀ d, m !! d = pushedOnto (acc !! d) (filesOfDir d l).
Proof.
  revert acc. induction l as [|f l IH]; intros acc Hinv Hgood.
  - exists acc. split; reflexivity.
  - destruct (groupFile_ok acc f Hinv (Hgood f (or_introl eq_refl)))
      as (acc' & Hstep & Hinv' & Hlook).
    destruct (IH acc' Hinv' (fun g Hg => Hgood g (or_intror Hg)))
      as (m & Hm & Hspec).
    exists m. split; [cbn [forEachM]; rewrite Hstep; exact Hm|].
    intros d. rewrite Hspec, Hlook. unfold filesOfDir. cbn [List.filter].
    destruct (String.eqb (DetailsView.dirKey f) d); [|reflexivity].
    unfold pushedOnto.
    destruct (List.filter _ l) as [|g fl]; [reflexivity|].
    f_equal. change (default [] (Some ?x)) with x.
    rewrite <- app_assoc. reflexivity.
Qed.

Lemma groupFiles_throw (l : list File) (acc : gmap string (list File)) :
  (∀ k, In k DetailsView.objectPrototypeKeys → acc !! k = None) →
  (∃ f, In f l ∧ In (DetailsView.dirKey f) DetailsView.objectPrototypeKeys) →
  forEachM DetailsView.groupFile l acc = Throw.
Proof.
  revert acc. induction l as [|f l IH]; intros acc Hinv [g [Hg Hbad]].
  - destruct Hg.
  - cbn [forEachM].
    destruct (existsb (String.eqb (DetailsView.dirKey f))
                DetailsView.objectPrototypeKeys) eqn:Eb.
    + unfold DetailsView.groupFile. cbv zeta.
      apply inherited_bool in Eb as Hk. rewrite (Hinv _ Hk), Eb. reflexivity.
    + assert (¬ In (DetailsView.dirKey f) DetailsView.objectPrototypeKeys)
        as Hgood by (rewrite <- inherited_bool, Eb; discriminate).
      destruct (groupFile_ok acc f Hinv Hgood) as (acc' & Hstep & Hinv' & _).
      rewrite Hstep. cbn [bind]. apply IH; [exact Hinv'|].
      destruct Hg as [<- | Hg]; [destruct (Hgood Hbad)|]. eauto.
Qed.

Lemma filesByDir_groups_helper (sourceFiles : list File) :
  (∀ f, In f sourceFiles →
        ¬ In (DetailsView.dirKey f) DetailsView.objectPrototypeKeys) →
  ∃ m, DetailsView.filesByDir sourceFiles = Ok m.
Proof.
  intros Hgood.
  destruct (groupFiles_ok sourceFiles ∅ (fun k _ => lookup_empty k) Hgood)
    as (m & Hm & _).
  exists m. exact Hm.
Qed.

(** X10. When no source file lies in a directory named like a member of
    [Object.prototype], grouping succeeds and [filesByDir[d]] is the list of
    the source files whose directory is [d], in their original order ('/'
    standing for the top directory); a directory without source files has no
    entry.  (The order of the entries is not modelled.) *)
Theorem filesByDir_groups (sourceFiles : list File) :
  (∀ f, In f sourceFiles →
        ¬ In (DetailsView.dirKey f) DetailsView.objectPrototypeKeys) →
  ∃ m, DetailsView.filesByDir sourceFiles = Ok m
    ∧ ∀ d, m !! d
           = match filesOfDir d sourceFiles with
             | [] => None
             | dirFiles => Some dirFiles
             end.
Proof.
  intros Hgood.
  destruct (groupFiles_ok sourceFiles ∅ (fun k _ => lookup_empty k) Hgood)
    as (m & Hm & Hspec).
  exists m. split; [exact Hm|]. intros d. rewrite Hspec, lookup_empty.
  unfold pushedOnto. destruct (filesOfDir d sourceFiles); reflexivity.
Qed.

Lemma filesByDir_groups_witness :
  ∃ m, DetailsView.filesByDir [calc_py; test_calc_py; util_py] = Ok m
    ∧ ∀ d, m !! d
           = match filesOfDir d [calc_py; test_calc_py; util_py] with
             | [] => None
             | dirFiles => Some dirFiles
             end.
Proof.
  apply (filesByDir_groups [calc_py; test_calc_py; util_py]).
  intros f [<- | [<- | [<- | []]]]; vm_compute; intuition discriminate.
Defined.

(** X11. Grouping throws exactly when some source file lies in a directory
    named like a member of [Object.prototype], such as [constructor] or
    [toString]: [filesByDir[dir]] is then truthy without being an array. *)
Theorem filesByDir_throws_iff (sourceFiles : list File) :
  DetailsView.filesByDir sourceFiles = Throw ↔
  ∃ f, In f sourceFiles
       ∧ In (DetailsView.dirKey f) DetailsView.objectPrototypeKeys.
Proof.
  split.
  - intros Hthrow.
    destruct (existsb
                (fun f => existsb (String.eqb (DetailsView.dirKey f))
                            DetailsView.objectPrototypeKeys) sourceFiles)
      eqn:E.
    + apply existsb_exists in E as [f [Hf Hk]]. apply inherited_bool in Hk.
      eauto.
    + assert (∀ f, In f sourceFiles →
                   ¬ In (DetailsView.dirKey f) DetailsView.objectPrototypeKeys)
        as Hgood.
      { intros f Hf Hk. apply inherited_bool in Hk.
        assert (existsb
                  (fun f => existsb (String.eqb (DetailsView.dirKey f))
                              DetailsView.objectPrototypeKeys) sourceFiles
                = true) as Ht by (apply existsb_exists; eauto).
        congruence. }
      destruct (filesByDir_groups_helper sourceFiles Hgood) as [m Hm].
      congruence.
  - apply groupFiles_throw. intros k _. apply lookup_empty.
Qed.

(** ** The list page never fails *)

Lemma anyL_allCodeFiles files :
  RepositoriesAny.allCodeFiles (map anyOf files) = map anyOf (allCodeFiles files).
Proof. apply filter_anyOf. reflexivity. Qed.

Lemma anyL_sourceFiles files :
  RepositoriesAny.sourceFiles (map anyOf files)
  = Ok (map anyOf (Repositories.sourceFiles files)).
Proof.
  unfold RepositoriesAny.sourceFiles, Repositories.sourceFiles.
  rewrite anyL_allCodeFiles. apply filterM_anyOf. reflexivity.
Qed.

Lemma anyL_testFiles files :
  RepositoriesAny.testFiles (map anyOf files)
  = Ok (map anyOf (Repositories.testFiles files)).
Proof.
  unfold RepositoriesAny.testFiles, Repositories.testFiles.
  rewrite anyL_allCodeFiles. apply filterM_anyOf. reflexivity.
Qed.

Lemma anyL_addTestFile sf acc t :
  RepositoriesAny.addTestFile (map anyOf sf) acc (anyOf t)
  = Ok (Repositories.addTestFile sf acc t).
Proof.
  unfold RepositoriesAny.addTestFile, RepositoriesAny.matchingSource,
    Repositories.addTestFile, Repositories.matchingSource. simpl.
  rewrite (findM_anyOf _
             (Repositories.matchesSource (toLowerCase (name t))
                (toLowerCase (relative_path t))
                (Repositories.potentialSourceName (toLowerCase (name t)))))
    by reflexivity.
  simpl. destruct (List.find _ sf); reflexivity.
Qed.

Lemma anyL_addGenerated sf an acc g :
  RepositoriesAny.addGenerated (map anyOf sf) an acc g
  = Ok (Repositories.addGenerated sf an acc g).
Proof.
  unfold RepositoriesAny.addGenerated, RepositoriesAny.matchGenerated,
    Repositories.addGenerated, Repositories.matchGenerated.
  destruct (List.find _ an) as [a|]; [|reflexivity].
  destruct (truthyOpt _); [|reflexivity].
  rewrite (findM_anyOf _
             (Repositories.matchesAnalysis
                (toLowerCase (orEmpty (Analysis.file_path a)))))
    by reflexivity.
  simpl. destruct (List.find _ sf); reflexivity.
Qed.

Lemma anyL_totalCoverage sf tf tests an :
  RepositoriesAny.totalCoverage (map anyOf sf) (map anyOf tf) tests an
  = Ok (Repositories.totalCoverageNumber sf tf tests an).
Proof.
  unfold RepositoriesAny.totalCoverage, RepositoriesAny.sourceFilesWithTests,
    Repositories.totalCoverageNumber, Repositories.sourceFilesWithTests.
  rewrite (forEachM_pure _ (Repositories.addTestFile sf) anyOf)
    by apply anyL_addTestFile.
  simpl. rewrite <- (map_id tests) at 1.
  rewrite (forEachM_pure _ (Repositories.addGenerated sf an) (fun g => g))
    by apply anyL_addGenerated.
  simpl. unfold percentageNumber. rewrite length_map. reflexivity.
Qed.

Lemma isTestFile_incomplete x :
  incomplete x = true →
  RepositoriesAny.isTestFile (any_relative_path x) (any_name x) = Throw.
Proof. destruct x as [[n|] [p|] e]; simpl; try discriminate; reflexivity. Qed.

(** The defaults, when a code file lacks its name or its path. *)
Lemma tryRepoStat_incomplete data files x :
  In x (RepositoriesAny.allCodeFiles files) → incomplete x = true →
  RepositoriesAny.tryRepoStat (Ok data) (Ok files) = Throw.
Proof.
  intros Hx Hinc. unfold RepositoriesAny.tryRepoStat. cbn [bind].
  unfold RepositoriesAny.sourceFiles.
  rewrite (filterM_throw _ _ x Hx); [reflexivity|].
  rewrite (isTestFile_incomplete x Hinc). reflexivity.
Qed.

(** The body of the [try] on files that all have their name and path. *)
Lemma tryRepoStat_complete data (files : list File) :
  RepositoriesAny.tryRepoStat (Ok data) (Ok (map anyOf files))
  = match data_statistics data with
    | Some s =>
        Ok (mkRepoStat (RepositoriesAny.issuesOrZero s)
              (Repositories.roundedCoverage
                 (Repositories.totalCoverageNumber
                    (Repositories.sourceFiles files)
                    (Repositories.testFiles files)
                    (default [] (data_tests data))
                    (default [] (data_analyses data)))))
    | None => Throw
    end.
Proof.
  unfold RepositoriesAny.tryRepoStat. cbn [bind].
  rewrite anyL_sourceFiles. cbn [bind]. rewrite anyL_testFiles. cbn [bind].
  rewrite anyL_totalCoverage. cbn [bind].
  destruct (data_statistics data); reflexivity.
Qed.

Lemma anyL_allCodeFiles_idemp files :
  RepositoriesAny.allCodeFiles (RepositoriesAny.allCodeFiles files)
  = RepositoriesAny.allCodeFiles files.
Proof.
  unfold RepositoriesAny.allCodeFiles.
  induction files as [|x l IH]; [reflexivity|]. cbn [List.filter].
  destruct (existsb _ codeExtensions) eqn:E; [|exact IH].
  cbn [List.filter]. rewrite E, IH. reflexivity.
Qed.

Lemma tryRepoStat_code_files data files :
  RepositoriesAny.tryRepoStat (Ok data) (Ok files)
  = RepositoriesAny.tryRepoStat (Ok data)
      (Ok (RepositoriesAny.allCodeFiles files)).
Proof.
  unfold RepositoriesAny.tryRepoStat, RepositoriesAny.sourceFiles,
    RepositoriesAny.testFiles.
  rewrite anyL_allCodeFiles_idemp. reflexivity.
Qed.

Lemma tryRepoStat_no_files data :
  RepositoriesAny.tryRepoStat (Ok data) Throw
  = RepositoriesAny.tryRepoStat (Ok data) (Ok (map anyOf [])).
Proof. reflexivity. Qed.

(** X12. When the details arrive with their statistics and every file record
    has its name and path, the list page keeps for the repository the issue
    count sent ([0] when it is missing) and [Math.round(c * 10) / 10] for the
    number [c] that the typed computation gives on the partition of the
    files; when only the file request fails, the issue count is kept and the
    coverage is 0. *)
Theorem list_stat_of_complete_records
    (statsData : Statistics) (analyses : option (list Analysis.t))
    (tests : option (list GeneratedTest)) (files : list File) :
  let data := mkDetailsData (Some statsData) analyses tests in
  RepositoriesAny.repoStat (Ok data) (Ok (map anyOf files))
  = mkRepoStat (RepositoriesAny.issuesOrZero statsData)
      (Repositories.roundedCoverage
         (Repositories.totalCoverageNumber (Repositories.sourceFiles files)
            (Repositories.testFiles files) (default [] tests)
            (default [] analyses)))
  ∧ issues (RepositoriesAny.repoStat (Ok data) Throw)
    = RepositoriesAny.issuesOrZero statsData
  ∧ (coverage (RepositoriesAny.repoStat (Ok data) Throw) == 0)%Q.
Proof.
  intros data. unfold RepositoriesAny.repoStat.
  rewrite tryRepoStat_no_files, !tryRepoStat_complete. simpl.
  repeat split; reflexivity.
Qed.

(** X13. The repository gets the defaults, 0 issues and 0 coverage, whatever
    the backend reported, as soon as the details request fails, the details
    carry no statistics, or one code file lacks its name or its path. *)
Theorem list_stat_defaults
    (data : DetailsData) (filesResponse : result (list AnyFile))
    (files : list AnyFile) (x : AnyFile) :
  RepositoriesAny.repoStat Throw filesResponse = mkRepoStat 0 0
  ∧ (data_statistics data = None →
     RepositoriesAny.repoStat (Ok data) filesResponse = mkRepoStat 0 0)
  ∧ (In x (RepositoriesAny.allCodeFiles files) → incomplete x = true →
     RepositoriesAny.repoStat (Ok data) (Ok files) = mkRepoStat 0 0).
Proof.
  split; [reflexivity|]. split.
  - intros Hnone. unfold RepositoriesAny.repoStat,
      RepositoriesAny.tryRepoStat. cbn [bind]. rewrite Hnone.
    destruct (RepositoriesAny.sourceFiles _); [|reflexivity]. cbn [bind].
    destruct (RepositoriesAny.testFiles _); [|reflexivity]. cbn [bind].
    destruct (RepositoriesAny.totalCoverage _ _ _ _); reflexivity.
  - intros Hx Hinc. unfold RepositoriesAny.repoStat.
    rewrite (tryRepoStat_incomplete data files x Hx Hinc). reflexivity.
Qed.

Lemma list_stat_defaults_witness :
  RepositoriesAny.repoStat
    (Ok (mkDetailsData (Some (mkStatistics (Some 7))) None None))
    (Ok [anyOf calc_py; mkAnyFile None (Some "src/util.py") (Some ".py")])
  = mkRepoStat 0 0.
Proof.
  apply (list_stat_defaults
           (mkDetailsData (Some (mkStatistics (Some 7))) None None) Throw
           [anyOf calc_py; mkAnyFile None (Some "src/util.py") (Some ".py")]
           (mkAnyFile None (Some "src/util.py") (Some ".py"))).
  - simpl. right. left. reflexivity.
  - reflexivity.
Defined.

(** X14. Whatever the two responses are, the coverage the list page keeps
    for a repository lies between 0 and 100. *)
Theorem list_stat_coverage_range
    (details : result DetailsData) (filesResponse : result (list AnyFile)) :
  (0 <= coverage (RepositoriesAny.repoStat details filesResponse))%Q
  ∧ (coverage (RepositoriesAny.repoStat details filesResponse) <= 100)%Q.
Proof.
  assert (∀ data (l : list File),
            (0 <= coverage (RepositoriesAny.repoStat (Ok data)
                              (Ok (map anyOf l))))%Q
            ∧ (coverage (RepositoriesAny.repoStat (Ok data)
                           (Ok (map anyOf l))) <= 100)%Q) as Htyped.
  { intros data l. unfold RepositoriesAny.repoStat.
    rewrite tryRepoStat_complete.
    destruct (data_statistics data); [|split; discriminate].
    cbn [coverage].
    destruct (percentageNumber_spec _ _
                (list_size (Repositories.sourceFiles l)
                   (Repositories.testFiles l) (default [] (data_tests data))
                   (default [] (data_analyses data)))) as (H0 & H100 & _).
    destruct (roundedCoverage_spec _ H0 H100) as (_ & Hr0 & Hr100 & _).
    split; assumption. }
  destruct details as [data|]; [|split; discriminate].
  destruct filesResponse as [files|].
  - unfold RepositoriesAny.repoStat. rewrite tryRepoStat_code_files.
    destruct (existsb incomplete (RepositoriesAny.allCodeFiles files)) eqn:E.
    + apply existsb_exists in E as [x [Hx Hinc]].
      rewrite <- tryRepoStat_code_files.
      rewrite (tryRepoStat_incomplete data files x Hx Hinc).
      split; discriminate.
    + rewrite <- (map_anyOf_typedOf _ E). apply Htyped.
  - unfold RepositoriesAny.repoStat. rewrite tryRepoStat_no_files.
    apply Htyped.
Qed.

(** ** Issue filter: the count on a button and the list it opens *)

Lemma counted_is_shown (type : string) (i : Issue) :
  In type ["security"; "bug"; "performance"; "style"; "best_practice"] →
  DetailsView.countedForButton type i = true →
  DetailsView.shownInList type i = true.
Proof.
  intros Htype. unfold DetailsView.countedForButton, DetailsView.shownInList.
  cbv zeta. set (t := toLowerCase (orEmpty (issue_type i))).
  simpl in Htype.
  repeat (destruct Htype as [<- | Htype]); [..|destruct Htype];
    try (change (String.eqb ?x "best_practice" && ?y) with false;
         rewrite orb_false_r; intros H; apply String.eqb_eq in H;
         rewrite H; reflexivity).
  intros H.
  assert (t = "best_practice" ∨ t = "code_improvements") as [-> | ->].
  { apply orb_true_iff in H as [H | H].
    - left. apply String.eqb_eq, H.
    - simpl in H. apply orb_true_iff in H as [H | H];
        [left | right]; apply String.eqb_eq, H. }
  - reflexivity.
  - reflexivity.
Qed.

(** X15. For each of the buttons security, bug, performance, style and
    best_practice, every issue counted on the button is in the list shown
    once the button is pressed, so the count never exceeds the length of that
    list; for the button 'all' both are the number of issues. *)
Theorem issue_button_count_within_list (type : string) (issues : list Issue) :
  In type ["security"; "bug"; "performance"; "style"; "best_practice"] →
  (∀ i, In i issues → DetailsView.countedForButton type i = true →
        In i (DetailsView.filteredIssues (DetailsView.filterValue type) issues))
  ∧ (DetailsView.filteredCount type issues
     ≤ length (DetailsView.filteredIssues (DetailsView.filterValue type)
                 issues))%nat
  ∧ DetailsView.filteredCount "all" issues = length issues
  ∧ DetailsView.filteredIssues (DetailsView.filterValue "all") issues = issues.
Proof.
  intros Htype.
  assert (DetailsView.filterValue type = Some type ∧ truthy type = true)
    as [Hfv Htruthy].
  { simpl in Htype.
    repeat (destruct Htype as [<- | Htype]); [..|destruct Htype];
      split; reflexivity. }
  unfold DetailsView.filteredCount, DetailsView.filteredIssues.
  rewrite Hfv. cbn [truthyOpt orEmpty]. rewrite Htruthy.
  split; [|split; [|split; reflexivity]].
  - intros i Hi Hc. apply filter_In. split; [exact Hi|].
    apply counted_is_shown; assumption.
  - apply filter_length_mono. intros i. apply counted_is_shown, Htype.
Qed.

Lemma issue_button_count_within_list_witness :
  (DetailsView.filteredCount "bug"
     [mkIssue (Some "Bug") None; mkIssue (Some " bug ") None]
   ≤ length (DetailsView.filteredIssues (DetailsView.filterValue "bug")
               [mkIssue (Some "Bug") None; mkIssue (Some " bug ") None]))%nat.
Proof.
  apply (issue_button_count_within_list "bug"
           [mkIssue (Some "Bug") None; mkIssue (Some " bug ") None]).
  simpl. right. left. reflexivity.
Defined.

(** *** The test counters of the two tabs *)

Lemma countTestMethods_zero (testCode : string) :
  DetailsView.countTestMethods testCode = 0%nat ↔ testCode = EmptyString.
Proof.
  unfold DetailsView.countTestMethods, truthy.
  destruct testCode as [|c s]; [split; reflexivity|].
  cbn [String.eqb negb].
  split; [|discriminate].
  match goal with
  | |- context [if (?n =? 0)%nat then 1%nat else ?n] =>
      destruct (Nat.eqb_spec n 0); [discriminate|intros E; contradiction]
  end.
Qed.

Lemma testCountOf_clamped_sum (l : list TestRow) (acc : Z) :
  0 ≤ acc →
  acc ≤ fold_left
          (fun sum test =>
             let testCount := DetailsView.testCountOf test in
             sum + (if 0 <? testCount then testCount else 0))
          l acc.
Proof.
  revert acc. induction l as [|t l IH]; intros acc Hacc; cbn [fold_left]; [lia|].
  cbv zeta.
  etransitivity; [|apply IH];
    destruct (Z.ltb_spec 0 (DetailsView.testCountOf t)); lia.
Qed.

(** X16.  The numbers on the "Unit Tests" and "E2E Tests" cards are never
    negative and are 0 exactly when the tab has neither a generated test nor a
    test file of its kind, whatever [test_count] and [test_code] the records
    carry (a negative [test_count] included, which the E2E sum does not
    clamp).  On the unit tab the conditional of the card is redundant: the
    number shown is [totalTestMethods] itself. *)
Theorem test_cards_zero_iff_nothing (testFiles : list File) (tests : list TestRow) :
  (0 ≤ DetailsView.unitTestsShown testFiles tests
   ∧ (DetailsView.unitTestsShown testFiles tests = 0
      ↔ DetailsView.unitTests tests = []
        ∧ DetailsView.unitTestFiles testFiles = [])
   ∧ DetailsView.unitTestsShown testFiles tests
     = DetailsView.totalTestMethods testFiles tests)
  ∧ (0 ≤ DetailsView.e2eTestsShown testFiles tests
     ∧ (DetailsView.e2eTestsShown testFiles tests = 0
        ↔ DetailsView.e2eTests tests = []
          ∧ DetailsView.e2eTestFiles testFiles = [])).
Proof.
  split.
  - unfold DetailsView.unitTestsShown, DetailsView.totalTestMethods.
    cbv zeta.
    pose proof (testCountOf_clamped_sum (DetailsView.unitTests tests) 0
                  ltac:(lia)) as Hsum.
    assert (Hnil : DetailsView.unitTests tests = [] →
                   fold_left
                     (fun sum test =>
                        let testCount := DetailsView.testCountOf test in
                        sum + (if 0 <? testCount then testCount else 0))
                     (DetailsView.unitTests tests) 0 = 0)
      by (intros ->; reflexivity).
    cbv zeta in Hsum, Hnil.
    set (total := fold_left _ _ _) in *.
    clearbody total.
    destruct (DetailsView.unitTests tests) as [|t l];
      destruct (DetailsView.unitTestFiles testFiles) as [|f fs];
      cbn [length Nat.ltb Nat.leb andb] in *;
      rewrite ?andb_false_r, ?andb_true_r;
      try (rewrite (Hnil eq_refl); cbn);
      repeat match goal with
             | |- context [total =? 0] => destruct (Z.eqb_spec total 0)
             | |- context [0 <? ?x] => destruct (Z.ltb_spec 0 x)
             end;
      repeat split; intros; try discriminate; try lia;
      try (destruct H; discriminate);
      try match goal with H : _ ∧ _ |- _ => destruct H; discriminate end.
  - unfold DetailsView.e2eTestsShown, DetailsView.totalE2ETestMethods.
    cbv zeta.
    assert (Hnil : DetailsView.e2eTests tests = [] →
                   fold_left
                     (fun sum test => sum + DetailsView.testCountOf test)
                     (DetailsView.e2eTests tests) 0 = 0)
      by (intros ->; reflexivity).
    set (total := fold_left _ _ _) in *.
    clearbody total.
    destruct (DetailsView.e2eTests tests) as [|t l];
      destruct (DetailsView.e2eTestFiles testFiles) as [|f fs];
      cbn [length Nat.ltb Nat.leb] in *;
      try (rewrite (Hnil eq_refl); cbn);
      repeat match goal with
             | |- context [0 <? ?x] => destruct (Z.ltb_spec 0 x)
             end;
      repeat split; intros; try discriminate; try lia;
      try match goal with H : _ ∧ _ |- _ => destruct H; discriminate end.
Qed.

Lemma testCountOf_positive (t : TestRow) :
  hasCountOrCode t → 1 ≤ DetailsView.testCountOf t.
Proof.
  unfold hasCountOrCode, DetailsView.testCountOf, truthyNum.
  assert (Hcode : orEmpty (test_code t) ≠ EmptyString →
                  1 ≤ Z.of_nat
                        (DetailsView.countTestMethods (orEmpty (test_code t)))).
  { intros Hne.
    pose proof (countTestMethods_zero (orEmpty (test_code t))) as [Hz _].
    destruct (DetailsView.countTestMethods (orEmpty (test_code t)));
      [destruct (Hne (Hz eq_refl))|lia]. }
  destruct (test_count t) as [n|]; cbn [default]; [|exact Hcode].
  destruct (Z.eqb_spec n 0) as [->|Hn0]; cbn [negb]; intros [Hn|[Hn Hne]];
    unfold id; try lia; auto.
Qed.

Lemma fold_left_sum_at_least (f : TestRow → Z) (l : list TestRow) (acc : Z) :
  Forall (fun t => 1 ≤ f t) l →
  acc + Z.of_nat (length l) ≤ fold_left (fun sum test => sum + f test) l acc.
Proof.
  intros Hl. revert acc.
  induction Hl as [|t l Ht _ IH]; intros acc; cbn [fold_left length]; [lia|].
  etransitivity; [|apply IH]. lia.
Qed.

(** X17.  When every generated test carries a positive [test_count], or no
    count and some test code, the cards of both tabs show at least as many
    tests as the tab has generated tests: each one counts for its
    [test_count], or else for what [countTestMethods] finds in its code, which
    is at least 1 for any code that is not empty. *)
Theorem cards_count_every_test (testFiles : list File) (tests : list TestRow) :
  Forall hasCountOrCode tests →
  Z.of_nat (length (DetailsView.unitTests tests))
    ≤ DetailsView.unitTestsShown testFiles tests
  ∧ Z.of_nat (length (DetailsView.e2eTests tests))
    ≤ DetailsView.e2eTestsShown testFiles tests.
Proof.
  intros Hall.
  assert (Hfilter : ∀ p, Forall (fun t => 1 ≤ DetailsView.testCountOf t)
                           (List.filter p tests)).
  { intros p. apply List.Forall_forall. intros t Ht.
    apply List.filter_In in Ht as [Ht _].
    apply testCountOf_positive.
    exact (proj1 (List.Forall_forall _ _) Hall t Ht). }
  split.
  - unfold DetailsView.unitTestsShown, DetailsView.totalTestMethods.
    cbv zeta.
    pose proof (fold_left_sum_at_least
                  (fun test =>
                     if 0 <? DetailsView.testCountOf test
                     then DetailsView.testCountOf test else 0)
                  (DetailsView.unitTests tests) 0) as Hsum.
    cbv beta in Hsum.
    set (total := fold_left _ _ _) in *.
    assert (Hle : Z.of_nat (length (DetailsView.unitTests tests)) ≤ total).
    { etransitivity; [|apply Hsum]; [lia|].
      eapply List.Forall_impl; [|apply Hfilter].
      intros t Ht. cbv beta in Ht.
      destruct (Z.ltb_spec 0 (DetailsView.testCountOf t)); lia. }
    clear Hsum. clearbody total.
    repeat match goal with
           | |- context [(0 <? ?x)%nat] => destruct (Nat.ltb_spec 0 x)
           | |- context [total =? 0] =>
               destruct (Z.eqb_spec total 0); cbn [andb]
           | |- context [?a =? 0] => destruct (Z.eqb_spec a 0); cbn [andb]
           | |- context [0 <? ?x] => destruct (Z.ltb_spec 0 x)
           end; lia.
  - unfold DetailsView.e2eTestsShown, DetailsView.totalE2ETestMethods.
    cbv zeta.
    pose proof (fold_left_sum_at_least DetailsView.testCountOf
                  (DetailsView.e2eTests tests) 0 (Hfilter _)) as Hsum.
    set (total := fold_left _ _ _) in *.
    clearbody total.
    repeat match goal with
           | |- context [0 <? ?x] => destruct (Z.ltb_spec 0 x)
           | |- context [(0 <? ?x)%nat] => destruct (Nat.ltb_spec 0 x)
           end; lia.
Qed.

Lemma cards_count_every_test_witness :
  Z.of_nat
    (length
       (DetailsView.unitTests
          [mkTestRow (mkGeneratedTest 1 None None) (Some "unit") None
             (Some "def test_a(): pass");
           mkTestRow (mkGeneratedTest 2 None None) (Some "e2e") (Some 3)
             None]))
    ≤ DetailsView.unitTestsShown [test_calc_py]
        [mkTestRow (mkGeneratedTest 1 None None) (Some "unit") None
           (Some "def test_a(): pass");
         mkTestRow (mkGeneratedTest 2 None None) (Some "e2e") (Some 3) None]
  ∧ Z.of_nat
      (length
         (DetailsView.e2eTests
            [mkTestRow (mkGeneratedTest 1 None None) (Some "unit") None
               (Some "def test_a(): pass");
             mkTestRow (mkGeneratedTest 2 None None) (Some "e2e") (Some 3)
               None]))
    ≤ DetailsView.e2eTestsShown [test_calc_py]
        [mkTestRow (mkGeneratedTest 1 None None) (Some "unit") None
           (Some "def test_a(): pass");
         mkTestRow (mkGeneratedTest 2 None None) (Some "e2e") (Some 3) None].
Proof.
  apply (cards_count_every_test [test_calc_py]).
  apply List.Forall_cons; [unfold hasCountOrCode; simpl; discriminate|].
  apply List.Forall_cons; [unfold hasCountOrCode; simpl; lia|].
  apply List.Forall_nil.
Defined.
